(** * Beta-t-EGARCH in-mean regression model (pyflux/garch/egarchmreg.py)

    A shallow embedding of the [EGARCHMReg] class: the latent-variable
    layout built by the constructor and rewritten by [add_leverage], the
    recursive filter [_model], the likelihood [neg_loglik], the two
    forecast engines [_mean_prediction] and [_sim_prediction], and the
    estimation guards of [predict], [plot_predict] and [plot_fit].

    Numbers.  NumPy's float64 values are idealised as real numbers ([R]):
    [+], [*], [/], [np.exp], [np.power(_,2)] and [np.sign] are the exact
    real operations, so rounding, overflow and NaN/Inf propagation are
    outside the model.  Where a statement would hold over the reals only,
    the line is given in binary64 as well ([score_value_b64]) and the
    difference is proved.

    Errors.  A Python exception is a value of [exn]; fallible code lives
    in the [result] monad.

    Arrays.  Arrays that a function creates and keeps to itself are lists
    updated by index.  The forecast engines receive arrays from their
    caller, so they run over a store of arrays addressed by reference
    (monad [M]); [copy] and [np.append] allocate, item assignment writes
    in place. *)

From Stdlib Require Import Reals Lra Lia ZArith String DecimalString Floats.
From stdpp Require Import base list.

(** ** Exceptions and the error monad *)

Inductive exn : Type :=
  | IndexError
  | ValueError
  | UnboundLocalError (var : string)
  | Exception (msg : string).

Inductive result (A : Type) : Type :=
  | Ok (a : A)
  | Raise (e : exn).
Arguments Ok {A} a.
Arguments Raise {A} e.

#[global] Instance result_ret : MRet result := fun A a => Ok a.
#[global] Instance result_bind : MBind result := fun A B f r =>
  match r with
  | Ok a => f a
  | Raise e => Raise e
  end.

(** [for i in idx: s = body(i, s)], stopping at the first exception. *)
Fixpoint for_each {S : Type} (body : nat -> S -> result S) (idx : list nat) (s : S)
  : result S :=
  match idx with
  | [] => Ok s
  | i :: rest => s' ← body i s; for_each body rest s'
  end.

(** [for i in range(lo, hi)]. *)
Definition for_range {S : Type} (lo hi : nat) (body : nat -> S -> result S) (s : S)
  : result S :=
  for_each body (seq lo (hi - lo)) s.

(** ** Python sequence operations *)

(** Resolution of a possibly negative index against a length. *)
Definition wrap_index (n : nat) (i : Z) : Z :=
  if (i <? 0)%Z then (i + Z.of_nat n)%Z else i.

(** [l[i]]: negative indices count from the end, out of range raises. *)
Definition py_index {A : Type} (l : list A) (i : Z) : result A :=
  let j := wrap_index (length l) i in
  if (j <? 0)%Z then Raise IndexError
  else match l !! Z.to_nat j with
       | Some x => Ok x
       | None => Raise IndexError
       end.

(** [l[i] = v], in place. *)
Definition py_setitem {A : Type} (l : list A) (i : Z) (v : A) : result (list A) :=
  let j := wrap_index (length l) i in
  if (j <? 0)%Z then Raise IndexError
  else if (j <? Z.of_nat (length l))%Z then Ok (<[Z.to_nat j := v]> l)
  else Raise IndexError.

(** A slice bound: wrapped when negative, then clamped into [0, n]. *)
Definition clamp_index (n : nat) (i : Z) : nat :=
  Z.to_nat (Z.max 0 (Z.min (wrap_index n i) (Z.of_nat n))).

(** [l[lo:hi]] with either bound optional; slices never raise. *)
Definition py_slice {A : Type} (l : list A) (lo hi : option Z) : list A :=
  let a := from_option (clamp_index (length l)) 0 lo in
  let b := from_option (clamp_index (length l)) (length l) hi in
  drop a (take b l).

(** [l.pop()]. *)
Definition py_pop {A : Type} (l : list A) : result (list A) :=
  match l with
  | [] => Raise IndexError
  | _ => Ok (take (length l - 1) l)
  end.

(** [str(n)] for a non-negative int. *)
Definition str (n : nat) : string := NilEmpty.string_of_uint (Nat.to_uint n).

(** ** NumPy operations on idealised floats *)

Definition np_sum (l : list R) : R := foldr Rplus 0%R l.

Definition np_zeros (n : nat) : list R := replicate n 0%R.

(** [np.dot] of two 1-D arrays; the shapes must agree. *)
Definition np_dot (a b : list R) : result R :=
  if decide (length a = length b)
  then Ok (np_sum (zip_with Rmult a b))
  else Raise ValueError.

Definition np_sign (x : R) : R :=
  if Rlt_dec x 0 then (-1)%R else if Rlt_dec 0 x then 1%R else 0%R.

(** ** Latent variables *)

Inductive transform_kind : Type := T_none | T_logit | T_exp.

(** The prior families used by this model (module [inference]). *)
Inductive Prior : Type :=
  | Normal (mu sigma : R) (transform : transform_kind)
  | Uniform (transform : transform_kind).

Definition prior_kind (pr : Prior) : transform_kind :=
  match pr with
  | Normal _ _ tr => tr
  | Uniform tr => tr
  end.

(** Modelled from the spec: the prior's [transform] function lives in the
    [inference] module, which is not part of the source file; the spec
    gives it as identity, logistic ("logit") or exponential. *)
Definition transform (pr : Prior) (x : R) : R :=
  match prior_kind pr with
  | T_none => x
  | T_logit => (1 / (1 + exp (- x)))%R
  | T_exp => exp x
  end.

Record LatentVariable : Type := {
  name : string;
  prior : Prior;
  start : R;
  value : R
}.

Record LatentVariables : Type := {
  z_list : list LatentVariable;
  estimated : bool
}.

(** Modelled from the spec: [add_z] belongs to the latent-variable
    registry, which is not part of the source file; it appends one entry
    (name, prior, start value 0) at the end of the ordered sequence.  The
    variational family passed as third argument is not recorded. *)
Definition add_z (lv : LatentVariables) (nm : string) (pr : Prior) : LatentVariables :=
  {| z_list := z_list lv ++ [ {| name := nm; prior := pr; start := 0; value := 0 |} ];
     estimated := estimated lv |}.

Definition set_start (s : R) (z : LatentVariable) : LatentVariable :=
  {| name := name z; prior := prior z; start := s; value := value z |}.

(** [z_list[i].start = s]. *)
Definition assign_start (lv : LatentVariables) (i : Z) (s : R) : result LatentVariables :=
  z ← py_index (z_list lv) i;
  zl ← py_setitem (z_list lv) i (set_start s z);
  Ok {| z_list := zl; estimated := estimated lv |}.

(** Modelled from the spec: [get_z_values] and [transform_z] belong to the
    registry and the time-series base class; they return the current
    values, raw and passed through each variable's own transform. *)
Definition get_z_values (lv : LatentVariables) : list R :=
  value <$> z_list lv.

Definition transform_z (lv : LatentVariables) : list R :=
  (fun z => transform (prior z) (value z)) <$> z_list lv.

(** ** The model object *)

Record EGARCHMReg : Type := {
  p : nat;
  q : nat;
  max_lag : nat;
  z_no : nat;
  leverage : bool;
  model_name : string;
  data : list R;
  X : list (list R);
  X_names : list string;
  latent_variables : LatentVariables
}.

Definition with_latent_variables (m : EGARCHMReg) (lv : LatentVariables) : EGARCHMReg :=
  {| p := p m; q := q m; max_lag := max_lag m; z_no := z_no m;
     leverage := leverage m; model_name := model_name m; data := data m;
     X := X m; X_names := X_names m; latent_variables := lv |}.

(** [self.X.shape[1]] for a matrix kept as its list of rows. *)
Definition shape1 (X : list (list R)) : nat :=
  match X with
  | [] => 0
  | row :: _ => length row
  end.

(** [_create_latent_variables]. *)
Definition _create_latent_variables (m : EGARCHMReg) : result EGARCHMReg :=
  lv ← for_range 0 (p m) (fun p_term lv =>
         let lv := add_z lv ("p(" ++ str (p_term + 1) ++ ")")%string (Normal 0 0.5 T_logit) in
         if decide (p_term = 0)
         then assign_start lv (-1)%Z 3.00%R
         else assign_start lv (-1)%Z (-4.00)%R)
       (latent_variables m);
  lv ← for_range 0 (q m) (fun q_term lv =>
         let lv := add_z lv ("q(" ++ str (q_term + 1) ++ ")")%string (Normal 0 0.5 T_logit) in
         if decide (q_term = 0)
         then assign_start lv (-1)%Z (-1.50)%R
         else assign_start lv (-1)%Z (-4.00)%R)
       lv;
  let lv := add_z lv "v"%string (Uniform T_exp) in
  let lv := add_z lv "GARCH-M"%string (Normal 0 3 T_none) in
  lv ← for_each (fun parm lv =>
         nm ← py_index (X_names m) (Z.of_nat parm);
         Ok (add_z lv ("Vol Beta " ++ nm)%string (Normal 0 10 T_none)))
       (seq 0 (length (X_names m))) lv;
  lv ← for_each (fun parm lv =>
         nm ← py_index (X_names m) (Z.of_nat parm);
         Ok (add_z lv ("Returns Beta " ++ nm)%string (Normal 0 10 T_none)))
       (seq 0 (length (X_names m))) lv;
  lv ← for_range (p m + q m) (z_no m) (fun i lv => assign_start lv (Z.of_nat i) 0.0%R) lv;
  lv ← assign_start lv (Z.of_nat (p m + q m)) 2.0%R;
  Ok (with_latent_variables m lv).

(** [__init__], after the formula engine has produced the response [y],
    the design matrix [X] and the names of its terms.  [X_names] comes
    from [str.split] in the source, so it is never empty there. *)
Definition __init__ (y : list R) (X : list (list R)) (X_names : list string)
    (p q : nat) : result EGARCHMReg :=
  _create_latent_variables
    {| p := p; q := q; max_lag := Nat.max p q;
       z_no := p + q + 2 + shape1 X * 2;
       leverage := false;
       model_name := ("EGARCHMReg(" ++ str p ++ "," ++ str q ++ ")")%string;
       data := y; X := X; X_names := X_names;
       latent_variables := {| z_list := []; estimated := false |} |}.

(** [add_leverage]. *)
Definition add_leverage (m : EGARCHMReg) : result EGARCHMReg :=
  if leverage m then Ok m
  else
    let lv := latent_variables m in
    zl ← py_pop (z_list lv);
    zl ← py_pop zl;
    zl ← py_pop zl;
    let lv := {| z_list := zl; estimated := estimated lv |} in
    let lv := add_z lv "Leverage Term"%string (Uniform T_none) in
    let lv := add_z lv "v"%string (Uniform T_exp) in
    let lv := add_z lv "Returns Constant"%string (Normal 0 3 T_none) in
    let lv := add_z lv "GARCH-M"%string (Normal 0 3 T_none) in
    lv ← assign_start lv (-3)%Z 2.0%R;
    Ok {| p := p m; q := q m; max_lag := max_lag m; z_no := z_no m + 1;
          leverage := true; model_name := model_name m; data := data m;
          X := X m; X_names := X_names m; latent_variables := lv |}.

(** The names of the latent variables, in order. *)
Definition z_names (m : EGARCHMReg) : list string :=
  name <$> z_list (latent_variables m).

(** ** The recursive filter *)

(** The three arrays the filter fills in place. *)
Record filter_arrays : Type := {
  lmda : list R;
  theta : list R;
  scores : list R
}.

(** [k]: the number of regression terms, [len(self.X_names)]. *)
Definition n_terms (m : EGARCHMReg) : Z := Z.of_nat (length (X_names m)).

(** [parm = [z_list[k].prior.transform(beta[k]) for k in range(beta.shape[0])]]. *)
Definition transform_all (lv : LatentVariables) (beta : list R) : result (list R) :=
  for_range 0 (length beta) (fun k acc =>
      z ← py_index (z_list lv) (Z.of_nat k);
      b ← py_index beta (Z.of_nat k);
      Ok (acc ++ [transform (prior z) b]))
    [].

(** [a[t] += v]. *)
Definition add_at (a : list R) (t : Z) (v : R) : result (list R) :=
  cur ← py_index a t;
  py_setitem a t (cur + v)%R.

(** The Beta-t score of one row (line 164), over the idealised reals. *)
Definition score_value (df y th lm : R) : R :=
  (((df + 1) * (y - th) ^ 2) / (df * exp lm + (y - th) ^ 2) - 1)%R.


(** The body of [for t in range(0, Y.shape[0])]. *)
Definition filter_step (m : EGARCHMReg) (parm Y : list R) (t : nat) (st : filter_arrays)
  : result filter_arrays :=
  let k := n_terms m in
  let tz := Z.of_nat t in
  st ← (if decide (t < max_lag m) then
          c ← py_index parm (- k * 2)%Z;
          lm ← py_setitem (lmda st) tz
                 (c / (1 - np_sum (py_slice parm None (Some (Z.of_nat (p m))))))%R;
          xt ← py_index (X m) tz;
          d ← np_dot xt (py_slice parm (Some (- k)%Z) None);
          th ← py_setitem (theta st) tz d;
          Ok {| lmda := lm; theta := th; scores := scores st |}
        else
          lm ← for_range 0 (p m) (fun p_term lm =>
                 a ← py_index parm (Z.of_nat p_term);
                 b ← py_index lm (tz - Z.of_nat p_term - 1)%Z;
                 add_at lm tz (a * b)%R)
               (lmda st);
          lm ← for_range 0 (q m) (fun q_term lm =>
                 a ← py_index parm (Z.of_nat (p m + q_term));
                 b ← py_index (scores st) (tz - Z.of_nat q_term - 1)%Z;
                 add_at lm tz (a * b)%R)
               lm;
          lm ← (if leverage m then
                  c ← py_index parm (- (k * 2) - 3)%Z;
                  y ← py_index Y (tz - 1)%Z;
                  th ← py_index (theta st) (tz - 1)%Z;
                  s ← py_index (scores st) (tz - 1)%Z;
                  add_at lm tz (c * np_sign (- (y - th)) * (s + 1))%R
                else Ok lm);
          xt ← py_index (X m) tz;
          d ← np_dot xt (py_slice parm (Some (- k * 2)%Z) (Some (- k)%Z));
          lm ← add_at lm tz d;
          xt ← py_index (X m) tz;
          d ← np_dot xt (py_slice parm (Some (- k)%Z) None);
          g ← py_index parm (- (k * 2) - 1)%Z;
          l ← py_index lm tz;
          th ← py_setitem (theta st) tz (d + g * exp (l / 2.0))%R;
          Ok {| lmda := lm; theta := th; scores := scores st |});
  df ← py_index parm (Z.of_nat (p m + q m));
  y ← py_index Y tz;
  th ← py_index (theta st) tz;
  l ← py_index (lmda st) tz;
  sc ← py_setitem (scores st) tz (score_value df y th l);
  Ok {| lmda := lmda st; theta := theta st; scores := sc |}.

(** [_model]: returns [(lmda, Y, scores, theta)]. *)
Definition _model (m : EGARCHMReg) (beta : list R)
  : result (list R * list R * list R * list R) :=
  let Y := py_slice (data m) (Some (Z.of_nat (max_lag m)))
                    (Some (Z.of_nat (length (data m)))) in
  parm ← transform_all (latent_variables m) beta;
  st ← for_range 0 (length Y) (filter_step m parm Y)
         {| lmda := np_zeros (length Y); theta := np_zeros (length Y);
            scores := np_zeros (length Y) |};
  Ok (lmda st, Y, scores st, theta st).

(** ** The likelihood *)

(** [neg_loglik].  [logpdf x df loc scale] stands for SciPy's
    [ss.t.logpdf], applied row by row. *)
Definition neg_loglik (logpdf : R -> R -> R -> R -> R) (m : EGARCHMReg) (beta : list R)
  : result R :=
  '(lm, Y, _, th) ← _model m beta;
  let slot := (- (n_terms m * 2) - 2)%Z in
  z ← py_index (z_list (latent_variables m)) slot;
  b ← py_index beta slot;
  let df := transform (prior z) b in
  Ok (- np_sum (zip_with (fun y '(t, l) => logpdf y df t (exp (l / 2.0)))
                  Y (zip th lm)))%R.

(** ** The store of arrays and the source of random integers *)

(** A reference designates an array held in the store. *)
Definition ref : Type := nat.

Record world : Type := {
  arrays : list (list R);          (* the 1-D arrays, by reference *)
  matrices : list (list (list R)); (* the 2-D arrays, as lists of rows *)
  tape : nat -> nat;               (* the raw outcomes of the random source *)
  cursor : nat                     (* how many outcomes have been consumed *)
}.

(** Computations that read and write the store and may raise. *)
Definition M (A : Type) : Type := world -> result A * world.

#[global] Instance M_ret : MRet M := fun A a w => (Ok a, w).
#[global] Instance M_bind : MBind M := fun A B f c w =>
  match c w with
  | (Ok a, w') => f a w'
  | (Raise e, w') => (Raise e, w')
  end.

Definition lift {A : Type} (r : result A) : M A := fun w => (r, w).

Definition raise {A : Type} (e : exn) : M A := fun w => (Raise e, w).

(** A new 1-D array holding [a]. *)
Definition alloc (a : list R) : M ref := fun w =>
  (Ok (length (arrays w)),
   {| arrays := arrays w ++ [a]; matrices := matrices w;
      tape := tape w; cursor := cursor w |}).

(** The contents of an array; every reference the code holds designates
    an allocated array, and the store answers [[]] for any other. *)
Definition deref (r : ref) : M (list R) := fun w =>
  (Ok (default [] (arrays w !! r)), w).

(** [a[i]]. *)
Definition getitem (r : ref) (i : Z) : M R :=
  a ← deref r; lift (py_index a i).

(** [a[i] = v]: the one operation that changes an existing 1-D array. *)
Definition setitem (r : ref) (i : Z) (v : R) : M unit := fun w =>
  match py_setitem (default [] (arrays w !! r)) i v with
  | Ok a => (Ok (),
             {| arrays := <[r := a]> (arrays w); matrices := matrices w;
                tape := tape w; cursor := cursor w |})
  | Raise e => (Raise e, w)
  end.

(** [a.copy()]. *)
Definition np_copy (r : ref) : M ref :=
  a ← deref r; alloc a.

(** [np.append(a, v)]: a new array, [a] itself is left as it is. *)
Definition np_append (r : ref) (v : R) : M ref :=
  a ← deref r; alloc (a ++ [v]).

(** [np.zeros([rows, cols])]. *)
Definition np_zeros2 (rows cols : nat) : M ref := fun w =>
  (Ok (length (matrices w)),
   {| arrays := arrays w;
      matrices := matrices w ++ [replicate rows (np_zeros cols)];
      tape := tape w; cursor := cursor w |}).

(** [mat[n] = row], in place; [row] is broadcast when it has one entry. *)
Definition set_row (mat : ref) (n : nat) (row : list R) : M unit := fun w =>
  let rows := default [] (matrices w !! mat) in
  match rows !! n with
  | None => (Raise IndexError, w)
  | Some old =>
      let put new :=
        (Ok (), {| arrays := arrays w;
                   matrices := <[mat := <[n := new]> rows]> (matrices w);
                   tape := tape w; cursor := cursor w |}) in
      if decide (length row = length old) then put row
      else match row with
           | [x] => put (replicate (length old) x)
           | _ => (Raise ValueError, w)
           end
  end.

(** [np.transpose(mat)] of a [rows] x [cols] matrix, read out of the store. *)
Definition np_transpose (mat : ref) (cols : nat) : M (list (list R)) := fun w =>
  let rows := default [] (matrices w !! mat) in
  (Ok ((fun j => (fun row => default 0%R (row !! j)) <$> rows) <$> seq 0 cols), w).

(** [np.random.randint(n)]: the next outcome of the tape, reduced into
    [0, n); an empty range raises. *)
Definition randint (n : nat) : M nat := fun w =>
  if decide (n = 0) then (Raise ValueError, w)
  else (Ok (tape w (cursor w) `mod` n),
        {| arrays := arrays w; matrices := matrices w;
           tape := tape w; cursor := S (cursor w) |}).

(** [a.shape[0]]. *)
Definition shape0 (r : ref) : M nat :=
  a ← deref r; mret (length a).

(** Loops in [M]. *)
Fixpoint forM_each {S : Type} (body : nat -> S -> M S) (idx : list nat) (s : S) : M S :=
  match idx with
  | [] => mret s
  | i :: rest => s' ← body i s; forM_each body rest s'
  end.

Definition forM_range {S : Type} (lo hi : nat) (body : nat -> S -> M S) (s : S) : M S :=
  forM_each body (seq lo (hi - lo)) s.

(** ** The forecast engines *)

(** The body of [for t in range(0, h)] in [_mean_prediction], on the
    three arrays being extended. *)
Definition mean_prediction_step (m : EGARCHMReg) (t_params : list R)
    (X_oos : list (list R)) (t : nat) (st : ref * ref * ref) : M (ref * ref * ref) :=
  let k := n_terms m in
  let '(lmda_exp, scores_exp, Y_exp) := st in
  let new_lambda_value := 0%R in
  new_lambda_value ←
    (if decide (p m ≠ 0) then
       forM_range 0 (p m) (fun j new_lambda_value =>
           a ← lift (py_index t_params (Z.of_nat j));
           b ← getitem lmda_exp (- Z.of_nat j - 1)%Z;
           mret (new_lambda_value + a * b)%R)
         new_lambda_value
     else mret new_lambda_value);
  new_lambda_value ←
    (if decide (q m ≠ 0) then
       forM_range 0 (q m) (fun k new_lambda_value =>
           a ← lift (py_index t_params (Z.of_nat (k + p m)));
           b ← getitem scores_exp (- Z.of_nat k - 1)%Z;
           mret (new_lambda_value + a * b)%R)
         new_lambda_value
     else mret new_lambda_value);
  xt ← lift (py_index X_oos (Z.of_nat t));
  d ← lift (np_dot xt (py_slice t_params (Some (- k * 2)%Z) (Some (- k)%Z)));
  let new_lambda_value := (new_lambda_value + d)%R in
  xt ← lift (py_index X_oos (Z.of_nat t));
  d ← lift (np_dot xt (py_slice t_params (Some (- k)%Z) None));
  g ← lift (py_index t_params (- (k * 2) - 1)%Z);
  let new_theta_value := (d + g * exp (new_lambda_value / 2.0))%R in
  lmda_exp ← np_append lmda_exp new_lambda_value;
  scores_exp ← np_append scores_exp 0%R;
  Y_exp ← np_append Y_exp new_theta_value;
  mret (lmda_exp, scores_exp, Y_exp).

(** [_mean_prediction].  [lmda], [Y] and [scores] are the caller's arrays;
    [t_params] and [X_oos] are only read and are passed by value.  The
    result is the reference of the extended path [lmda_exp]. *)
Definition _mean_prediction (m : EGARCHMReg) (lmda Y scores : ref) (h : nat)
    (t_params : list R) (X_oos : list (list R)) : M ref :=
  lmda_exp ← np_copy lmda;
  scores_exp ← np_copy scores;
  Y_exp ← np_copy Y;
  '(lmda_exp, _, _) ← forM_range 0 h (mean_prediction_step m t_params X_oos)
                        (lmda_exp, scores_exp, Y_exp);
  mret lmda_exp.

(** The local variable [new_theta_value] of [_sim_prediction]: it is
    unbound until the first assignment and keeps its value from one
    iteration, and one path, to the next. *)
Definition read_local (var : string) (v : option R) : M R :=
  match v with
  | Some x => mret x
  | None => raise (UnboundLocalError var)
  end.

(** [_sim_prediction]: returns the transposed matrix of simulated paths,
    one row per horizon and one column per simulation. *)
Definition _sim_prediction (m : EGARCHMReg) (lmda Y scores : ref) (h : nat)
    (t_params : list R) (simulations : nat) (X_oos : list (list R))
  : M (list (list R)) :=
  let k := n_terms m in
  sim_vector ← np_zeros2 simulations h;
  _ ← forM_range 0 simulations (fun n new_theta_value =>
      lmda_exp ← np_copy lmda;
      scores_exp ← np_copy scores;
      Y_exp ← np_copy Y;
      '(lmda_exp, _, _, new_theta_value) ←
        forM_range 0 h (fun t '(lmda_exp, scores_exp, Y_exp, new_theta_value) =>
            let new_lambda_value := 0%R in
            new_lambda_value ←
              (if decide (p m ≠ 0) then
                 forM_range 0 (p m) (fun j new_lambda_value =>
                     a ← lift (py_index t_params (Z.of_nat j));
                     b ← getitem lmda_exp (- Z.of_nat j - 1)%Z;
                     mret (new_lambda_value + a * b)%R)
                   new_lambda_value
               else mret new_lambda_value);
            new_lambda_value ←
              (if decide (q m ≠ 0) then
                 forM_range 0 (q m) (fun k new_lambda_value =>
                     a ← lift (py_index t_params (Z.of_nat (k + p m)));
                     b ← getitem scores_exp (- Z.of_nat k - 1)%Z;
                     mret (new_lambda_value + a * b)%R)
                   new_lambda_value
               else mret new_lambda_value);
            new_lambda_value ←
              (if leverage m then
                 c ← lift (py_index t_params (Z.of_nat (p m + q m)));
                 y ← getitem Y_exp (-1)%Z;
                 th ← read_local "new_theta_value" new_theta_value;
                 s ← getitem scores_exp (-1)%Z;
                 mret (new_lambda_value + c * np_sign (- (y - th)) * (s + 1))%R
               else mret new_lambda_value);
            xt ← lift (py_index X_oos (Z.of_nat t));
            d ← lift (np_dot xt (py_slice t_params (Some (- k * 2)%Z) (Some (- k)%Z)));
            let new_lambda_value := (new_lambda_value + d)%R in
            xt ← lift (py_index X_oos (Z.of_nat t));
            d ← lift (np_dot xt (py_slice t_params (Some (- k)%Z) None));
            g ← lift (py_index t_params (- (k * 2) - 1)%Z);
            let new_theta_value := (d + g * exp (new_lambda_value / 2.0))%R in
            lmda_exp ← np_append lmda_exp new_lambda_value;
            n_scores ← shape0 scores;
            i ← randint n_scores;
            s ← getitem scores (Z.of_nat i);
            scores_exp ← np_append scores_exp s;
            n_Y ← shape0 Y;
            i ← randint n_Y;
            y ← getitem Y (Z.of_nat i);
            Y_exp ← np_append Y_exp y;
            mret (lmda_exp, scores_exp, Y_exp, Some new_theta_value))
          (lmda_exp, scores_exp, Y_exp, new_theta_value);
      path ← deref lmda_exp;
      _ ← set_row sim_vector n (py_slice path (Some (- Z.of_nat h)%Z) None);
      mret new_theta_value)
    None;
  np_transpose sim_vector h.

(** ** Summaries, forecasts and plots *)

(** Element-wise binary operation on 1-D arrays, with NumPy's
    broadcasting of a one-entry operand. *)
Definition np_map2 (f : R -> R -> R) (a b : list R) : result (list R) :=
  if decide (length a = length b) then Ok (zip_with f a b)
  else match a, b with
       | [x], _ => Ok (f x <$> b)
       | _, [y] => Ok ((fun x => f x y) <$> a)
       | _, _ => Raise ValueError
       end.

(** [_summarize_simulations], without the date index, which belongs to
    the base class.  [percentile a pre] stands for [np.percentile]. *)
Definition _summarize_simulations (percentile : list R -> nat -> R)
    (mean_values : list R) (sim_vector : list (list R)) (h past_values : nat)
  : result (list (list R) * list R * list R) :=
  error_bars ← for_each (fun pre error_bars =>
        a ← np_map2 Rminus ((fun i => percentile i pre) <$> sim_vector)
              (py_slice mean_values (Some (- Z.of_nat h)%Z) None);
        Ok (error_bars ++ [0%R :: a]))
      ((fun i => 5 + 5 * i) <$> seq 0 19) [];
  let forecasted_values := py_slice mean_values (Some (- Z.of_nat h - 1)%Z) None in
  let plot_values :=
    py_slice mean_values (Some (- Z.of_nat h - Z.of_nat past_values)%Z) None in
  Ok (error_bars, forecasted_values, plot_values).

Definition not_estimated : exn := Exception "No latent variables estimated!".

(** [exp(a / 2)], element by element. *)
Definition to_volatility (a : list R) : list R := (fun x => exp (x / 2.0)) <$> a.

(** [predict], after the formula engine has turned [oos_data] into the
    design matrix [X_oos]; returns the column of forecast values. *)
Definition predict (m : EGARCHMReg) (h : nat) (X_oos : list (list R)) : M (list R) :=
  if negb (estimated (latent_variables m)) then raise not_estimated
  else
    let X_pred := py_slice X_oos None (Some (Z.of_nat h)) in
    '(sigma2, Y, scores, _) ← lift (_model m (get_z_values (latent_variables m)));
    sigma2 ← alloc sigma2;
    Y ← alloc Y;
    scores ← alloc scores;
    let t_params := transform_z (latent_variables m) in
    mean_values ← _mean_prediction m sigma2 Y scores h t_params X_pred;
    mean_values ← deref mean_values;
    let forecasted_values := py_slice mean_values (Some (- Z.of_nat h)%Z) None in
    mret (to_volatility forecasted_values).

(** [plot_fit]: returns the two series handed to the plotting layer, the
    absolute demeaned values and the conditional volatility. *)
Definition plot_fit (m : EGARCHMReg) : M (list R * list R) :=
  if negb (estimated (latent_variables m)) then raise not_estimated
  else
    '(sigma2, Y, _, theta) ← lift (_model m (get_z_values (latent_variables m)));
    d ← lift (np_map2 Rminus Y theta);
    mret (Rabs <$> d, to_volatility sigma2).

(** [plot_predict]: returns what is handed to the plotting layer, the
    lower and upper edges of the interval bands (none when [intervals] is
    off) and the forecast line. *)
Definition plot_predict (percentile : list R -> nat -> R) (m : EGARCHMReg)
    (h past_values : nat) (intervals : bool) (X_oos : list (list R))
  : M (list (list R * list R) * list R) :=
  if negb (estimated (latent_variables m)) then raise not_estimated
  else
    let X_pred := py_slice X_oos None (Some (Z.of_nat h)) in
    '(lmda, Y, scores, _) ← lift (_model m (get_z_values (latent_variables m)));
    lmda ← alloc lmda;
    Y ← alloc Y;
    scores ← alloc scores;
    let t_params := transform_z (latent_variables m) in
    mean_values ← _mean_prediction m lmda Y scores h t_params X_pred;
    sim_values ← _sim_prediction m lmda Y scores h t_params (150 * 100) X_pred;
    mean_values ← deref mean_values;
    '(error_bars, forecasted_values, plot_values) ←
      lift (_summarize_simulations percentile mean_values sim_values h past_values);
    bands ← (if intervals then
               lift (for_each (fun count bands =>
                     pre ← py_index error_bars (Z.of_nat count);
                     lo ← np_map2 Rminus forecasted_values pre;
                     hi ← np_map2 Rplus forecasted_values pre;
                     Ok (bands ++ [(to_volatility lo, to_volatility hi)]))
                   (seq 0 (length error_bars)) [])
             else mret []);
    mret (bands, to_volatility plot_values).

(** ** Sample inputs *)

Module Sample.

(** Four observations, an intercept-only design matrix. *)
Definition y : list R := [1; 2; 3; 4]%R.
Definition X1 : list (list R) := [[1]; [1]; [1]; [1]]%R.

Definition blank : EGARCHMReg :=
  {| p := 0; q := 0; max_lag := 0; z_no := 0; leverage := false;
     model_name := ""; data := []; X := []; X_names := [];
     latent_variables := {| z_list := []; estimated := false |} |}.

Definition get (r : result EGARCHMReg) : EGARCHMReg :=
  match r with
  | Ok m => m
  | Raise _ => blank
  end.

(** [EGARCHMReg(data, p=1, q=1, formula)] with the single term "Intercept". *)
Definition model11 : EGARCHMReg := get (__init__ y X1 ["Intercept"%string] 1 1).

(** The same model after [add_leverage()]. *)
Definition model11_lev : EGARCHMReg := get (add_leverage model11).

(** [EGARCHMReg(data, p=0, q=0, formula)] after [add_leverage()]. *)
Definition model00_lev : EGARCHMReg :=
  get (add_leverage (get (__init__ y X1 ["Intercept"%string] 0 0))).

(** A store holding three in-sample arrays, for [lmda], [Y], [scores]. *)
Definition store : world :=
  {| arrays := [[1; 2; 3]; [4; 5; 6]; [7; 8; 9]]%R; matrices := [];
     tape := fun i => i; cursor := 0 |}.

Definition X_oos : list (list R) := [[1]; [1]]%R.

(** Parameter vectors for the three models. *)
Definition beta6 : list R := [0; 0; 0; 0; 0; 0]%R.
Definition beta7 : list R := [0; 0; 0; 0; 0; 0; 0]%R.
Definition beta5 : list R := [0; 0; 0; 0; 4]%R.

End Sample.

(** ** Predicates on computations over the store *)

(** A computation that ends in an exception from a given store. *)
Definition raises {A : Type} (c : M A) (w : world) : Prop :=
  exists e w', c w = (Raise e, w').

(** Every array of [w] is still in [w'], with the same contents. *)
Definition grows (w w' : world) : Prop := arrays w `prefix_of` arrays w'.

(** A computation that only allocates: it never writes to an array that
    was in the store when it started. *)
Definition allocates_only {A : Type} (c : M A) : Prop :=
  forall w, grows w (c w).2.

(** The store after a new array [a] has been put at its end. *)
Definition pushed (w : world) (a : list R) : world :=
  {| arrays := arrays w ++ [a]; matrices := matrices w;
     tape := tape w; cursor := cursor w |}.

(** What a store holds at a reference. *)
Definition contents (w : world) (r : ref) : list R := default [] (arrays w !! r).

(** ** The quantities the specification names *)

#[global] Instance R_inhabited : Inhabited R := populate 0%R.

(** The Parameter Layout contract: the named segments of a transformed
    parameter vector, by position. *)
Module Layout.

Definition k (m : EGARCHMReg) : nat := length (X_names m).

(** One extra slot before the degrees of freedom once leverage is on. *)
Definition shift (m : EGARCHMReg) : nat := if leverage m then 1 else 0.

Definition garch_coeffs (m : EGARCHMReg) (parm : list R) : list R :=
  take (p m) parm.

Definition score_coeffs (m : EGARCHMReg) (parm : list R) : list R :=
  take (q m) (drop (p m) parm).

Definition leverage_coeff (m : EGARCHMReg) (parm : list R) : R :=
  parm !!! (p m + q m).

Definition df (m : EGARCHMReg) (parm : list R) : R :=
  parm !!! (p m + q m + shift m).

Definition garch_in_mean (m : EGARCHMReg) (parm : list R) : R :=
  parm !!! (p m + q m + 1 + shift m).

(** [parm[-2k:-k]] and [parm[-k:]]. *)
Definition vol_reg_coeffs (m : EGARCHMReg) (parm : list R) : list R :=
  take (k m) (drop (length parm - 2 * k m) parm).

Definition mean_reg_coeffs (m : EGARCHMReg) (parm : list R) : list R :=
  drop (length parm - k m) parm.

End Layout.

(** The dot product of two rows. *)
Definition dotp (a b : list R) : R := np_sum (zip_with Rmult a b).

(** [Σ_{i=1..n} coeffs[i-1] · a[t-i]], with [n] the number of coefficients. *)
Definition lag_sum (coeffs a : list R) (t : nat) : R :=
  np_sum ((fun i : nat => coeffs !!! i * a !!! (t - 1 - i)%nat)%R <$> seq 0 (length coeffs)).

(** What a forecast of [h] steps needs from its inputs when [h > 0]: enough
    history for the lags, a parameter vector that covers the positions
    read, and [h] covariate rows of the width of the regression. *)
Definition forecast_ready (m : EGARCHMReg) (lmda scores : list R) (h : nat)
    (t_params : list R) (X_oos : list (list R)) : Prop :=
  h = 0 \/
  (p m <= length lmda /\ q m <= length scores
   /\ p m + q m <= length t_params
   /\ 0 < Layout.k m /\ 2 * Layout.k m + 1 <= length t_params
   /\ h <= length X_oos
   /\ Forall (fun row => length row = Layout.k m) (take h X_oos)).

(** The invariant of the forecast loop after [s] steps. *)
Definition mean_path_upto (m : EGARCHMReg) (tp : list R) (X_oos : list (list R))
    (L Sc : list R) (h s : nat) (P : list R) : Prop :=
  length P = length L + s
  /\ take (length L) P = L
  /\ forall s', s' < s -> exists xt,
       X_oos !! s' = Some xt
       /\ P !! (length L + s')
          = Some (lag_sum (Layout.garch_coeffs m tp) P (length L + s')
                  + lag_sum (Layout.score_coeffs m tp) (Sc ++ replicate h 0%R)
                      (length Sc + s')
                  + dotp xt (Layout.vol_reg_coeffs m tp))%R.

(** ** The rows of the filter, as the specification states them *)

#[global] Instance row_inhabited : Inhabited (list R) := populate [].

(** The entry at position [-2k] of the parameter vector, the numerator
    of the initial log-volatility. *)
Definition vol_in_mean (m : EGARCHMReg) (parm : list R) : R :=
  parm !!! (length parm - 2 * Layout.k m).

(** The transformed parameter vector, entry by entry. *)
Definition transformed (lv : LatentVariables) (beta : list R) : list R :=
  zip_with (fun z b => transform (prior z) b) (z_list lv) beta.

(** The observations the filter keeps: [data[max_lag:]]. *)
Definition kept (m : EGARCHMReg) : list R := drop (max_lag m) (data m).

(** What the filter needs from the model and the parameter vector: one
    parameter per latent variable, [z_no] of them, laid out as
    [p + q + 2 + 2k] entries plus one with leverage; at least one
    regression term; a covariate row of width [k] for every kept
    observation. *)
Definition filter_ready (m : EGARCHMReg) (beta : list R) : Prop :=
  length beta = length (z_list (latent_variables m))
  /\ length beta = z_no m
  /\ z_no m = p m + q m + 2 + Layout.shift m + 2 * Layout.k m
  /\ max_lag m = Nat.max (p m) (q m)
  /\ 0 < Layout.k m
  /\ length (data m) - max_lag m <= length (X m)
  /\ Forall (fun row => length row = Layout.k m) (X m).

(** The leverage term of row [t].  Row 0 can only be reached with
    [max_lag = 0]; there the index [t-1] is Python's [-1], the last
    entry, which for [theta] and [scores] still holds its initial zero. *)
Definition leverage_term (m : EGARCHMReg) (parm Y : list R) (st : filter_arrays)
    (t : nat) : R :=
  if decide (t = 0)
  then (Layout.leverage_coeff m parm
        * np_sign (- (Y !!! (length Y - 1)%nat - 0)) * (0 + 1))%R
  else (Layout.leverage_coeff m parm
        * np_sign (- (Y !!! (t - 1)%nat - theta st !!! (t - 1)%nat))
        * (scores st !!! (t - 1)%nat + 1))%R.

Definition lmda_row (m : EGARCHMReg) (parm Y : list R) (st : filter_arrays)
    (t : nat) : R :=
  if decide (t < max_lag m)
  then (vol_in_mean m parm / (1 - np_sum (Layout.garch_coeffs m parm)))%R
  else (lag_sum (Layout.garch_coeffs m parm) (lmda st) t
        + lag_sum (Layout.score_coeffs m parm) (scores st) t
        + (if leverage m then leverage_term m parm Y st t else 0)
        + dotp (X m !!! t) (Layout.vol_reg_coeffs m parm))%R.

Definition theta_row (m : EGARCHMReg) (parm : list R) (st : filter_arrays)
    (t : nat) : R :=
  if decide (t < max_lag m)
  then dotp (X m !!! t) (Layout.mean_reg_coeffs m parm)
  else (dotp (X m !!! t) (Layout.mean_reg_coeffs m parm)
        + Layout.garch_in_mean m parm * exp (lmda st !!! t / 2))%R.

Definition score_row (m : EGARCHMReg) (parm Y : list R) (st : filter_arrays)
    (t : nat) : R :=
  score_value (parm !!! (p m + q m)) (Y !!! t) (theta st !!! t) (lmda st !!! t).

(** Row [t] holds its final values. *)
Definition row_done (m : EGARCHMReg) (parm Y : list R) (st : filter_arrays)
    (t : nat) : Prop :=
  lmda st !!! t = lmda_row m parm Y st t
  /\ theta st !!! t = theta_row m parm st t
  /\ scores st !!! t = score_row m parm Y st t.

(** The invariant of the filter loop before row [t]: the rows before [t]
    are done, the others still hold their initial zero. *)
Definition filter_upto (m : EGARCHMReg) (parm Y : list R) (t : nat)
    (st : filter_arrays) : Prop :=
  length (lmda st) = length Y /\ length (theta st) = length Y
  /\ length (scores st) = length Y
  /\ (forall i, t <= i -> i < length Y ->
        lmda st !!! i = 0%R /\ theta st !!! i = 0%R /\ scores st !!! i = 0%R)
  /\ (forall i, i < t -> row_done m parm Y st i).

(** Two states of the arrays that hold the same entries before row [i]. *)
Definition agree_below (i : nat) (st st' : filter_arrays) : Prop :=
  forall j, j < i ->
    lmda st !!! j = lmda st' !!! j /\ theta st !!! j = theta st' !!! j
    /\ scores st !!! j = scores st' !!! j.

(** [a[t-1]] as Python reads it: for [t = 0] this is [a[-1]], the last
    entry. *)
Definition at_prev (a : list R) (t : nat) : R :=
  match py_index a (Z.of_nat t - 1) with
  | Ok x => x
  | Raise _ => 0%R
  end.

(** The recursion of the specification for row [t], over the arrays the
    filter returns. *)
Definition recursion_lmda (m : EGARCHMReg) (parm lm Y sc th : list R) (t : nat) : R :=
  (lag_sum (Layout.garch_coeffs m parm) lm t
   + lag_sum (Layout.score_coeffs m parm) sc t
   + (if leverage m
      then Layout.leverage_coeff m parm
           * np_sign (- (at_prev Y t - at_prev th t)) * (at_prev sc t + 1)
      else 0)
   + dotp (X m !!! t) (Layout.vol_reg_coeffs m parm))%R.

Definition recursion_theta (m : EGARCHMReg) (parm lm : list R) (t : nat) : R :=
  (dotp (X m !!! t) (Layout.mean_reg_coeffs m parm)
   + Layout.garch_in_mean m parm * exp (lm !!! t / 2))%R.

(** The latent variables of a model are as many as [z_no], which counts
    the layout [p + q + 2 + 2k] plus one with leverage. *)
Definition layout_ok (m : EGARCHMReg) : Prop :=
  length (z_list (latent_variables m)) = z_no m
  /\ z_no m = p m + q m + 2 + Layout.shift m + 2 * Layout.k m
  /\ max_lag m = Nat.max (p m) (q m).

(** ** The latent variables in closed form *)

(** The latent variable of the [i]-th GARCH or score term: named
    [label(i+1)], logit-transformed, started at [first] for the first term
    and at -4 for the others. *)
Definition lag_variable (label : string) (first : R) (i : nat) : LatentVariable :=
  {| name := (label ++ "(" ++ str (i + 1) ++ ")")%string;
     prior := Normal 0 0.5 T_logit;
     start := if decide (i = 0) then first else (-4.00)%R;
     value := 0 |}.

(** A regression coefficient named [label] followed by the term's name. *)
Definition beta_variable (label : string) (term : string) : LatentVariable :=
  {| name := (label ++ term)%string; prior := Normal 0 10 T_none;
     start := 0.0; value := 0 |}.

(** The list [_create_latent_variables] leaves behind when the design
    matrix has one column per term. *)
Definition constructed_z_list (p q : nat) (names : list string)
  : list LatentVariable :=
  (lag_variable "p" 3.00 <$> seq 0 p)
  ++ (lag_variable "q" (-1.50) <$> seq 0 q)
  ++ [ {| name := "v"; prior := Uniform T_exp; start := 2.0; value := 0 |};
       {| name := "GARCH-M"; prior := Normal 0 3 T_none; start := 0.0;
          value := 0 |} ]
  ++ (beta_variable "Vol Beta " <$> names)
  ++ (beta_variable "Returns Beta " <$> names).

(** The four latent variables [add_leverage] appends. *)
Definition leverage_block : list LatentVariable :=
  [ {| name := "Leverage Term"; prior := Uniform T_none; start := 0; value := 0 |};
    {| name := "v"; prior := Uniform T_exp; start := 2.0; value := 0 |};
    {| name := "Returns Constant"; prior := Normal 0 3 T_none; start := 0;
       value := 0 |};
    {| name := "GARCH-M"; prior := Normal 0 3 T_none; start := 0; value := 0 |} ].

(** Modelled from the spec: the state an external fit leaves behind, the
    estimates stored as the current values and [estimated] set. *)
Definition with_estimates (m : EGARCHMReg) (values : list R) : EGARCHMReg :=
  with_latent_variables m
    {| z_list := zip_with (fun z v => {| name := name z; prior := prior z;
                                         start := start z; value := v |})
                   (z_list (latent_variables m)) values;
       estimated := true |}.

(** The model with another design matrix. *)
Definition with_X (m : EGARCHMReg) (X' : list (list R)) : EGARCHMReg :=
  {| p := p m; q := q m; max_lag := max_lag m; z_no := z_no m;
     leverage := leverage m; model_name := model_name m; data := data m;
     X := X'; X_names := X_names m; latent_variables := latent_variables m |}.

(** Further sample models. *)
Module Cases.

(** One observation, two GARCH terms: nothing is left to filter. *)
Definition short_model : EGARCHMReg :=
  Sample.get (__init__ [1]%R [[1]]%R ["Intercept"%string] 2 1).

(** The sample model with leverage after a fit that estimated every
    latent variable at 0. *)
Definition fitted_lev : EGARCHMReg := with_estimates Sample.model11_lev Sample.beta7.

(** The sample model after a fit that estimated every latent variable at 0. *)
Definition fitted : EGARCHMReg := with_estimates Sample.model11 Sample.beta6.

End Cases.

(** ** The forecast path in closed form *)

(** The array [_mean_prediction] has built after [s] steps: the in-sample
    path [L] followed by one value per step, each the GARCH lags of the
    path so far, the score lags over the scores followed by zeros, and the
    volatility regression on the step's covariate row. *)
Fixpoint forecast_path (m : EGARCHMReg) (tp : list R) (X_oos : list (list R))
    (L Sc : list R) (s : nat) : list R :=
  match s with
  | 0 => L
  | S s' =>
      let P := forecast_path m tp X_oos L Sc s' in
      P ++ [(lag_sum (Layout.garch_coeffs m tp) P (length P)
             + lag_sum (Layout.score_coeffs m tp) (Sc ++ replicate s' 0%R)
                 (length Sc + s')
             + dotp (X_oos !!! s') (Layout.vol_reg_coeffs m tp))%R]
  end.

(** ** The simulation loops, named *)

(** The body of [for t in range(0, h)] in [_sim_prediction], on the three
    arrays being extended and the local [new_theta_value]. *)
Definition sim_prediction_step (m : EGARCHMReg) (Y scores : ref) (t_params : list R)
    (X_oos : list (list R)) (t : nat) (st : ref * ref * ref * option R)
  : M (ref * ref * ref * option R) :=
  let k := n_terms m in
  let '(lmda_exp, scores_exp, Y_exp, new_theta_value) := st in
  let new_lambda_value := 0%R in
  new_lambda_value ←
    (if decide (p m ≠ 0) then
       forM_range 0 (p m) (fun j new_lambda_value =>
           a ← lift (py_index t_params (Z.of_nat j));
           b ← getitem lmda_exp (- Z.of_nat j - 1)%Z;
           mret (new_lambda_value + a * b)%R)
         new_lambda_value
     else mret new_lambda_value);
  new_lambda_value ←
    (if decide (q m ≠ 0) then
       forM_range 0 (q m) (fun k new_lambda_value =>
           a ← lift (py_index t_params (Z.of_nat (k + p m)));
           b ← getitem scores_exp (- Z.of_nat k - 1)%Z;
           mret (new_lambda_value + a * b)%R)
         new_lambda_value
     else mret new_lambda_value);
  new_lambda_value ←
    (if leverage m then
       c ← lift (py_index t_params (Z.of_nat (p m + q m)));
       y ← getitem Y_exp (-1)%Z;
       th ← read_local "new_theta_value" new_theta_value;
       s ← getitem scores_exp (-1)%Z;
       mret (new_lambda_value + c * np_sign (- (y - th)) * (s + 1))%R
     else mret new_lambda_value);
  xt ← lift (py_index X_oos (Z.of_nat t));
  d ← lift (np_dot xt (py_slice t_params (Some (- k * 2)%Z) (Some (- k)%Z)));
  let new_lambda_value := (new_lambda_value + d)%R in
  xt ← lift (py_index X_oos (Z.of_nat t));
  d ← lift (np_dot xt (py_slice t_params (Some (- k)%Z) None));
  g ← lift (py_index t_params (- (k * 2) - 1)%Z);
  let new_theta_value := (d + g * exp (new_lambda_value / 2.0))%R in
  lmda_exp ← np_append lmda_exp new_lambda_value;
  n_scores ← shape0 scores;
  i ← randint n_scores;
  s ← getitem scores (Z.of_nat i);
  scores_exp ← np_append scores_exp s;
  n_Y ← shape0 Y;
  i ← randint n_Y;
  y ← getitem Y (Z.of_nat i);
  Y_exp ← np_append Y_exp y;
  mret (lmda_exp, scores_exp, Y_exp, Some new_theta_value).

(** The body of [for n in range(0, simulations)]: one simulated path,
    written into row [n] of [sim_vector]. *)
Definition sim_prediction_path (m : EGARCHMReg) (lmda Y scores : ref) (h : nat)
    (t_params : list R) (X_oos : list (list R)) (sim_vector : ref) (n : nat)
    (new_theta_value : option R) : M (option R) :=
  lmda_exp ← np_copy lmda;
  scores_exp ← np_copy scores;
  Y_exp ← np_copy Y;
  '(lmda_exp, _, _, new_theta_value) ←
    forM_range 0 h (sim_prediction_step m Y scores t_params X_oos)
      (lmda_exp, scores_exp, Y_exp, new_theta_value);
  path ← deref lmda_exp;
  _ ← set_row sim_vector n (py_slice path (Some (- Z.of_nat h)%Z) None);
  mret new_theta_value.

(** The store after one outcome of the random source has been consumed. *)
Definition drawn (w : world) : world :=
  {| arrays := arrays w; matrices := matrices w; tape := tape w;
     cursor := S (cursor w) |}.

(** From [w] to [w'] the arrays were only added to, the matrices are the
    same, and [n] outcomes of the random source were consumed. *)
Definition draws (n : nat) (w w' : world) : Prop :=
  grows w w' /\ matrices w' = matrices w /\ cursor w' = cursor w + n.

(** The first value every forecast appends: the recursion on the
    in-sample arrays alone. *)
Definition first_step (m : EGARCHMReg) (tp : list R) (X_oos : list (list R))
    (L Sc : list R) : R :=
  (lag_sum (Layout.garch_coeffs m tp) L (length L)
   + lag_sum (Layout.score_coeffs m tp) Sc (length Sc)
   + dotp (X_oos !!! 0%nat) (Layout.vol_reg_coeffs m tp))%R.

(** The model with another series of observations. *)
Definition with_data (m : EGARCHMReg) (y' : list R) : EGARCHMReg :=
  {| p := p m; q := q m; max_lag := max_lag m; z_no := z_no m;
     leverage := leverage m; model_name := model_name m; data := y';
     X := X m; X_names := X_names m; latent_variables := latent_variables m |}.

(** * Properties *)

(** ** The error monad *)

Lemma bind_Ok {A B : Type} (a : A) (f : A -> result B) : (Ok a ≫= f) = f a.
Proof. reflexivity. Qed.

Lemma bind_Raise {A B : Type} (e : exn) (f : A -> result B) :
  (Raise e ≫= f) = Raise e.
Proof. reflexivity. Qed.

Lemma bind_Ok_inv {A B : Type} (r : result A) (f : A -> result B) (b : B) :
  (r ≫= f) = Ok b -> exists a, r = Ok a /\ f a = Ok b.
Proof. destruct r as [a|e]; [eauto | discriminate]. Qed.

(** ** The layout written by [add_leverage] *)

(** C8, on the model with one GARCH term, one score term and one
    regression term: after [add_leverage()] the latent variables are, in
    order, p(1), q(1), v, Leverage Term, v, Returns Constant, GARCH-M.
    Position p+q holds the degrees of freedom and not the leverage term,
    and the two trailing slices of width k hold Returns Constant and
    GARCH-M: the three entries popped were GARCH-M and the two regression
    coefficients. *)
Theorem add_leverage_layout_sample :
  let m := Sample.model11_lev in
  z_names m = ["p(1)"; "q(1)"; "v"; "Leverage Term"; "v"; "Returns Constant";
               "GARCH-M"]%string
  /\ leverage m = true /\ z_no m = 7
  /\ py_index (z_names m) (Z.of_nat (p m + q m)) = Ok "v"%string
  /\ py_slice (z_names m) (Some (- n_terms m * 2)%Z) (Some (- n_terms m)%Z)
     = ["Returns Constant"%string]
  /\ py_slice (z_names m) (Some (- n_terms m)%Z) None = ["GARCH-M"%string]
  /\ z_names Sample.model11
     = ["p(1)"; "q(1)"; "v"; "GARCH-M"; "Vol Beta Intercept";
        "Returns Beta Intercept"]%string.
Proof. vm_compute. repeat split. Qed.

(** ** Estimation guards *)

(** C9: while no latent variable has been estimated, [predict],
    [plot_predict] and [plot_fit] raise at once, before any array is
    allocated or any random number drawn: the store is returned as it
    was. *)
Theorem not_estimated_raises (percentile : list R -> nat -> R) (m : EGARCHMReg)
    (h past_values : nat) (intervals : bool) (X_oos : list (list R)) (w : world) :
  estimated (latent_variables m) = false ->
  predict m h X_oos w = (Raise not_estimated, w)
  /\ plot_predict percentile m h past_values intervals X_oos w
     = (Raise not_estimated, w)
  /\ plot_fit m w = (Raise not_estimated, w).
Proof.
  intros Hest. unfold predict, plot_predict, plot_fit.
  rewrite Hest. simpl. auto.
Qed.

Lemma not_estimated_raises_witness :
  predict Sample.model11 5 Sample.X_oos Sample.store
    = (Raise not_estimated, Sample.store)
  /\ plot_predict (fun _ _ => 0%R) Sample.model11 5 20 true Sample.X_oos Sample.store
     = (Raise not_estimated, Sample.store)
  /\ plot_fit Sample.model11 Sample.store = (Raise not_estimated, Sample.store).
Proof.
  apply (not_estimated_raises (fun _ _ => 0%R) Sample.model11 5 20 true
           Sample.X_oos Sample.store).
  vm_compute. reflexivity.
Defined.

(** ** Computations over the store *)

Lemma M_bind_Ok {A B : Type} (c : M A) (f : A -> M B) (w w' : world) (a : A) :
  c w = (Ok a, w') -> (c ≫= f) w = f a w'.
Proof. intros H. unfold mbind, M_bind. rewrite H. reflexivity. Qed.

Lemma M_bind_Raise {A B : Type} (c : M A) (f : A -> M B) (w w' : world) (e : exn) :
  c w = (Raise e, w') -> (c ≫= f) w = (Raise e, w').
Proof. intros H. unfold mbind, M_bind. rewrite H. reflexivity. Qed.

Lemma forM_range_S {S : Type} (lo n : nat) (body : nat -> S -> M S) (s : S) :
  forM_range lo (lo + Datatypes.S n) body s
  = (s' ← body lo s; forM_range (Datatypes.S lo) (lo + Datatypes.S n) body s').
Proof.
  unfold forM_range.
  replace (lo + Datatypes.S n - lo) with (Datatypes.S n) by lia.
  replace (lo + Datatypes.S n - Datatypes.S lo) with n by lia.
  reflexivity.
Qed.

Lemma raises_bind_l {A B : Type} (c : M A) (f : A -> M B) (w : world) :
  raises c w -> raises (c ≫= f) w.
Proof.
  intros (e & w' & H). exists e, w'. by apply M_bind_Raise.
Qed.

Lemma raises_bind_r {A B : Type} (c : M A) (f : A -> M B) (w : world) :
  (forall a w', raises (f a) w') -> raises (c ≫= f) w.
Proof.
  intros H. destruct (c w) as [[a|e] w'] eqn:E.
  - destruct (H a w') as (e & w'' & H'). exists e, w''.
    by rewrite (M_bind_Ok _ _ _ _ _ E).
  - exists e, w'. by apply M_bind_Raise.
Qed.

Lemma raises_read_unbound (var : string) (w : world) :
  raises (read_local var None) w.
Proof. by exists (UnboundLocalError var), w. Qed.

(** ** The simulation engine with leverage *)

(** With the leverage flag set, the first step of the first path reads
    [new_theta_value] before anything was assigned to it, so no call with
    at least one step and one path returns a matrix. *)
Lemma sim_prediction_leverage_raises (m : EGARCHMReg) (lmda Y scores : ref)
    (h simulations : nat) (t_params : list R) (X_oos : list (list R)) (w : world) :
  leverage m = true -> 0 < h -> 0 < simulations ->
  raises (_sim_prediction m lmda Y scores h t_params simulations X_oos) w.
Proof.
  intros Hlev Hh Hs. unfold _sim_prediction.
  destruct h as [|h']; [lia|]. destruct simulations as [|n']; [lia|].
  apply raises_bind_r. intros sim_vector w1.
  apply raises_bind_l.
  rewrite (forM_range_S 0 n'). apply raises_bind_l.
  do 3 (apply raises_bind_r; intros ? ?).
  apply raises_bind_l.
  rewrite (forM_range_S 0 h'). apply raises_bind_l.
  do 2 (apply raises_bind_r; intros ? ?).
  apply raises_bind_l. rewrite Hlev.
  do 2 (apply raises_bind_r; intros ? ?).
  apply raises_bind_l. apply raises_read_unbound.
Qed.

(** C7, on the sample model with leverage, one step and one path: the
    call ends in [UnboundLocalError] for [new_theta_value]; no h x
    simulations matrix is returned. *)
Theorem sim_prediction_leverage_sample :
  leverage Sample.model11_lev = true
  /\ fst (_sim_prediction Sample.model11_lev 0 1 2 1 [0; 0; 0; 0; 0; 0; 0]%R 1
            Sample.X_oos Sample.store)
     = Raise (UnboundLocalError "new_theta_value").
Proof. split; vm_compute; reflexivity. Qed.

(** Without leverage the same call returns: two steps and three paths
    give a matrix of two rows and three columns, after twelve draws. *)
Lemma sim_prediction_shape_sample :
  match _sim_prediction Sample.model11 0 1 2 2 Sample.beta6 3
          Sample.X_oos Sample.store with
  | (Ok mat, w) =>
      length mat = 2 /\ Forall (fun row => length row = 3) mat /\ cursor w = 12
  | (Raise _, _) => False
  end.
Proof. vm_compute. repeat split; repeat constructor. Qed.

(** ** Frame: the caller's arrays *)

#[local] Instance grows_refl : Reflexive grows.
Proof. intros w. unfold grows. reflexivity. Qed.

#[local] Instance grows_trans : Transitive grows.
Proof. intros w1 w2 w3. unfold grows. apply transitivity. Qed.

Lemma allocates_only_ret {A : Type} (a : A) : allocates_only (mret a : M A).
Proof. intros w. reflexivity. Qed.

Lemma allocates_only_lift {A : Type} (r : result A) : allocates_only (lift r).
Proof. intros w. reflexivity. Qed.

Lemma allocates_only_raise {A : Type} (e : exn) : allocates_only (raise e : M A).
Proof. intros w. reflexivity. Qed.

Lemma allocates_only_bind {A B : Type} (c : M A) (f : A -> M B) :
  allocates_only c -> (forall a, allocates_only (f a)) -> allocates_only (c ≫= f).
Proof.
  intros Hc Hf w. specialize (Hc w). unfold mbind, M_bind.
  destruct (c w) as [[a|e] w']; simpl in *; [|done].
  etransitivity; [exact Hc | apply Hf].
Qed.

Lemma allocates_only_alloc (a : list R) : allocates_only (alloc a).
Proof. intros w. unfold grows. simpl. by apply prefix_app_r. Qed.

Lemma allocates_only_deref (r : ref) : allocates_only (deref r).
Proof. intros w. reflexivity. Qed.

Lemma allocates_only_np_zeros2 (rows cols : nat) : allocates_only (np_zeros2 rows cols).
Proof. intros w. unfold grows. simpl. reflexivity. Qed.

Lemma allocates_only_set_row (mat : ref) (n : nat) (row : list R) :
  allocates_only (set_row mat n row).
Proof.
  intros w. unfold grows, set_row.
  destruct (_ !! n); [|reflexivity].
  case_decide; [reflexivity|].
  destruct row as [|? [|? ?]]; reflexivity.
Qed.

Lemma allocates_only_np_transpose (mat : ref) (cols : nat) :
  allocates_only (np_transpose mat cols).
Proof. intros w. reflexivity. Qed.

Lemma allocates_only_randint (n : nat) : allocates_only (randint n).
Proof. intros w. unfold grows, randint. case_decide; reflexivity. Qed.

Lemma allocates_only_read_local (var : string) (v : option R) :
  allocates_only (read_local var v).
Proof. destruct v; [apply allocates_only_ret | apply allocates_only_raise]. Qed.

Lemma allocates_only_forM_each {S : Type} (body : nat -> S -> M S) (idx : list nat) :
  (forall i s, allocates_only (body i s)) ->
  forall s, allocates_only (forM_each body idx s).
Proof.
  intros Hbody. induction idx as [|i idx IH]; intros s; simpl.
  - apply allocates_only_ret.
  - apply allocates_only_bind; [apply Hbody | apply IH].
Qed.

Lemma allocates_only_forM_range {S : Type} (lo hi : nat) (body : nat -> S -> M S) (s : S) :
  (forall i s, allocates_only (body i s)) -> allocates_only (forM_range lo hi body s).
Proof. intros H. by apply allocates_only_forM_each. Qed.

Ltac allocates_only :=
  repeat first
    [ apply allocates_only_ret
    | apply allocates_only_lift
    | apply allocates_only_raise
    | apply allocates_only_alloc
    | apply allocates_only_deref
    | apply allocates_only_np_zeros2
    | apply allocates_only_set_row
    | apply allocates_only_np_transpose
    | apply allocates_only_randint
    | apply allocates_only_read_local
    | apply allocates_only_forM_range; intros ? ?
    | apply allocates_only_bind; [|intros ?]
    | progress unfold getitem, np_copy, np_append, shape0
    | case_decide
    | match goal with
      | |- allocates_only (let '(_, _) := ?x in _) => destruct x
      | |- allocates_only (if ?b then _ else _) => destruct b
      end ].

Lemma allocates_only_mean_prediction (m : EGARCHMReg) (lmda Y scores : ref) (h : nat)
    (t_params : list R) (X_oos : list (list R)) :
  allocates_only (_mean_prediction m lmda Y scores h t_params X_oos).
Proof. unfold _mean_prediction, mean_prediction_step. allocates_only. Qed.

Lemma allocates_only_sim_prediction (m : EGARCHMReg) (lmda Y scores : ref) (h : nat)
    (t_params : list R) (simulations : nat) (X_oos : list (list R)) :
  allocates_only (_sim_prediction m lmda Y scores h t_params simulations X_oos).
Proof. unfold _sim_prediction. allocates_only. Qed.

(** C10: whatever the inputs, and whether the call returns or raises,
    every array that was in the store before a call of [_mean_prediction]
    or [_sim_prediction] is there afterwards with the same contents; in
    particular the caller's [lmda], [Y] and [scores]. *)
Theorem predictions_keep_inputs (m : EGARCHMReg) (lmda Y scores : ref)
    (h simulations : nat) (t_params : list R) (X_oos : list (list R))
    (w : world) (r : ref) (a : list R) :
  arrays w !! r = Some a ->
  arrays (_mean_prediction m lmda Y scores h t_params X_oos w).2 !! r = Some a
  /\ arrays (_sim_prediction m lmda Y scores h t_params simulations X_oos w).2 !! r
     = Some a.
Proof.
  intros Hr. split.
  - eapply prefix_lookup_Some; [exact Hr|].
    apply allocates_only_mean_prediction.
  - eapply prefix_lookup_Some; [exact Hr|].
    apply allocates_only_sim_prediction.
Qed.

Lemma predictions_keep_inputs_witness :
  arrays (_mean_prediction Sample.model11 0 1 2 2 [0; 0; 0; 0; 0; 0]%R
            Sample.X_oos Sample.store).2 !! 0 = Some [1; 2; 3]%R
  /\ arrays (_sim_prediction Sample.model11 0 1 2 2 [0; 0; 0; 0; 0; 0]%R 3
               Sample.X_oos Sample.store).2 !! 0 = Some [1; 2; 3]%R.
Proof.
  apply (predictions_keep_inputs Sample.model11 0 1 2 2 3 [0; 0; 0; 0; 0; 0]%R
           Sample.X_oos Sample.store 0 [1; 2; 3]%R).
  reflexivity.
Defined.

(** ** Python indexing and slicing, by position *)

Lemma py_index_nat {A : Type} (l : list A) (i : nat) (x : A) :
  l !! i = Some x -> py_index l (Z.of_nat i) = Ok x.
Proof.
  intros H. unfold py_index, wrap_index.
  destruct (Z.ltb_spec (Z.of_nat i) 0); [lia|].
  destruct (Z.ltb_spec (Z.of_nat i) 0); [lia|].
  by rewrite Nat2Z.id, H.
Qed.

Lemma py_index_from_end {A : Type} (l : list A) (j : nat) (x : A) :
  l !! (length l - 1 - j) = Some x -> j < length l ->
  py_index l (- Z.of_nat j - 1) = Ok x.
Proof.
  intros H Hj. unfold py_index, wrap_index.
  destruct (Z.ltb_spec (- Z.of_nat j - 1) 0); [|lia].
  destruct (Z.ltb_spec (- Z.of_nat j - 1 + Z.of_nat (length l)) 0); [lia|].
  replace (Z.to_nat (- Z.of_nat j - 1 + Z.of_nat (length l)))
    with (length l - 1 - j) by lia.
  by rewrite H.
Qed.

Lemma py_index_before_end {A : Type} (l : list A) (j : nat) (x : A) :
  l !! (length l - j) = Some x -> 0 < j <= length l ->
  py_index l (- Z.of_nat j) = Ok x.
Proof.
  intros H Hj. unfold py_index, wrap_index.
  destruct (Z.ltb_spec (- Z.of_nat j) 0); [|lia].
  destruct (Z.ltb_spec (- Z.of_nat j + Z.of_nat (length l)) 0); [lia|].
  replace (Z.to_nat (- Z.of_nat j + Z.of_nat (length l)))
    with (length l - j) by lia.
  by rewrite H.
Qed.

Lemma py_slice_upto {A : Type} (l : list A) (n : nat) :
  py_slice l None (Some (Z.of_nat n)) = take n l.
Proof.
  unfold py_slice, clamp_index, wrap_index. simpl.
  destruct (Z.ltb_spec (Z.of_nat n) 0); [lia|].
  rewrite drop_0.
  destruct (decide (n <= length l)).
  - f_equal. lia.
  - rewrite !take_ge by lia. reflexivity.
Qed.

Lemma py_slice_last {A : Type} (l : list A) (n : nat) :
  0 < n -> py_slice l (Some (- Z.of_nat n)%Z) None = drop (length l - n) l.
Proof.
  intros Hn. unfold py_slice, clamp_index, wrap_index. simpl.
  destruct (Z.ltb_spec (- Z.of_nat n) 0); [|lia].
  rewrite firstn_all. f_equal. lia.
Qed.

Lemma py_slice_window {A : Type} (l : list A) (n : nat) :
  0 < n -> 2 * n <= length l ->
  py_slice l (Some (- Z.of_nat n * 2)%Z) (Some (- Z.of_nat n)%Z)
  = take n (drop (length l - 2 * n) l).
Proof.
  intros Hn Hl. unfold py_slice, clamp_index, wrap_index. simpl.
  destruct (Z.ltb_spec (- Z.of_nat n * 2) 0); [|lia].
  destruct (Z.ltb_spec (- Z.of_nat n) 0); [|lia].
  rewrite take_drop_commute. f_equal; [lia|]. f_equal. lia.
Qed.

Lemma np_dot_dotp (a b : list R) :
  length a = length b -> np_dot a b = Ok (dotp a b).
Proof. intros H. unfold np_dot. by rewrite decide_True. Qed.

(** ** Loops *)

Lemma for_range_S {S : Type} (lo n : nat) (body : nat -> S -> result S) (s : S) :
  for_range lo (lo + Datatypes.S n) body s
  = (s' ← body lo s; for_range (Datatypes.S lo) (lo + Datatypes.S n) body s').
Proof.
  unfold for_range.
  replace (lo + Datatypes.S n - lo) with (Datatypes.S n) by lia.
  replace (lo + Datatypes.S n - Datatypes.S lo) with n by lia.
  reflexivity.
Qed.

(** Invariant rule for a loop whose every iteration succeeds. *)
Lemma for_range_invariant {S : Type} (I : nat -> S -> Prop) (lo hi : nat)
    (body : nat -> S -> result S) (s : S) :
  lo <= hi -> I lo s ->
  (forall i s, lo <= i < hi -> I i s -> exists s', body i s = Ok s' /\ I (Datatypes.S i) s') ->
  exists s', for_range lo hi body s = Ok s' /\ I hi s'.
Proof.
  intros Hle. remember (hi - lo) as n eqn:Hn.
  revert lo s Hle Hn. induction n as [|n IH]; intros lo s Hle Hn H0 Hstep.
  - assert (hi = lo) as -> by lia. exists s. split; [|done].
    unfold for_range. by rewrite Nat.sub_diag.
  - assert (hi = lo + Datatypes.S (hi - lo - 1)) as Hhi by lia.
    destruct (Hstep lo s ltac:(lia) H0) as (s1 & Hb & H1).
    destruct (IH (Datatypes.S lo) s1 ltac:(lia) ltac:(lia) H1) as (s' & Hr & H');
      [intros i s2 Hi; apply Hstep; lia|].
    exists s'. split; [|done].
    rewrite Hhi, for_range_S, Hb, bind_Ok, <- Hhi. exact Hr.
Qed.

Lemma forM_range_invariant {S : Type} (I : nat -> S -> world -> Prop) (lo hi : nat)
    (body : nat -> S -> M S) (s : S) (w : world) :
  lo <= hi -> I lo s w ->
  (forall i s w, lo <= i < hi -> I i s w ->
     exists s' w', body i s w = (Ok s', w') /\ I (Datatypes.S i) s' w') ->
  exists s' w', forM_range lo hi body s w = (Ok s', w') /\ I hi s' w'.
Proof.
  intros Hle. remember (hi - lo) as n eqn:Hn.
  revert lo s w Hle Hn. induction n as [|n IH]; intros lo s w Hle Hn H0 Hstep.
  - assert (hi = lo) as -> by lia. exists s, w. split; [|done].
    unfold forM_range. by rewrite Nat.sub_diag.
  - assert (hi = lo + Datatypes.S (hi - lo - 1)) as Hhi by lia.
    destruct (Hstep lo s w ltac:(lia) H0) as (s1 & w1 & Hb & H1).
    destruct (IH (Datatypes.S lo) s1 w1 ltac:(lia) ltac:(lia) H1)
      as (s' & w' & Hr & H'); [intros i s2 w2 Hi; apply Hstep; lia|].
    exists s', w'. split; [|done].
    rewrite Hhi, forM_range_S, (M_bind_Ok _ _ _ _ _ Hb), <- Hhi. exact Hr.
Qed.

(** A loop over the store that only reads it and adds one term per
    iteration. *)
Lemma forM_each_sum (body : nat -> R -> M R) (v : nat -> R) (w : world)
    (idx : list nat) (acc : R) :
  (forall i acc, i ∈ idx -> body i acc w = (Ok (acc + v i)%R, w)) ->
  forM_each body idx acc w = (Ok (acc + np_sum (v <$> idx))%R, w).
Proof.
  revert acc. induction idx as [|i idx IH]; intros acc Hb; simpl.
  - unfold mret, M_ret. do 2 f_equal. lra.
  - rewrite (M_bind_Ok _ _ _ _ _ (Hb i acc ltac:(apply list_elem_of_here))).
    rewrite IH by (intros j acc' Hj; apply Hb; by apply list_elem_of_further).
    change (np_sum (v <$> i :: idx)) with (v i + np_sum (v <$> idx))%R.
    by rewrite Rplus_assoc.
Qed.

(** ** The deterministic forecast *)

Lemma lookup_total_Some {A : Type} `{Inhabited A} (l : list A) (i : nat) :
  i < length l -> l !! i = Some (l !!! i).
Proof. intros Hi. by apply list_lookup_lookup_total_lt. Qed.

(** The two lag loops of a forecast step: [n] terms, coefficient [ix j]
    against the entry [j+1] places from the end of the array [r]. *)
Lemma lag_loop_sum (tp : list R) (ix : nat -> nat) (off n : nat) (r : ref)
    (w : world) (a : list R) (acc : R) :
  arrays w !! r = Some a -> n <= length a -> off + n <= length tp ->
  (forall j, ix j = off + j) ->
  forM_range 0 n (fun j acc =>
      c ← lift (py_index tp (Z.of_nat (ix j)));
      b ← getitem r (- Z.of_nat j - 1)%Z;
      mret (acc + c * b)%R) acc w
  = (Ok (acc + lag_sum (take n (drop off tp)) a (length a))%R, w).
Proof.
  intros Hr Hn Htp Hix. unfold forM_range. rewrite Nat.sub_0_r.
  assert (length (take n (drop off tp)) = n) as Hlen
    by (rewrite length_take, length_drop; lia).
  unfold lag_sum. rewrite Hlen.
  apply forM_each_sum. intros j acc' Hj.
  apply elem_of_seq in Hj.
  rewrite Hix.
  unfold mbind, M_bind, lift, getitem, deref, mbind, M_bind, lift, mret, M_ret.
  rewrite (py_index_nat tp (off + j) (tp !!! (off + j)))
    by (apply lookup_total_Some; lia).
  rewrite Hr. simpl.
  rewrite (py_index_from_end a j (a !!! (length a - 1 - j)))
    by (try apply lookup_total_Some; lia).
  do 3 f_equal.
  rewrite lookup_total_take_lt by lia.
  by rewrite lookup_total_drop.
Qed.

Lemma M_bind_lift {A B : Type} (r : result A) (a : A) (f : A -> M B) (w : world) :
  r = Ok a -> (lift r ≫= f) w = f a w.
Proof. intros ->. reflexivity. Qed.

Lemma alloc_pushed (a : list R) (w : world) :
  alloc a w = (Ok (length (arrays w)), pushed w a).
Proof. reflexivity. Qed.

Lemma np_copy_pushed (r : ref) (w : world) :
  np_copy r w = (Ok (length (arrays w)), pushed w (contents w r)).
Proof. reflexivity. Qed.

Lemma np_append_pushed (r : ref) (v : R) (w : world) :
  np_append r v w = (Ok (length (arrays w)), pushed w (contents w r ++ [v])).
Proof. reflexivity. Qed.

Lemma contents_Some (w : world) (r : ref) (a : list R) :
  arrays w !! r = Some a -> contents w r = a.
Proof. unfold contents. by intros ->. Qed.

Lemma pushed_lookup_new (w : world) (a : list R) :
  arrays (pushed w a) !! length (arrays w) = Some a.
Proof. simpl. by apply list_lookup_middle. Qed.

Lemma pushed_lookup_old (w : world) (a b : list R) (r : ref) :
  arrays w !! r = Some b -> arrays (pushed w a) !! r = Some b.
Proof. intros H. simpl. by apply lookup_app_l_Some. Qed.

Lemma pushed_length (w : world) (a : list R) :
  length (arrays (pushed w a)) = S (length (arrays w)).
Proof. simpl. rewrite length_app. simpl. lia. Qed.

(** One step of the deterministic forecast: it allocates the three
    extended arrays and leaves the others alone. *)
Lemma mean_prediction_step_ok (m : EGARCHMReg) (tp : list R) (X_oos : list (list R))
    (t : nat) (le se ye : ref) (w : world) (L Sc xt : list R) :
  arrays w !! le = Some L -> arrays w !! se = Some Sc ->
  p m <= length L -> q m <= length Sc -> p m + q m <= length tp ->
  0 < Layout.k m -> 2 * Layout.k m + 1 <= length tp ->
  X_oos !! t = Some xt -> length xt = Layout.k m ->
  exists le' se' ye' w',
    mean_prediction_step m tp X_oos t (le, se, ye) w = (Ok (le', se', ye'), w')
    /\ arrays w' !! le'
       = Some (L ++ [lag_sum (Layout.garch_coeffs m tp) L (length L)
                     + lag_sum (Layout.score_coeffs m tp) Sc (length Sc)
                     + dotp xt (Layout.vol_reg_coeffs m tp)]%R)
    /\ arrays w' !! se' = Some (Sc ++ [0%R]).
Proof.
  intros Hle Hse HpL HqS Hpq Hk Hk2 HX Hxt.
  unfold mean_prediction_step, n_terms. fold (Layout.k m).
  assert ((if decide (p m ≠ 0) then
             forM_range 0 (p m) (fun j acc =>
                 a ← lift (py_index tp (Z.of_nat j));
                 b ← getitem le (- Z.of_nat j - 1)%Z;
                 mret (acc + a * b)%R) 0%R
           else mret 0%R) w
          = (Ok (0 + lag_sum (Layout.garch_coeffs m tp) L (length L))%R, w)) as H1.
  { unfold Layout.garch_coeffs. case_decide as Hp.
    - apply (lag_loop_sum tp (fun j => j) 0 (p m) le w L 0%R); auto; lia.
    - assert (p m = 0) as -> by lia. unfold mret, M_ret, lag_sum. simpl.
      do 2 f_equal. lra. }
  rewrite (M_bind_Ok _ _ _ _ _ H1). clear H1.
  set (a1 := (0 + lag_sum (Layout.garch_coeffs m tp) L (length L))%R).
  assert ((if decide (q m ≠ 0) then
             forM_range 0 (q m) (fun k acc =>
                 a ← lift (py_index tp (Z.of_nat (k + p m)));
                 b ← getitem se (- Z.of_nat k - 1)%Z;
                 mret (acc + a * b)%R) a1
           else mret a1) w
          = (Ok (a1 + lag_sum (Layout.score_coeffs m tp) Sc (length Sc))%R, w)) as H2.
  { unfold Layout.score_coeffs. case_decide as Hq.
    - apply (lag_loop_sum tp (fun k => k + p m) (p m) (q m) se w Sc a1); auto.
      intros j. lia.
    - assert (q m = 0) as -> by lia. unfold mret, M_ret, lag_sum. simpl.
      do 2 f_equal. lra. }
  rewrite (M_bind_Ok _ _ _ _ _ H2). clear H2.
  set (a2 := (a1 + lag_sum (Layout.score_coeffs m tp) Sc (length Sc))%R).
  assert (length (Layout.vol_reg_coeffs m tp) = Layout.k m) as Hvol
    by (unfold Layout.vol_reg_coeffs; rewrite length_take, length_drop; lia).
  assert (length (Layout.mean_reg_coeffs m tp) = Layout.k m) as Hmean
    by (unfold Layout.mean_reg_coeffs; rewrite length_drop; lia).
  rewrite (M_bind_lift _ _ _ _ (py_index_nat _ _ _ HX)).
  rewrite py_slice_window by lia. fold (Layout.vol_reg_coeffs m tp).
  rewrite (M_bind_lift _ _ _ _ (np_dot_dotp _ _ (eq_trans Hxt (eq_sym Hvol)))).
  rewrite (M_bind_lift _ _ _ _ (py_index_nat _ _ _ HX)).
  rewrite py_slice_last by lia. fold (Layout.mean_reg_coeffs m tp).
  rewrite (M_bind_lift _ _ _ _ (np_dot_dotp _ _ (eq_trans Hxt (eq_sym Hmean)))).
  replace (- (Z.of_nat (Layout.k m) * 2) - 1)%Z
    with (- Z.of_nat (2 * Layout.k m + 1))%Z by lia.
  assert (length tp - (2 * Layout.k m + 1) < length tp) as Hg by lia.
  rewrite (M_bind_lift _ _ _ _
             (py_index_before_end tp (2 * Layout.k m + 1) _
                (lookup_total_Some tp _ Hg) ltac:(lia))).
  rewrite (M_bind_Ok _ _ _ _ _ (np_append_pushed _ _ _)).
  rewrite (M_bind_Ok _ _ _ _ _ (np_append_pushed _ _ _)).
  rewrite (M_bind_Ok _ _ _ _ _ (np_append_pushed _ _ _)).
  eexists _, _, _, _. split; [reflexivity|]. split.
  - do 2 apply pushed_lookup_old. rewrite (contents_Some _ _ _ Hle).
    rewrite pushed_lookup_new. do 3 f_equal. unfold a2, a1. lra.
  - apply pushed_lookup_old. rewrite pushed_lookup_new.
    by rewrite (contents_Some _ _ _ (pushed_lookup_old _ _ _ _ Hse)).
Qed.

(** A lag sum at [t] only reads the entries before [t]. *)
Lemma lag_sum_ext (c a b : list R) (t : nat) :
  (forall i, i < length c -> a !!! (t - 1 - i) = b !!! (t - 1 - i)) ->
  lag_sum c a t = lag_sum c b t.
Proof.
  intros H. unfold lag_sum. f_equal.
  apply Forall_fmap_ext_1, Forall_forall. intros i Hi.
  apply elem_of_seq in Hi. rewrite H by lia. reflexivity.
Qed.

Lemma lag_sum_app (c a b : list R) (t : nat) :
  length c <= t -> t <= length a -> lag_sum c (a ++ b) t = lag_sum c a t.
Proof.
  intros Hc Ht. apply lag_sum_ext. intros i Hi.
  apply lookup_total_app_l. lia.
Qed.

Lemma garch_coeffs_length (m : EGARCHMReg) (tp : list R) :
  p m <= length tp -> length (Layout.garch_coeffs m tp) = p m.
Proof. intros H. unfold Layout.garch_coeffs. rewrite length_take. lia. Qed.

Lemma score_coeffs_length (m : EGARCHMReg) (tp : list R) :
  p m + q m <= length tp -> length (Layout.score_coeffs m tp) = q m.
Proof.
  intros H. unfold Layout.score_coeffs. rewrite length_take, length_drop. lia.
Qed.

Lemma mean_path_upto_snoc (m : EGARCHMReg) (tp : list R) (X_oos : list (list R))
    (L Sc : list R) (h s : nat) (P xt : list R) :
  p m <= length L -> q m <= length Sc -> p m + q m <= length tp -> s < h ->
  X_oos !! s = Some xt ->
  mean_path_upto m tp X_oos L Sc h s P ->
  mean_path_upto m tp X_oos L Sc h (S s)
    (P ++ [lag_sum (Layout.garch_coeffs m tp) P (length P)
           + lag_sum (Layout.score_coeffs m tp) (Sc ++ replicate s 0%R)
               (length (Sc ++ replicate s 0%R))
           + dotp xt (Layout.vol_reg_coeffs m tp)]%R).
Proof.
  intros HpL HqS Hpq Hs HX (Hlen & Htake & Hrec).
  pose proof (garch_coeffs_length m tp ltac:(lia)) as Hg.
  pose proof (score_coeffs_length m tp ltac:(lia)) as Hsc.
  split; [rewrite length_app; simpl; lia|].
  split; [rewrite take_app_le by lia; exact Htake|].
  intros s' Hs'. destruct (decide (s' < s)) as [Hlt|Hge].
  - destruct (Hrec s' Hlt) as (xt' & HX' & HP). exists xt'. split; [done|].
    rewrite lookup_app_l by lia. rewrite HP. do 3 f_equal.
    symmetry. apply lag_sum_app; lia.
  - assert (s' = s) as -> by lia. exists xt. split; [done|].
    rewrite <- Hlen. rewrite list_lookup_middle by done.
    rewrite length_app, length_replicate.
    do 3 f_equal.
    + symmetry. apply lag_sum_app; lia.
    + replace h with (s + (h - s)) at 1 by lia.
      rewrite replicate_add, app_assoc.
      symmetry. apply lag_sum_app; rewrite ?length_app, ?length_replicate; lia.
Qed.

(** C6: a forecast of [h] steps returns a new array of length
    [len(lmda) + h] that starts with the entries of [lmda]; the entry of
    step [s] is the GARCH sum over the extended path plus the score sum
    over the scores extended with zeros plus the volatility regression on
    row [s] of [X_oos], with no leverage term; and for [h = 0] the array
    returned holds exactly the entries of [lmda]. *)
Theorem mean_prediction_path (m : EGARCHMReg) (lmda Y scores : ref) (h : nat)
    (t_params : list R) (X_oos : list (list R)) (w : world) (L Sc : list R) :
  arrays w !! lmda = Some L -> arrays w !! scores = Some Sc ->
  forecast_ready m L Sc h t_params X_oos ->
  exists r w' P,
    _mean_prediction m lmda Y scores h t_params X_oos w = (Ok r, w')
    /\ arrays w' !! r = Some P
    /\ length P = length L + h
    /\ take (length L) P = L
    /\ (forall s, s < h -> exists xt,
          X_oos !! s = Some xt
          /\ P !! (length L + s)
             = Some (lag_sum (Layout.garch_coeffs m t_params) P (length L + s)
                     + lag_sum (Layout.score_coeffs m t_params)
                         (Sc ++ replicate h 0%R) (length Sc + s)
                     + dotp xt (Layout.vol_reg_coeffs m t_params))%R)
    /\ (h = 0 -> P = L).
Proof.
  intros HL HSc Hready.
  unfold _mean_prediction.
  rewrite (M_bind_Ok _ _ _ _ _ (np_copy_pushed _ _)).
  rewrite (M_bind_Ok _ _ _ _ _ (np_copy_pushed _ _)).
  rewrite (M_bind_Ok _ _ _ _ _ (np_copy_pushed _ _)).
  rewrite (contents_Some _ _ _ HL).
  set (w1 := pushed w L).
  rewrite (contents_Some w1 _ _ (pushed_lookup_old _ _ _ _ HSc)).
  set (w2 := pushed w1 Sc). set (w3 := pushed w2 (contents w2 Y)).
  destruct (forM_range_invariant
              (fun s st w' =>
                 exists P, arrays w' !! st.1.1 = Some P
                   /\ arrays w' !! st.1.2 = Some (Sc ++ replicate s 0%R)
                   /\ mean_path_upto m t_params X_oos L Sc h s P)
              0 h (mean_prediction_step m t_params X_oos)
              (length (arrays w), length (arrays w1), length (arrays w2)) w3)
    as ([[le se] ye] & w' & Hrun & P & HP & _ & Hlen & Htake & Hrec).
  - lia.
  - exists L. cbn [fst snd]. split; [|split].
    + unfold w3, w2. do 2 apply pushed_lookup_old. apply pushed_lookup_new.
    + unfold w3. apply pushed_lookup_old. unfold w2.
      rewrite pushed_lookup_new. by rewrite app_nil_r.
    + split; [lia|]. split; [by rewrite firstn_all|]. intros s' Hs'. lia.
  - intros s [[le se] ye] w' Hs (P & HP & HS & Hinv). cbn [fst snd] in HP, HS.
    destruct Hready as [->|(HpL & HqS & Hpq & Hk & Hk2 & HhX & Hrows)]; [lia|].
    destruct (lookup_lt_is_Some_2 X_oos s ltac:(lia)) as [xt HX].
    pose proof (proj1 Hinv) as Hlen.
    destruct (mean_prediction_step_ok m t_params X_oos s le se ye w' P
                (Sc ++ replicate s 0%R) xt HP HS)
      as (le' & se' & ye' & w'' & Hstep & HP' & HS');
      rewrite ?length_app, ?length_replicate; try lia; try done.
    { apply (Forall_lookup_1 _ _ s xt Hrows). rewrite lookup_take_lt by lia. done. }
    exists (le', se', ye'), w''. split; [done|].
    eexists. cbn [fst snd]. split; [exact HP'|]. split.
    + rewrite HS'. by rewrite replicate_S_end, app_assoc.
    + apply mean_path_upto_snoc; try done; lia.
  - rewrite (M_bind_Ok _ _ _ _ _ Hrun). cbn [fst snd] in HP.
    exists le, w', P. repeat split; try done.
    intros ->. rewrite <- Htake. rewrite take_ge; [done | lia].
Qed.

Lemma mean_prediction_path_witness :
  exists r w' P,
    _mean_prediction Sample.model11 0 1 2 2 [0.5; 0.25; 3; 0; 0; 0]%R
      Sample.X_oos Sample.store = (Ok r, w')
    /\ arrays w' !! r = Some P
    /\ length P = length [1; 2; 3]%R + 2
    /\ take (length [1; 2; 3]%R) P = [1; 2; 3]%R
    /\ (forall s, s < 2 -> exists xt,
          Sample.X_oos !! s = Some xt
          /\ P !! (length [1; 2; 3]%R + s)
             = Some (lag_sum (Layout.garch_coeffs Sample.model11
                                [0.5; 0.25; 3; 0; 0; 0]%R) P
                       (length [1; 2; 3]%R + s)
                     + lag_sum (Layout.score_coeffs Sample.model11
                                  [0.5; 0.25; 3; 0; 0; 0]%R)
                         ([7; 8; 9]%R ++ replicate 2 0%R)
                         (length [7; 8; 9]%R + s)
                     + dotp xt (Layout.vol_reg_coeffs Sample.model11
                                  [0.5; 0.25; 3; 0; 0; 0]%R))%R)
    /\ (2 = 0 -> P = [1; 2; 3]%R).
Proof.
  apply (mean_prediction_path Sample.model11 0 1 2 2 [0.5; 0.25; 3; 0; 0; 0]%R
           Sample.X_oos Sample.store [1; 2; 3]%R [7; 8; 9]%R).
  - reflexivity.
  - reflexivity.
  - right. vm_compute. repeat split; try lia. repeat constructor.
Defined.

(** ** What the constructor and [add_leverage] establish *)

Lemma py_index_nat_ok {A : Type} (l : list A) (i : nat) :
  i < length l -> exists x, l !! i = Some x /\ py_index l (Z.of_nat i) = Ok x.
Proof.
  intros Hi. destruct (lookup_lt_is_Some_2 l i Hi) as [x Hx].
  exists x. split; [done|].
  unfold py_index, wrap_index.
  destruct (Z.ltb_spec (Z.of_nat i) 0); [lia|].
  destruct (Z.ltb_spec (Z.of_nat i) 0); [lia|].
  by rewrite Nat2Z.id, Hx.
Qed.

Lemma assign_start_ok (lv : LatentVariables) (i : Z) (s : R) :
  (- Z.of_nat (length (z_list lv)) <= i < Z.of_nat (length (z_list lv)))%Z ->
  exists lv', assign_start lv i s = Ok lv'
    /\ length (z_list lv') = length (z_list lv)
    /\ name <$> z_list lv' = name <$> z_list lv
    /\ estimated lv' = estimated lv.
Proof.
  intros Hi. unfold assign_start, py_index, py_setitem.
  set (j := wrap_index (length (z_list lv)) i).
  assert (0 <= j < Z.of_nat (length (z_list lv)))%Z as Hj
    by (unfold j, wrap_index; destruct (Z.ltb_spec i 0); lia).
  destruct (Z.ltb_spec j 0); [lia|].
  destruct (lookup_lt_is_Some_2 (z_list lv) (Z.to_nat j) ltac:(lia)) as [z Hz].
  rewrite Hz, bind_Ok.
  destruct (Z.ltb_spec j (Z.of_nat (length (z_list lv)))); [|lia].
  rewrite bind_Ok. eexists. split; [reflexivity|]. simpl.
  split; [by rewrite length_insert|]. split; [|done].
  rewrite list_fmap_insert. simpl. apply list_insert_id.
  by rewrite list_lookup_fmap, Hz.
Qed.

Lemma add_z_length (lv : LatentVariables) (nm : string) (pr : Prior) :
  length (z_list (add_z lv nm pr)) = S (length (z_list lv)).
Proof. unfold add_z. simpl. rewrite length_app. simpl. lia. Qed.

(** A loop that appends one latent variable per iteration. *)
Lemma add_z_loop_length (body : nat -> LatentVariables -> result LatentVariables)
    (n : nat) (lv : LatentVariables) :
  (forall i lv, i < n ->
     exists lv', body i lv = Ok lv'
       /\ length (z_list lv') = S (length (z_list lv))) ->
  exists lv', for_range 0 n body lv = Ok lv'
    /\ length (z_list lv') = length (z_list lv) + n.
Proof.
  intros Hbody.
  destruct (for_range_invariant
              (fun i lv' => length (z_list lv') = length (z_list lv) + i)
              0 n body lv) as (lv' & Hrun & Hlen); [lia | lia | | eauto].
  intros i lv1 Hi H1. destruct (Hbody i lv1 ltac:(lia)) as (lv2 & Hb & H2).
  exists lv2. split; [done | lia].
Qed.

Lemma term_loop_step (lv : LatentVariables) (prefix : string) (pr : Prior)
    (names : list string) (i : nat) :
  i < length names ->
  exists lv',
    (nm ← py_index names (Z.of_nat i); Ok (add_z lv (prefix ++ nm)%string pr))
    = Ok lv'
    /\ length (z_list lv') = S (length (z_list lv)).
Proof.
  intros Hi. destruct (py_index_nat_ok names i Hi) as (nm & _ & ->).
  rewrite bind_Ok. eexists. split; [reflexivity|]. apply add_z_length.
Qed.

Lemma lag_loop_step (lv : LatentVariables) (nm : string) (pr : Prior) (s : R) :
  exists lv', assign_start (add_z lv nm pr) (-1)%Z s = Ok lv'
    /\ length (z_list lv') = S (length (z_list lv)).
Proof.
  destruct (assign_start_ok (add_z lv nm pr) (-1)%Z s) as (lv' & Hrun & Hlen & _).
  - rewrite add_z_length. lia.
  - exists lv'. split; [done|]. by rewrite Hlen, add_z_length.
Qed.

(** The constructor succeeds and lays out [p + q + 2 + 2k] latent
    variables whenever the design matrix has one column per term. *)
Lemma init_layout_ok (y : list R) (X0 : list (list R)) (names : list string)
    (p0 q0 : nat) :
  shape1 X0 = length names ->
  exists m, __init__ y X0 names p0 q0 = Ok m
    /\ layout_ok m /\ leverage m = false
    /\ p m = p0 /\ q m = q0
    /\ data m = y /\ X m = X0 /\ X_names m = names.
Proof.
  intros Hshape. unfold __init__, _create_latent_variables.
  cbn [p q z_no X_names latent_variables].
  match goal with
  | |- context [for_range 0 p0 ?body ?lv0] =>
      destruct (add_z_loop_length body p0 lv0) as (lv1 & Hrun1 & H1)
  end.
  { intros i lv _. cbv zeta. case_decide; apply lag_loop_step. }
  rewrite Hrun1, bind_Ok.
  match goal with
  | |- context [for_range 0 q0 ?body lv1] =>
      destruct (add_z_loop_length body q0 lv1) as (lv2 & Hrun2 & H2)
  end.
  { intros i lv _. cbv zeta. case_decide; apply lag_loop_step. }
  rewrite Hrun2, bind_Ok. cbv zeta.
  set (lv3 := add_z (add_z lv2 "v" (Uniform T_exp)) "GARCH-M" (Normal 0 3 T_none)).
  assert (length (z_list lv3) = p0 + q0 + 2) as H3
    by (unfold lv3; rewrite !add_z_length; simpl in H1; lia).
  match goal with
  | |- context [for_each ?body (seq 0 (length names)) lv3] =>
      destruct (add_z_loop_length body (length names) lv3) as (lv4 & Hrun4 & H4)
  end.
  { intros i lv Hi. by apply term_loop_step. }
  unfold for_range in Hrun4. rewrite Nat.sub_0_r in Hrun4.
  rewrite Hrun4, bind_Ok.
  match goal with
  | |- context [for_each ?body (seq 0 (length names)) lv4] =>
      destruct (add_z_loop_length body (length names) lv4) as (lv5 & Hrun5 & H5)
  end.
  { intros i lv Hi. by apply term_loop_step. }
  unfold for_range in Hrun5. rewrite Nat.sub_0_r in Hrun5.
  rewrite Hrun5, bind_Ok.
  match goal with
  | |- context [for_range ?lo ?hi ?body lv5] =>
      destruct (for_range_invariant
                  (fun _ lv => length (z_list lv) = p0 + q0 + 2 + 2 * length names)
                  lo hi body lv5) as (lv6 & Hrun6 & H6); [lia | lia | |]
  end.
  { intros i lv Hi Hlen.
    destruct (assign_start_ok lv (Z.of_nat i) 0.0%R ltac:(lia))
      as (lv' & Hrun & Hlen' & _).
    exists lv'. split; [done | lia]. }
  rewrite Hrun6, bind_Ok.
  destruct (assign_start_ok lv6 (Z.of_nat (p0 + q0)) 2.0%R ltac:(lia))
    as (lv7 & Hrun7 & H7 & _ & E7).
  rewrite Hrun7, bind_Ok. eexists. split; [reflexivity|].
  unfold layout_ok, Layout.shift, Layout.k.
  cbn [p q z_no X_names latent_variables max_lag leverage data X
       with_latent_variables].
  repeat split; try done; try lia.
Qed.

Lemma py_pop_ok {A : Type} (l : list A) :
  0 < length l ->
  py_pop l = Ok (take (length l - 1) l)
  /\ length (take (length l - 1) l) = length l - 1.
Proof.
  intros Hl. split.
  - destruct l; [simpl in Hl; lia | reflexivity].
  - rewrite length_take. lia.
Qed.

(** [add_leverage] on a model without leverage: the last three latent
    variables go, whatever they are, four are appended, and the count
    stays in step with [z_no]. *)
Lemma add_leverage_ok (m : EGARCHMReg) :
  layout_ok m -> leverage m = false -> 0 < Layout.k m ->
  exists m', add_leverage m = Ok m'
    /\ layout_ok m' /\ leverage m' = true
    /\ p m' = p m /\ q m' = q m /\ data m' = data m /\ X m' = X m
    /\ X_names m' = X_names m
    /\ z_names m'
       = take (length (z_names m) - 3) (z_names m)
         ++ ["Leverage Term"; "v"; "Returns Constant"; "GARCH-M"]%string.
Proof.
  intros (Hlen & Hzno & Hlag) Hlev Hk.
  unfold Layout.shift in Hzno. rewrite Hlev in Hzno.
  unfold add_leverage. rewrite Hlev.
  set (zl := z_list (latent_variables m)) in *.
  destruct (py_pop_ok zl ltac:(lia)) as (-> & L1). rewrite bind_Ok.
  destruct (py_pop_ok (take (length zl - 1) zl) ltac:(lia)) as (-> & L2).
  rewrite bind_Ok. rewrite L1 in *.
  destruct (py_pop_ok (take (length zl - 1 - 1) (take (length zl - 1) zl))
              ltac:(lia)) as (-> & L3).
  rewrite bind_Ok. rewrite L2 in *.
  assert (take (length zl - 1 - 1 - 1)
            (take (length zl - 1 - 1) (take (length zl - 1) zl))
          = take (length zl - 3) zl) as Etake
    by (rewrite !take_take; f_equal; lia).
  rewrite Etake in *. clear Etake.
  cbv zeta.
  match goal with
  | |- context [assign_start ?lv (-3)%Z ?s] =>
      destruct (assign_start_ok lv (-3)%Z s) as (lv' & Hrun & Hlen' & Hnames & _)
  end.
  { rewrite !add_z_length. lia. }
  rewrite Hrun, bind_Ok. eexists. split; [reflexivity|].
  unfold layout_ok, Layout.shift, Layout.k, z_names.
  cbn [p q z_no X_names latent_variables max_lag leverage data X].
  rewrite Hlen', Hnames. rewrite !add_z_length in *. cbn [z_list add_z].
  repeat split; try done; try lia.
  - unfold Layout.k in *. lia.
  - rewrite !fmap_app, fmap_take, length_fmap. simpl.
    rewrite <- !app_assoc. reflexivity.
Qed.

Lemma layout_filter_ready (m : EGARCHMReg) (beta : list R) :
  layout_ok m -> length beta = z_no m -> 0 < Layout.k m ->
  length (data m) - max_lag m <= length (X m) ->
  Forall (fun row => length row = Layout.k m) (X m) ->
  filter_ready m beta.
Proof.
  intros (Hlen & Hzno & Hlag) Hbeta Hk HX Hrows.
  unfold filter_ready. repeat split; try done; lia.
Qed.

(** A model as the constructor builds it, with or without a later
    [add_leverage], is ready for the filter on every parameter vector of
    [z_no] entries. *)
Lemma constructed_filter_ready (y : list R) (X0 : list (list R))
    (names : list string) (p0 q0 : nat) :
  shape1 X0 = length names -> 0 < length names ->
  length y - Nat.max p0 q0 <= length X0 ->
  Forall (fun row => length row = length names) X0 ->
  exists m m',
    __init__ y X0 names p0 q0 = Ok m /\ add_leverage m = Ok m'
    /\ (forall beta, length beta = z_no m -> filter_ready m beta)
    /\ (forall beta, length beta = z_no m' -> filter_ready m' beta).
Proof.
  intros Hshape Hk HX Hrows.
  destruct (init_layout_ok y X0 names p0 q0 Hshape)
    as (m & Hinit & Hlay & Hlev & Hp & Hq & Hdata & HXm & Hnames).
  assert (0 < Layout.k m) as Hkm by (unfold Layout.k; rewrite Hnames; done).
  destruct (add_leverage_ok m Hlay Hlev Hkm)
    as (m' & Hadd & Hlay' & _ & Hp' & Hq' & Hdata' & HXm' & Hnames' & _).
  pose proof Hlay as (_ & _ & Hlag). pose proof Hlay' as (_ & _ & Hlag').
  exists m, m'. split; [done|]. split; [done|]. split.
  - intros beta Hbeta. apply layout_filter_ready; try done.
    + rewrite Hlag, Hp, Hq, Hdata, HXm. done.
    + unfold Layout.k. rewrite HXm, Hnames. done.
  - intros beta Hbeta. apply layout_filter_ready; try done.
    + unfold Layout.k. rewrite Hnames'. done.
    + rewrite Hlag', Hp', Hq', Hp, Hq, Hdata', Hdata, HXm', HXm. done.
    + unfold Layout.k. rewrite HXm', HXm, Hnames', Hnames. done.
Qed.

(** ** Arrays updated in place *)

Lemma py_index_total {A : Type} `{Inhabited A} (l : list A) (i : nat) :
  i < length l -> py_index l (Z.of_nat i) = Ok (l !!! i).
Proof. intros Hi. apply py_index_nat. by apply lookup_total_Some. Qed.

Lemma py_index_lag {A : Type} `{Inhabited A} (l : list A) (t i : nat) :
  i < t -> t <= length l ->
  py_index l (Z.of_nat t - Z.of_nat i - 1) = Ok (l !!! (t - 1 - i)).
Proof.
  intros Hi Ht.
  replace (Z.of_nat t - Z.of_nat i - 1)%Z with (Z.of_nat (t - 1 - i)) by lia.
  apply py_index_total. lia.
Qed.

Lemma py_index_end {A : Type} `{Inhabited A} (l : list A) (j : nat) :
  0 < j <= length l -> py_index l (- Z.of_nat j) = Ok (l !!! (length l - j)).
Proof.
  intros Hj. apply py_index_before_end; [|done].
  apply lookup_total_Some. lia.
Qed.

Lemma py_setitem_nat {A : Type} (l : list A) (i : nat) (v : A) :
  i < length l -> py_setitem l (Z.of_nat i) v = Ok (<[i := v]> l).
Proof.
  intros Hi. unfold py_setitem, wrap_index.
  destruct (Z.ltb_spec (Z.of_nat i) 0); [lia|].
  destruct (Z.ltb_spec (Z.of_nat i) 0); [lia|].
  destruct (Z.ltb_spec (Z.of_nat i) (Z.of_nat (length l))); [|lia].
  by rewrite Nat2Z.id.
Qed.

Lemma add_at_insert (a : list R) (t : nat) (x v : R) :
  t < length a -> add_at (<[t := x]> a) (Z.of_nat t) v = Ok (<[t := (x + v)%R]> a).
Proof.
  intros Ht. unfold add_at.
  rewrite py_index_total by (by rewrite length_insert).
  rewrite list_lookup_total_insert_eq by done. rewrite bind_Ok.
  rewrite py_setitem_nat by (by rewrite length_insert).
  by rewrite list_insert_insert_eq.
Qed.

(** A loop that adds one term per iteration to the entry [t] of an array
    and reads nothing that depends on that entry. *)
Lemma for_each_add_at (body : nat -> list R -> result (list R)) (v : nat -> R)
    (a : list R) (t : nat) (idx : list nat) (x : R) :
  (forall i x, i ∈ idx -> body i (<[t := x]> a) = Ok (<[t := (x + v i)%R]> a)) ->
  for_each body idx (<[t := x]> a) = Ok (<[t := (x + np_sum (v <$> idx))%R]> a).
Proof.
  revert x. induction idx as [|i idx IH]; intros x Hb; simpl.
  - do 2 f_equal. lra.
  - rewrite (Hb i x) by apply list_elem_of_here. rewrite bind_Ok.
    rewrite IH by (intros j y Hj; apply Hb; by apply list_elem_of_further).
    change (np_sum (v <$> i :: idx)) with (v i + np_sum (v <$> idx))%R.
    by rewrite Rplus_assoc.
Qed.

(** The GARCH loop and the score loop of a recursion row. *)
Lemma lag_loop_add_at (parm src : list R) (ix : nat -> nat) (off n : nat)
    (a : list R) (t : nat) (x : R) (read : list R -> list R) :
  t < length a -> n <= t -> t <= length src -> off + n <= length parm ->
  (forall j, ix j = off + j) ->
  (forall y j, j < t -> read (<[t := y]> a) !!! j = src !!! j) ->
  (forall y, length (read (<[t := y]> a)) = length src) ->
  for_range 0 n (fun j lm =>
      c ← py_index parm (Z.of_nat (ix j));
      b ← py_index (read lm) (Z.of_nat t - Z.of_nat j - 1)%Z;
      add_at lm (Z.of_nat t) (c * b)%R) (<[t := x]> a)
  = Ok (<[t := (x + lag_sum (take n (drop off parm)) src t)%R]> a).
Proof.
  intros Ht Hn Hsrc Hparm Hix Hread Hlen.
  unfold for_range. rewrite Nat.sub_0_r.
  assert (length (take n (drop off parm)) = n) as Hl
    by (rewrite length_take, length_drop; lia).
  unfold lag_sum. rewrite Hl.
  apply for_each_add_at. intros j y Hj. apply elem_of_seq in Hj.
  rewrite Hix, py_index_total by lia. rewrite bind_Ok.
  rewrite py_index_lag by (rewrite ?Hlen; lia). rewrite bind_Ok.
  rewrite Hread by lia.
  rewrite add_at_insert by done.
  rewrite lookup_total_take_lt by lia.
  by rewrite lookup_total_drop.
Qed.

(** ** The transformed parameter vector and the kept observations *)

Lemma transform_all_ok (lv : LatentVariables) (beta : list R) :
  length beta <= length (z_list lv) ->
  transform_all lv beta = Ok (transformed lv beta).
Proof.
  intros Hlen. unfold transform_all.
  destruct (for_range_invariant
              (fun k acc => acc = take k (transformed lv beta))
              0 (length beta)
              (fun k acc =>
                 z ← py_index (z_list lv) (Z.of_nat k);
                 b ← py_index beta (Z.of_nat k);
                 Ok (acc ++ [transform (prior z) b])) [])
    as (parm & Hrun & ->); [lia | done | |].
  - intros k acc Hk ->.
    destruct (lookup_lt_is_Some_2 (z_list lv) k ltac:(lia)) as [z Hz].
    destruct (lookup_lt_is_Some_2 beta k ltac:(lia)) as [b Hb].
    rewrite (py_index_nat _ _ _ Hz), bind_Ok, (py_index_nat _ _ _ Hb), bind_Ok.
    eexists. split; [reflexivity|].
    symmetry. apply take_S_r. unfold transformed.
    rewrite lookup_zip_with, Hz. simpl. by rewrite Hb.
  - rewrite Hrun. f_equal. apply take_ge.
    unfold transformed. rewrite length_zip_with. lia.
Qed.

Lemma transformed_length (lv : LatentVariables) (beta : list R) :
  length beta <= length (z_list lv) ->
  length (transformed lv beta) = length beta.
Proof. intros H. unfold transformed. rewrite length_zip_with. lia. Qed.

Lemma py_slice_from {A : Type} (l : list A) (a : nat) :
  py_slice l (Some (Z.of_nat a)) (Some (Z.of_nat (length l))) = drop a l.
Proof.
  unfold py_slice, clamp_index, wrap_index. simpl.
  destruct (Z.ltb_spec (Z.of_nat a) 0); [lia|].
  destruct (Z.ltb_spec (Z.of_nat (length l)) 0); [lia|].
  replace (Z.to_nat (Z.max 0 (Z.min (Z.of_nat (length l)) (Z.of_nat (length l)))))
    with (length l) by lia.
  rewrite firstn_all.
  destruct (decide (a <= length l)).
  - f_equal. lia.
  - rewrite !drop_ge by lia. reflexivity.
Qed.

Lemma half_float (x : R) : (x / 2.0 = x / 2)%R.
Proof. lra. Qed.

(** ** One row of the filter *)

Section FilterStep.

Variables (m : EGARCHMReg) (parm Y : list R).

Hypothesis Hparm :
  length parm = p m + q m + 2 + Layout.shift m + 2 * Layout.k m.
Hypothesis Hlag : max_lag m = Nat.max (p m) (q m).
Hypothesis Hk : 0 < Layout.k m.
Hypothesis HX : length Y <= length (X m).
Hypothesis Hrows : Forall (fun row => length row = Layout.k m) (X m).

Lemma lmda_row_agree (t : nat) (st st' : filter_arrays) :
  agree_below t st st' -> lmda_row m parm Y st t = lmda_row m parm Y st' t.
Proof.
  intros Hag. unfold lmda_row. case_decide as Hlt; [done|].
  assert (length (Layout.garch_coeffs m parm) <= t) as Hg
    by (unfold Layout.garch_coeffs; rewrite length_take; lia).
  assert (length (Layout.score_coeffs m parm) <= t) as Hs
    by (unfold Layout.score_coeffs; rewrite length_take; lia).
  f_equal. f_equal; [f_equal|].
  - apply lag_sum_ext. intros i Hi. apply Hag. lia.
  - apply lag_sum_ext. intros i Hi. apply Hag. lia.
  - destruct (leverage m); [|done]. unfold leverage_term.
    case_decide as H0; [done|].
    destruct (Hag (t - 1) ltac:(lia)) as (_ & -> & ->). done.
Qed.

Lemma row_done_agree (i : nat) (st st' : filter_arrays) :
  agree_below (S i) st st' -> row_done m parm Y st i -> row_done m parm Y st' i.
Proof.
  intros Hag (Hl & Hth & Hsc).
  destruct (Hag i ltac:(lia)) as (El & Eth & Esc).
  assert (agree_below i st st') as Hag' by (intros j Hj; apply Hag; lia).
  unfold row_done. rewrite <- El, <- Eth, <- Esc.
  rewrite <- (lmda_row_agree i st st' Hag').
  unfold theta_row, score_row in *. rewrite <- El, <- Eth. done.
Qed.

(** Writing row [t] leaves the rows before it as they were. *)
Lemma agree_below_insert (t i : nat) (st : filter_arrays) (a b c : R) :
  i <= t ->
  agree_below i st {| lmda := <[t := a]> (lmda st); theta := <[t := b]> (theta st);
                      scores := <[t := c]> (scores st) |}.
Proof.
  intros Hi j Hj. simpl.
  rewrite !list_lookup_total_insert_ne by lia. done.
Qed.

(** The end of a row: once [lmda[t]] and [theta[t]] hold the values of
    the row, the score is written and the invariant moves on. *)
Lemma filter_row_finish (t : nat) (st : filter_arrays) (V TV : R) :
  filter_upto m parm Y t st -> t < length Y ->
  V = lmda_row m parm Y st t ->
  TV = (if decide (t < max_lag m)%nat
        then dotp (X m !!! t) (Layout.mean_reg_coeffs m parm)
        else dotp (X m !!! t) (Layout.mean_reg_coeffs m parm)
             + Layout.garch_in_mean m parm * exp (V / 2))%R ->
  exists st',
    (df ← py_index parm (Z.of_nat (p m + q m));
     y ← py_index Y (Z.of_nat t);
     th ← py_index (<[t := TV]> (theta st)) (Z.of_nat t);
     l ← py_index (<[t := V]> (lmda st)) (Z.of_nat t);
     sc ← py_setitem (scores st) (Z.of_nat t) (score_value df y th l);
     Ok {| lmda := <[t := V]> (lmda st); theta := <[t := TV]> (theta st);
           scores := sc |}) = Ok st'
    /\ filter_upto m parm Y (S t) st'.
Proof.
  intros (Hl & Hth & Hsc & Hzero & Hdone) Ht HV HTV.
  rewrite (py_index_total parm (p m + q m)) by lia. rewrite bind_Ok.
  rewrite (py_index_total Y t) by lia. rewrite bind_Ok.
  rewrite (py_index_total (<[t := TV]> (theta st)) t)
    by (rewrite length_insert; lia).
  rewrite bind_Ok.
  rewrite (py_index_total (<[t := V]> (lmda st)) t)
    by (rewrite length_insert; lia).
  rewrite bind_Ok.
  rewrite !list_lookup_total_insert_eq by lia.
  rewrite py_setitem_nat by lia. rewrite bind_Ok.
  eexists. split; [reflexivity|].
  set (st' := {| lmda := <[t := V]> (lmda st); theta := <[t := TV]> (theta st);
                 scores := <[t := score_value (parm !!! (p m + q m)) (Y !!! t) TV V]>
                             (scores st) |}).
  assert (forall i, i <= t -> agree_below i st st') as Hag
    by (intros i Hi; by apply agree_below_insert).
  unfold filter_upto. simpl. rewrite !length_insert.
  do 3 (split; [done|]). split.
  - intros i Hi Hin. rewrite !list_lookup_total_insert_ne by lia.
    apply Hzero; lia.
  - intros i Hi. destruct (decide (i < t)) as [Hlt|Hge].
    + apply (row_done_agree i st st'); [apply Hag; lia | by apply Hdone].
    + assert (i = t) as -> by lia. unfold row_done.
      rewrite <- (lmda_row_agree t st st' (Hag t ltac:(lia))).
      unfold theta_row, score_row, st'. simpl.
      rewrite !list_lookup_total_insert_eq by lia.
      rewrite <- HV. split; [done|]. split; [exact HTV | done].
Qed.

Lemma vol_reg_coeffs_length : length (Layout.vol_reg_coeffs m parm) = Layout.k m.
Proof. unfold Layout.vol_reg_coeffs. rewrite length_take, length_drop. lia. Qed.

Lemma mean_reg_coeffs_length : length (Layout.mean_reg_coeffs m parm) = Layout.k m.
Proof. unfold Layout.mean_reg_coeffs. rewrite length_drop. lia. Qed.

(** Every row of the filter succeeds and moves the invariant on. *)
Lemma filter_step_ok (t : nat) (st : filter_arrays) :
  filter_upto m parm Y t st -> t < length Y ->
  exists st', filter_step m parm Y t st = Ok st'
              /\ filter_upto m parm Y (S t) st'.
Proof.
  intros Hinv Ht.
  pose proof Hinv as (Hl & Hth & Hsc & Hzero & Hdone).
  destruct (Hzero t ltac:(lia) Ht) as (Zl & Zth & Zsc).
  assert (X m !! t = Some (X m !!! t)) as HXt
    by (apply lookup_total_Some; lia).
  pose proof (Forall_lookup_1 _ _ _ _ Hrows HXt) as Hxt. simpl in Hxt.
  pose proof vol_reg_coeffs_length as Hvol.
  pose proof mean_reg_coeffs_length as Hmean.
  unfold filter_step, n_terms. fold (Layout.k m).
  destruct (decide (t < max_lag m)) as [Hlt|Hge].
  - (* initialisation row *)
    replace (- Z.of_nat (Layout.k m) * 2)%Z
      with (- Z.of_nat (2 * Layout.k m))%Z by lia.
    rewrite (py_index_end parm (2 * Layout.k m)) by lia. rewrite bind_Ok.
    rewrite py_slice_upto.
    rewrite py_setitem_nat by lia. rewrite bind_Ok.
    rewrite (py_index_nat _ _ _ HXt), bind_Ok.
    rewrite py_slice_last by lia. fold (Layout.mean_reg_coeffs m parm).
    rewrite np_dot_dotp by lia. rewrite bind_Ok.
    rewrite py_setitem_nat by lia. rewrite !bind_Ok.
    cbn [lmda theta scores].
    apply filter_row_finish; try done.
    + unfold lmda_row. rewrite decide_True by done. reflexivity.
    + rewrite decide_True by done. reflexivity.
  - (* recursion row *)
    pose proof (list_insert_id (lmda st) t 0%R
                  ltac:(rewrite lookup_total_Some by lia; by rewrite Zl)) as Hid.
    pose proof (lag_loop_add_at parm (lmda st) (fun j => j) 0 (p m) (lmda st) t 0%R
                  (fun l => l) ltac:(lia) ltac:(lia) ltac:(lia) ltac:(lia)
                  ltac:(done)) as H1.
    rewrite Hid in H1. cbv beta in H1.
    rewrite H1; clear H1.
    2:{ intros y j Hj. by rewrite list_lookup_total_insert_ne by lia. }
    2:{ intros y. by rewrite length_insert. }
    rewrite bind_Ok. rewrite drop_0. fold (Layout.garch_coeffs m parm).
    set (x1 := (0 + lag_sum (Layout.garch_coeffs m parm) (lmda st) t)%R).
    rewrite (lag_loop_add_at parm (scores st) (fun j => p m + j) (p m) (q m)
               (lmda st) t x1 (fun _ => scores st)); try done; try lia.
    rewrite bind_Ok. fold (Layout.score_coeffs m parm).
    set (x2 := (x1 + lag_sum (Layout.score_coeffs m parm) (scores st) t)%R).
    assert (exists x3,
              (if leverage m
               then
                 c ← py_index parm (- (Z.of_nat (Layout.k m) * 2) - 3)%Z;
                 y ← py_index Y (Z.of_nat t - 1)%Z;
                 th ← py_index (theta st) (Z.of_nat t - 1)%Z;
                 s ← py_index (scores st) (Z.of_nat t - 1)%Z;
                 add_at (<[t := x2]> (lmda st)) (Z.of_nat t)
                   (c * np_sign (- (y - th)) * (s + 1))%R
               else Ok (<[t := x2]> (lmda st)))
              = Ok (<[t := x3]> (lmda st))
              /\ x3 = (x2 + (if leverage m
                             then leverage_term m parm Y st t else 0))%R)
      as (x3 & -> & Hx3).
    { destruct (leverage m) eqn:Hlev.
      - unfold Layout.shift in Hparm. rewrite Hlev in Hparm.
        replace (- (Z.of_nat (Layout.k m) * 2) - 3)%Z
          with (- Z.of_nat (2 * Layout.k m + 3))%Z by lia.
        rewrite (py_index_end parm (2 * Layout.k m + 3)) by lia.
        rewrite bind_Ok.
        replace (length parm - (2 * Layout.k m + 3)) with (p m + q m) by lia.
        unfold leverage_term, Layout.leverage_coeff.
        destruct t as [|t'].
        + replace (Z.of_nat 0 - 1)%Z with (- Z.of_nat 1)%Z by lia.
          rewrite (py_index_end Y 1) by lia. rewrite bind_Ok.
          rewrite (py_index_end (theta st) 1) by lia. rewrite bind_Ok.
          rewrite (py_index_end (scores st) 1) by lia. rewrite bind_Ok.
          rewrite add_at_insert by lia.
          rewrite Hth, Hsc.
          destruct (Hzero (length Y - 1) ltac:(lia) ltac:(lia))
            as (_ & -> & ->).
          eexists. split; [reflexivity|]. rewrite decide_True by done.
          reflexivity.
        + replace (Z.of_nat (S t') - 1)%Z with (Z.of_nat t') by lia.
          rewrite (py_index_total Y t') by lia. rewrite bind_Ok.
          rewrite (py_index_total (theta st) t') by lia. rewrite bind_Ok.
          rewrite (py_index_total (scores st) t') by lia. rewrite bind_Ok.
          rewrite add_at_insert by lia.
          eexists. split; [reflexivity|]. rewrite decide_False by done.
          replace (S t' - 1) with t' by lia. reflexivity.
      - exists x2. split; [done | lra]. }
    rewrite bind_Ok.
    rewrite (py_index_nat _ _ _ HXt), bind_Ok.
    rewrite py_slice_window by lia. fold (Layout.vol_reg_coeffs m parm).
    rewrite np_dot_dotp by lia. rewrite bind_Ok.
    rewrite add_at_insert by lia. rewrite !bind_Ok.
    set (x4 := (x3 + dotp (X m !!! t) (Layout.vol_reg_coeffs m parm))%R).
    rewrite py_slice_last by lia. fold (Layout.mean_reg_coeffs m parm).
    rewrite np_dot_dotp by lia. rewrite bind_Ok.
    replace (- (Z.of_nat (Layout.k m) * 2) - 1)%Z
      with (- Z.of_nat (2 * Layout.k m + 1))%Z by lia.
    rewrite (py_index_end parm (2 * Layout.k m + 1)) by lia. rewrite bind_Ok.
    replace (length parm - (2 * Layout.k m + 1))
      with (p m + q m + 1 + Layout.shift m) by lia.
    fold (Layout.garch_in_mean m parm).
    rewrite (py_index_total (<[t := x4]> (lmda st)) t)
      by (rewrite length_insert; lia).
    rewrite bind_Ok.
    rewrite list_lookup_total_insert_eq by lia.
    rewrite py_setitem_nat by lia. rewrite !bind_Ok.
    cbn [lmda theta scores]. rewrite half_float.
    apply filter_row_finish; try done.
    + unfold lmda_row. rewrite decide_False by done.
      unfold x4. rewrite Hx3. unfold x2, x1. lra.
    + rewrite decide_False by done. reflexivity.
Qed.

End FilterStep.

(** ** The whole filter *)

Lemma kept_length (m : EGARCHMReg) :
  length (kept m) = length (data m) - max_lag m.
Proof. unfold kept. apply length_drop. Qed.

(** On a model and a parameter vector that fit each other the filter
    returns, and every row of its arrays holds the value of its row. *)
Lemma filter_rows (m : EGARCHMReg) (beta : list R) :
  filter_ready m beta ->
  exists st,
    _model m beta = Ok (lmda st, kept m, scores st, theta st)
    /\ length (lmda st) = length (kept m)
    /\ length (theta st) = length (kept m)
    /\ length (scores st) = length (kept m)
    /\ forall t, t < length (kept m) ->
         row_done m (transformed (latent_variables m) beta) (kept m) st t.
Proof.
  intros (Hzl & Hzno & Hlayout & Hlag & Hk & HX & Hrows).
  unfold _model. rewrite py_slice_from. fold (kept m).
  rewrite transform_all_ok by lia. rewrite bind_Ok.
  set (parm := transformed (latent_variables m) beta).
  assert (length parm = p m + q m + 2 + Layout.shift m + 2 * Layout.k m) as Hparm
    by (unfold parm; rewrite transformed_length by lia; lia).
  destruct (for_range_invariant (filter_upto m parm (kept m)) 0 (length (kept m))
              (filter_step m parm (kept m))
              {| lmda := np_zeros (length (kept m));
                 theta := np_zeros (length (kept m));
                 scores := np_zeros (length (kept m)) |})
    as (st & Hrun & Hl & Hth & Hsc & _ & Hdone).
  - lia.
  - unfold filter_upto, np_zeros. simpl. rewrite !length_replicate.
    do 3 (split; [done|]). split.
    + intros i _ Hi. by rewrite !lookup_total_replicate_2 by done.
    + intros i Hi. lia.
  - intros t st [_ Ht] Hinv.
    apply filter_step_ok; try done. rewrite kept_length. lia.
  - exists st. rewrite Hrun, bind_Ok. done.
Qed.

Lemma filter_ready_parm_length (m : EGARCHMReg) (beta : list R) :
  filter_ready m beta ->
  length (transformed (latent_variables m) beta)
  = p m + q m + 2 + Layout.shift m + 2 * Layout.k m.
Proof.
  intros (Hzl & Hzno & Hlayout & _). rewrite transformed_length by lia. lia.
Qed.

Lemma score_ratio_bounds (df E e2 : R) :
  (0 < df)%R -> (0 < E)%R -> (0 <= e2)%R ->
  (0 <= (df + 1) * e2 / (df * E + e2) <= df + 1)%R
  /\ ((df + 1) * e2 / (df * E + e2) = 0 <-> e2 = 0)%R.
Proof.
  intros Hdf HE He2.
  assert (0 < df * E + e2)%R as Hden by nra.
  assert ((df + 1) * e2 / (df * E + e2) * (df * E + e2) = (df + 1) * e2)%R as Hmul
    by (field; lra).
  set (r := ((df + 1) * e2 / (df * E + e2))%R) in *. clearbody r.
  split; [split|split].
  - destruct (Rle_or_lt 0 r) as [H|H]; [done|]. nra.
  - destruct (Rle_or_lt r (df + 1)) as [H|H]; [done|]. nra.
  - intros ->. nra.
  - intros ->. nra.
Qed.

(** The Beta-t score lies between -1 and the degrees of freedom, and is -1
    only on a zero residual. *)
Lemma score_value_bounds (df y th lm : R) :
  (0 < df)%R ->
  (-1 <= score_value df y th lm <= df)%R
  /\ (score_value df y th lm = -1 <-> y = th)%R.
Proof.
  intros Hdf. unfold score_value.
  assert (0 <= (y - th) ^ 2)%R as He2 by apply pow2_ge_0.
  destruct (score_ratio_bounds df (exp lm) ((y - th) ^ 2) Hdf (exp_pos lm) He2)
    as ((Hlo & Hhi) & Hzero).
  split; [lra|]. split.
  - intros H. assert ((y - th) ^ 2 = 0)%R as H0 by (apply Hzero; lra).
    replace ((y - th) ^ 2)%R with ((y - th) * (y - th))%R in H0 by ring. nra.
  - intros ->. assert ((th - th) ^ 2 = 0)%R as H0 by ring.
    apply Hzero in H0. lra.
Qed.

(** ** The filter, claim by claim *)

Lemma np_sign_pos (x : R) : (0 < x)%R -> np_sign x = 1%R.
Proof.
  intros H. unfold np_sign.
  destruct (Rlt_dec x 0); [lra|]. destruct (Rlt_dec 0 x); [done | lra].
Qed.

Lemma np_sign_neg (x : R) : (x < 0)%R -> np_sign x = (-1)%R.
Proof. intros H. unfold np_sign. destruct (Rlt_dec x 0); [done | lra]. Qed.

Lemma at_prev_S (a : list R) (t : nat) :
  t < length a -> at_prev a (S t) = a !!! t.
Proof.
  intros Ht. unfold at_prev.
  replace (Z.of_nat (S t) - 1)%Z with (Z.of_nat t) by lia.
  by rewrite py_index_total.
Qed.

Lemma at_prev_0 (a : list R) :
  0 < length a -> at_prev a 0 = a !!! (length a - 1).
Proof.
  intros Ht. unfold at_prev.
  replace (Z.of_nat 0 - 1)%Z with (- Z.of_nat 1)%Z by lia.
  by rewrite py_index_end by lia.
Qed.

(** X22: on every row [t >= max_lag] that has a previous row when the
    leverage flag is set ([t >= 1]), [lmda[t]] is the GARCH sum plus the
    score sum plus the leverage term on row [t-1] plus the volatility
    regression on [X[t]], and [theta[t]] is the mean regression on [X[t]]
    plus the GARCH-in-mean coefficient times [exp(lmda[t]/2)].  Row 0 of a
    model with leverage and [p = q = 0] is the one row this leaves out; a
    sample of it follows. *)
Theorem filter_recursion_rows (m : EGARCHMReg) (beta : list R) (t : nat) :
  filter_ready m beta ->
  max_lag m <= t -> t < length (data m) - max_lag m ->
  (leverage m = true -> 0 < t) ->
  exists parm lm Y sc th,
    transform_all (latent_variables m) beta = Ok parm
    /\ _model m beta = Ok (lm, Y, sc, th)
    /\ lm !! t = Some (recursion_lmda m parm lm Y sc th t)
    /\ th !! t = Some (recursion_theta m parm lm t).
Proof.
  intros Hready Hlag Ht Hlev.
  destruct (filter_rows m beta Hready) as (st & Hrun & Hl & Hth & Hsc & Hrows).
  pose proof (kept_length m) as Hn.
  destruct (Hrows t ltac:(lia)) as (Rl & Rth & _).
  exists (transformed (latent_variables m) beta), (lmda st), (kept m),
    (scores st), (theta st).
  split; [apply transform_all_ok; destruct Hready as (-> & _); done|].
  split; [done|]. split.
  - rewrite lookup_total_Some by lia. f_equal. rewrite Rl.
    unfold lmda_row, recursion_lmda. rewrite decide_False by lia.
    destruct (leverage m) eqn:E; [|done].
    specialize (Hlev eq_refl). unfold leverage_term.
    rewrite decide_False by lia.
    destruct t as [|t']; [lia|].
    rewrite !at_prev_S by lia. by replace (S t' - 1) with t' by lia.
  - rewrite lookup_total_Some by lia. f_equal. rewrite Rth.
    unfold theta_row, recursion_theta. by rewrite decide_False by lia.
Qed.

Lemma filter_recursion_rows_witness :
  exists parm lm Y sc th,
    transform_all (latent_variables Sample.model11_lev) Sample.beta7 = Ok parm
    /\ _model Sample.model11_lev Sample.beta7 = Ok (lm, Y, sc, th)
    /\ lm !! 1 = Some (recursion_lmda Sample.model11_lev parm lm Y sc th 1)
    /\ th !! 1 = Some (recursion_theta Sample.model11_lev parm lm 1).
Proof.
  apply (filter_recursion_rows Sample.model11_lev Sample.beta7 1).
  - vm_compute. repeat split; try lia. repeat constructor.
  - vm_compute. lia.
  - vm_compute. lia.
  - intros _. lia.
Defined.

(** Row 0 of a model without lags and with leverage: the code's leverage
    term has the sign of minus the last observation, the recursion over
    the returned arrays has the sign of the last residual. *)
Lemma row0_leverage_mismatch (m : EGARCHMReg) (beta : list R) :
  let parm := transformed (latent_variables m) beta in
  let last := length (kept m) - 1 in
  filter_ready m beta -> leverage m = true -> max_lag m = 0 ->
  0 < length (kept m) ->
  (0 < Layout.leverage_coeff m parm)%R -> (0 < parm !!! (p m + q m)%nat)%R ->
  (0 < Layout.garch_in_mean m parm)%R ->
  (0 < kept m !!! last)%R ->
  (kept m !!! last <= dotp (X m !!! last) (Layout.mean_reg_coeffs m parm))%R ->
  ~ exists parm lm Y sc th,
      transform_all (latent_variables m) beta = Ok parm
      /\ _model m beta = Ok (lm, Y, sc, th)
      /\ lm !! 0 = Some (recursion_lmda m parm lm Y sc th 0)
      /\ th !! 0 = Some (recursion_theta m parm lm 0).
Proof.
  intros parm last Hready Hlevflag Hmax Hn Hlev Hdf Hgim Hy Hmean.
  intros (parm' & lm & Y & sc & th & Hparm & Hrun & Hlm & _).
  destruct (filter_rows _ _ Hready) as (st & Hrun' & Hl & Hth & Hsc & Hrows).
  rewrite Hrun' in Hrun. injection Hrun as <- <- <- <-.
  rewrite transform_all_ok in Hparm by (destruct Hready as (-> & _); done).
  injection Hparm as <-. fold parm in Hlm, Hrows.
  destruct (Hrows 0 ltac:(lia)) as (R0l & _ & _).
  destruct (Hrows last ltac:(lia)) as (_ & R3th & R3sc).
  rewrite lookup_total_Some in Hlm by lia. injection Hlm as Hlm.
  rewrite R0l in Hlm. clear R0l.
  unfold lmda_row, recursion_lmda, leverage_term in Hlm.
  rewrite Hlevflag, Hmax in Hlm.
  rewrite decide_False in Hlm by lia. rewrite decide_True in Hlm by done.
  rewrite !at_prev_0 in Hlm by lia.
  rewrite Hth, Hsc in Hlm. fold last in Hlm.
  unfold theta_row in R3th. rewrite Hmax in R3th.
  rewrite decide_False in R3th by lia.
  unfold score_row in R3sc.
  pose proof (exp_pos (lmda st !!! last / 2)) as Hexp.
  destruct (score_value_bounds (parm !!! (p m + q m)) (kept m !!! last)
              (theta st !!! last) (lmda st !!! last) Hdf) as ((Hlo & _) & _).
  rewrite <- R3sc in Hlo.
  rewrite (np_sign_neg (- (kept m !!! last - 0))) in Hlm by lra.
  rewrite (np_sign_pos (- (kept m !!! last - theta st !!! last))) in Hlm
    by (rewrite R3th; nra).
  nra.
Qed.

(** Row 0 of a model without lags and with leverage, as the code
    computes it: the leverage term is read at index [-1], so it has the
    sign of minus the last observation, with [theta[-1]] and [scores[-1]]
    still at their initial zero. *)
Lemma row0_reads_last_observation (m : EGARCHMReg) (beta : list R) :
  filter_ready m beta -> leverage m = true -> max_lag m = 0 ->
  0 < length (kept m) ->
  exists lm Y sc th,
    _model m beta = Ok (lm, Y, sc, th)
    /\ Y = kept m
    /\ lm !! 0
       = Some (Layout.leverage_coeff m (transformed (latent_variables m) beta)
               * np_sign (- (kept m !!! (length (kept m) - 1)%nat - 0)) * (0 + 1)
               + dotp (X m !!! 0%nat)
                   (Layout.vol_reg_coeffs m
                      (transformed (latent_variables m) beta)))%R.
Proof.
  intros Hready Hlev Hmax Hn.
  destruct (filter_rows m beta Hready) as (st & Hrun & Hl & Hth & Hsc & Hrows).
  destruct (Hrows 0 Hn) as (R0 & _ & _).
  destruct Hready as (_ & _ & _ & Hlag & _).
  assert (p m = 0) as Hp by lia. assert (q m = 0) as Hq by lia.
  exists (lmda st), (kept m), (scores st), (theta st).
  split; [done|]. split; [done|].
  rewrite lookup_total_Some by lia. f_equal. rewrite R0.
  unfold lmda_row, leverage_term, Layout.garch_coeffs, Layout.score_coeffs.
  rewrite Hlev, Hmax, Hp, Hq.
  rewrite decide_False by lia. rewrite decide_True by done.
  unfold lag_sum. rewrite !take_0. cbn [length seq fmap list_fmap].
  unfold np_sum at 1 2. cbn [foldr]. lra.
Qed.

(** C1, on the sample model with [p = q = 0] and leverage, the series
    [1, 2, 3, 4] and the parameters [0, 0, 0, 0, 4]: [max_lag = 0] makes
    row 0 a recursion row, and line 158 reads [Y[t-1]], [theta[t-1]] and
    [scores[t-1]] at index [-1], that is the last observation and the
    still-zero last entries of [theta] and [scores].  The filter returns
    [lmda[0] = -1], and [+1] once the last observation alone is replaced
    by [-4]: row 0 looks ahead to the end of the series.  Its value is not
    the recursion of the specification over the returned arrays. *)
Theorem filter_row0_leverage_sample :
  leverage Sample.model00_lev = true
  /\ max_lag Sample.model00_lev = 0
  /\ filter_ready Sample.model00_lev Sample.beta5
  /\ (exists lm Y sc th,
        _model Sample.model00_lev Sample.beta5 = Ok (lm, Y, sc, th)
        /\ Y = [1; 2; 3; 4]%R /\ lm !! 0 = Some (-1)%R)
  /\ (exists lm Y sc th,
        _model (with_data Sample.model00_lev [1; 2; 3; -4]%R) Sample.beta5
        = Ok (lm, Y, sc, th)
        /\ Y = [1; 2; 3; -4]%R /\ lm !! 0 = Some 1%R)
  /\ ~ exists parm lm Y sc th,
         transform_all (latent_variables Sample.model00_lev) Sample.beta5 = Ok parm
         /\ _model Sample.model00_lev Sample.beta5 = Ok (lm, Y, sc, th)
         /\ lm !! 0 = Some (recursion_lmda Sample.model00_lev parm lm Y sc th 0)
         /\ th !! 0 = Some (recursion_theta Sample.model00_lev parm lm 0).
Proof.
  assert (filter_ready Sample.model00_lev Sample.beta5) as Hready
    by (vm_compute; repeat split; try lia; repeat constructor).
  assert (filter_ready (with_data Sample.model00_lev [1; 2; 3; -4]%R) Sample.beta5)
    as Hready' by (vm_compute; repeat split; try lia; repeat constructor).
  split; [reflexivity|]. split; [reflexivity|]. split; [done|]. split_and!.
  - destruct (row0_reads_last_observation _ _ Hready)
      as (lm & Y & sc & th & Hrun & HY & H0);
      [reflexivity | reflexivity | vm_compute; lia |].
    exists lm, Y, sc, th. split; [done|]. split; [by rewrite HY|].
    rewrite H0. f_equal.
    change (exp 0 * np_sign (- (4 - 0)) * (0 + 1) + (1 * 0 + 0) = -1)%R.
    rewrite exp_0, np_sign_neg by lra. lra.
  - destruct (row0_reads_last_observation _ _ Hready')
      as (lm & Y & sc & th & Hrun & HY & H0);
      [reflexivity | reflexivity | vm_compute; lia |].
    exists lm, Y, sc, th. split; [done|]. split; [by rewrite HY|].
    rewrite H0. f_equal.
    change (exp 0 * np_sign (- (-4 - 0)) * (0 + 1) + (1 * 0 + 0) = 1)%R.
    rewrite exp_0, np_sign_pos by lra. lra.
  - apply row0_leverage_mismatch; try done.
    + vm_compute. lia.
    + change (0 < exp 0)%R. apply exp_pos.
    + change (0 < exp 0)%R. apply exp_pos.
    + change (0 < exp 0)%R. apply exp_pos.
    + change (0 < 4)%R. lra.
    + change (4 <= 1 * 4 + 0)%R. lra.
Qed.




(** C3: on every row [t < max_lag] the filter does not use the recursion:
    [lmda[t]] is the entry at position [-2k] of the transformed vector
    divided by one minus the sum of the GARCH coefficients, the same value
    on each such row, and [theta[t]] is the mean regression on [X[t]]. *)
Theorem filter_initial_rows (m : EGARCHMReg) (beta : list R) (t : nat) :
  filter_ready m beta -> t < max_lag m -> t < length (data m) - max_lag m ->
  exists parm lm Y sc th,
    transform_all (latent_variables m) beta = Ok parm
    /\ _model m beta = Ok (lm, Y, sc, th)
    /\ lm !! t = Some (vol_in_mean m parm
                       / (1 - np_sum (Layout.garch_coeffs m parm)))%R
    /\ th !! t = Some (dotp (X m !!! t) (Layout.mean_reg_coeffs m parm)).
Proof.
  intros Hready Hlag Ht.
  destruct (filter_rows m beta Hready) as (st & Hrun & Hl & Hth & Hsc & Hrows).
  pose proof (kept_length m) as Hn.
  destruct (Hrows t ltac:(lia)) as (Rl & Rth & _).
  exists (transformed (latent_variables m) beta), (lmda st), (kept m),
    (scores st), (theta st).
  split; [apply transform_all_ok; destruct Hready as (-> & _); done|].
  split; [done|]. split.
  - rewrite lookup_total_Some by lia. f_equal. rewrite Rl.
    unfold lmda_row. by rewrite decide_True by done.
  - rewrite lookup_total_Some by lia. f_equal. rewrite Rth.
    unfold theta_row. by rewrite decide_True by done.
Qed.

Lemma filter_initial_rows_witness :
  exists parm lm Y sc th,
    transform_all (latent_variables Sample.model11) Sample.beta6 = Ok parm
    /\ _model Sample.model11 Sample.beta6 = Ok (lm, Y, sc, th)
    /\ lm !! 0 = Some (vol_in_mean Sample.model11 parm
                       / (1 - np_sum (Layout.garch_coeffs Sample.model11 parm)))%R
    /\ th !! 0 = Some (dotp (X Sample.model11 !!! 0)
                         (Layout.mean_reg_coeffs Sample.model11 parm)).
Proof.
  apply (filter_initial_rows Sample.model11 Sample.beta6 0).
  - vm_compute. repeat split; try lia. repeat constructor.
  - vm_compute. lia.
  - vm_compute. lia.
Defined.

(** C4: the filter returns, and each of the four arrays it returns has
    length [N - max(p, q)], with [N] the number of observations; [Y] is
    the series without its first [max(p, q)] entries. *)
Theorem filter_lengths (m : EGARCHMReg) (beta : list R) :
  filter_ready m beta -> Nat.max (p m) (q m) < length (data m) ->
  exists lm Y sc th,
    _model m beta = Ok (lm, Y, sc, th)
    /\ length lm = length (data m) - Nat.max (p m) (q m)
    /\ length Y = length (data m) - Nat.max (p m) (q m)
    /\ length sc = length (data m) - Nat.max (p m) (q m)
    /\ length th = length (data m) - Nat.max (p m) (q m)
    /\ Y = drop (Nat.max (p m) (q m)) (data m).
Proof.
  intros Hready HN.
  destruct (filter_rows m beta Hready) as (st & Hrun & Hl & Hth & Hsc & _).
  pose proof (kept_length m) as Hn.
  destruct Hready as (_ & _ & _ & Hlag & _).
  exists (lmda st), (kept m), (scores st), (theta st).
  unfold kept in *. rewrite Hlag in *.
  repeat split; try done; lia.
Qed.

Lemma filter_lengths_witness :
  exists lm Y sc th,
    _model Sample.model11 Sample.beta6 = Ok (lm, Y, sc, th)
    /\ length lm = length (data Sample.model11) - Nat.max 1 1
    /\ length Y = length (data Sample.model11) - Nat.max 1 1
    /\ length sc = length (data Sample.model11) - Nat.max 1 1
    /\ length th = length (data Sample.model11) - Nat.max 1 1
    /\ Y = drop (Nat.max 1 1) (data Sample.model11).
Proof.
  apply (filter_lengths Sample.model11 Sample.beta6).
  - vm_compute. repeat split; try lia. repeat constructor.
  - vm_compute. lia.
Defined.

(** ** The likelihood *)

Lemma zip_rows_by_index (F : R -> R -> R -> R) (Y th lm : list R) :
  length th = length Y -> length lm = length Y ->
  zip_with (fun y '(t, l) => F y t l) Y (zip th lm)
  = (fun i => F (Y !!! i) (th !!! i) (lm !!! i)) <$> seq 0 (length Y).
Proof.
  intros Hth Hlm. apply list_eq. intros i.
  rewrite lookup_zip_with, list_lookup_fmap.
  destruct (decide (i < length Y)) as [Hi|Hi].
  - rewrite (lookup_total_Some Y i) by lia. simpl.
    rewrite (lookup_zip_with pair th lm i).
    rewrite (lookup_total_Some th i), (lookup_total_Some lm i) by lia. simpl.
    by rewrite lookup_seq_lt by lia.
  - rewrite (lookup_ge_None_2 Y) by lia. simpl.
    by rewrite lookup_seq_ge by lia.
Qed.

(** C5: the negative log-likelihood is minus the sum over the rows of the
    filter of the Student-t log-density of [Y[t]] at location [theta[t]]
    and scale [exp(lmda[t]/2)], with the degrees of freedom obtained by
    transforming the entry of [beta] at position [-(2k)-2] with the
    transform of the latent variable at that position. *)
Theorem neg_loglik_sum (logpdf : R -> R -> R -> R -> R) (m : EGARCHMReg)
    (beta : list R) :
  filter_ready m beta ->
  exists lm Y sc th z b,
    _model m beta = Ok (lm, Y, sc, th)
    /\ z_list (latent_variables m) !! (length beta - (2 * Layout.k m + 2)) = Some z
    /\ beta !! (length beta - (2 * Layout.k m + 2)) = Some b
    /\ neg_loglik logpdf m beta
       = Ok (- np_sum ((fun t => logpdf (Y !!! t) (transform (prior z) b)
                                   (th !!! t) (exp (lm !!! t / 2)))
                         <$> seq 0 (length Y)))%R.
Proof.
  intros Hready.
  destruct (filter_rows m beta Hready) as (st & Hrun & Hl & Hth & Hsc & _).
  destruct Hready as (Hzl & Hzno & Hlayout & _ & Hk & _).
  set (i := length beta - (2 * Layout.k m + 2)).
  assert (i < length beta) as Hi by (unfold i; lia).
  destruct (lookup_lt_is_Some_2 (z_list (latent_variables m)) i ltac:(lia))
    as [z Hz].
  destruct (lookup_lt_is_Some_2 beta i Hi) as [b Hb].
  exists (lmda st), (kept m), (scores st), (theta st), z, b.
  split; [done|]. split; [done|]. split; [done|].
  unfold neg_loglik. rewrite Hrun, bind_Ok. unfold n_terms. fold (Layout.k m).
  replace (- (Z.of_nat (Layout.k m) * 2) - 2)%Z
    with (- Z.of_nat (2 * Layout.k m + 2))%Z by lia.
  rewrite (py_index_before_end (z_list (latent_variables m))
             (2 * Layout.k m + 2) z) by (rewrite <- ?Hzl; done || lia).
  rewrite bind_Ok.
  rewrite (py_index_before_end beta (2 * Layout.k m + 2) b) by (done || lia).
  rewrite bind_Ok.
  rewrite (zip_rows_by_index
             (fun y t l => logpdf y (transform (prior z) b) t (exp (l / 2.0)))
             (kept m) (theta st) (lmda st) Hth Hl).
  do 3 f_equal. apply Forall_fmap_ext_1, Forall_forall. intros t _.
  by rewrite half_float.
Qed.

Lemma neg_loglik_sum_witness :
  exists lm Y sc th z b,
    _model Sample.model11 Sample.beta6 = Ok (lm, Y, sc, th)
    /\ z_list (latent_variables Sample.model11)
         !! (length Sample.beta6 - (2 * Layout.k Sample.model11 + 2)) = Some z
    /\ Sample.beta6 !! (length Sample.beta6 - (2 * Layout.k Sample.model11 + 2))
       = Some b
    /\ neg_loglik (fun x df loc scale => 0%R) Sample.model11 Sample.beta6
       = Ok (- np_sum ((fun t => (fun x df loc scale => 0%R)
                                   (Y !!! t) (transform (prior z) b)
                                   (th !!! t) (exp (lm !!! t / 2)))
                         <$> seq 0 (length Y)))%R.
Proof.
  apply (neg_loglik_sum (fun x df loc scale => 0%R) Sample.model11 Sample.beta6).
  vm_compute. repeat split; try lia. repeat constructor.
Defined.

(** * Further properties of the code *)

(** ** The forecast plot with leverage *)

(** X2: once the leverage flag is set, [plot_predict] with at least one
    step never returns: whatever the estimates, the data and the store,
    the call ends in an exception, because its simulation reads
    [new_theta_value] before assigning it. *)
Theorem plot_predict_leverage_raises (percentile : list R -> nat -> R)
    (m : EGARCHMReg) (h past_values : nat) (intervals : bool)
    (X_oos : list (list R)) (w : world) :
  leverage m = true -> 0 < h ->
  raises (plot_predict percentile m h past_values intervals X_oos) w.
Proof.
  intros Hlev Hh. unfold plot_predict.
  destruct (negb _); [by exists not_estimated, w|].
  apply raises_bind_r. intros [[[lm Y] scores] th] w1.
  do 4 (apply raises_bind_r; intros ? ?).
  apply raises_bind_l. apply sim_prediction_leverage_raises; [done | done | lia].
Qed.

Lemma plot_predict_leverage_raises_witness :
  raises (plot_predict (fun a pre => 0%R) Cases.fitted_lev 2 20 true Sample.X_oos)
    Sample.store.
Proof.
  apply (plot_predict_leverage_raises (fun a pre => 0%R) Cases.fitted_lev 2 20 true
           Sample.X_oos Sample.store).
  - reflexivity.
  - lia.
Defined.


(** ** The constructor in closed form *)

Lemma for_each_app {S : Type} (body : nat -> S -> result S) (l1 l2 : list nat) (s : S) :
  for_each body (l1 ++ l2) s = (s' ← for_each body l1 s; for_each body l2 s').
Proof.
  revert s. induction l1 as [|i l1 IH]; intros s; simpl; [done|].
  destruct (body i s) as [s'|e]; simpl; [apply IH | done].
Qed.

Lemma for_range_split {S : Type} (lo mid hi : nat) (body : nat -> S -> result S) (s : S) :
  lo <= mid <= hi ->
  for_range lo hi body s
  = (s' ← for_range lo mid body s; for_range mid hi body s').
Proof.
  intros H. unfold for_range.
  replace (hi - lo) with ((mid - lo) + (hi - mid)) by lia.
  rewrite seq_app, for_each_app.
  replace (lo + (mid - lo)) with mid by lia. reflexivity.
Qed.

Lemma for_range_first_raises {S : Type} (lo hi : nat) (body : nat -> S -> result S)
    (s : S) (e : exn) :
  lo < hi -> body lo s = Raise e -> for_range lo hi body s = Raise e.
Proof.
  intros Hlt Hb. replace hi with (lo + Datatypes.S (hi - lo - 1)) by lia.
  by rewrite for_range_S, Hb.
Qed.

(** [add_z] followed by [z_list[-1].start = s]. *)
Lemma add_z_then_start (lv : LatentVariables) (nm : string) (pr : Prior) (s : R) :
  assign_start (add_z lv nm pr) (-1)%Z s
  = Ok {| z_list := z_list lv ++ [ {| name := nm; prior := pr; start := s;
                                      value := 0 |} ];
          estimated := estimated lv |}.
Proof.
  unfold assign_start, add_z. cbn [z_list estimated].
  set (l := z_list lv).
  assert (length (l ++ [ {| name := nm; prior := pr; start := 0; value := 0 |} ])
          = S (length l)) as Hlen by (rewrite length_app; simpl; lia).
  unfold py_index, py_setitem, wrap_index. rewrite Hlen.
  destruct (Z.ltb_spec (-1) 0); [|lia].
  destruct (Z.ltb_spec (-1 + Z.of_nat (S (length l))) 0); [lia|].
  replace (Z.to_nat (-1 + Z.of_nat (S (length l)))) with (length l) by lia.
  rewrite list_lookup_middle by done. rewrite bind_Ok.
  destruct (Z.ltb_spec (-1 + Z.of_nat (S (length l))) (Z.of_nat (S (length l))));
    [|lia].
  rewrite bind_Ok. do 2 f_equal.
  rewrite insert_app_r_alt by lia. rewrite Nat.sub_diag. reflexivity.
Qed.

(** The loops over the GARCH and the score terms. *)
Lemma lag_loop_closed (label : string) (first : R) (n : nat) (lv : LatentVariables) :
  for_range 0 n (fun i lv =>
      let lv := add_z lv (label ++ "(" ++ str (i + 1) ++ ")")%string
                  (Normal 0 0.5 T_logit) in
      if decide (i = 0)
      then assign_start lv (-1)%Z first
      else assign_start lv (-1)%Z (-4.00)%R) lv
  = Ok {| z_list := z_list lv ++ (lag_variable label first <$> seq 0 n);
          estimated := estimated lv |}.
Proof.
  destruct (for_range_invariant
              (fun i lv' => lv' = {| z_list := z_list lv
                                       ++ (lag_variable label first <$> seq 0 i);
                                     estimated := estimated lv |})
              0 n
              (fun i lv =>
                 let lv := add_z lv (label ++ "(" ++ str (i + 1) ++ ")")%string
                             (Normal 0 0.5 T_logit) in
                 if decide (i = 0)
                 then assign_start lv (-1)%Z first
                 else assign_start lv (-1)%Z (-4.00)%R) lv)
    as (lv' & Hrun & ->); [lia | | | done].
  - simpl. rewrite app_nil_r. by destruct lv.
  - intros i lv1 _ ->. cbv zeta.
    case_decide as Hi; (eexists; split; [apply add_z_then_start|]);
      cbn [z_list estimated]; rewrite seq_S, fmap_app, <- app_assoc;
      cbn [fmap list_fmap plus]; do 4 f_equal; unfold lag_variable;
      [rewrite decide_True by done | rewrite decide_False by done];
      reflexivity.
Qed.

(** The loops over the regression terms. *)
Lemma term_loop_closed (label : string) (names : list string) (lv : LatentVariables) :
  for_each (fun parm lv =>
      nm ← py_index names (Z.of_nat parm);
      Ok (add_z lv (label ++ nm)%string (Normal 0 10 T_none)))
    (seq 0 (length names)) lv
  = Ok {| z_list := z_list lv
                    ++ ((fun nm => {| name := (label ++ nm)%string;
                                      prior := Normal 0 10 T_none;
                                      start := 0; value := 0 |}) <$> names);
          estimated := estimated lv |}.
Proof.
  set (mk := fun nm => {| name := (label ++ nm)%string;
                          prior := Normal 0 10 T_none; start := 0; value := 0 |}).
  destruct (for_range_invariant
              (fun i lv' => lv' = {| z_list := z_list lv ++ (mk <$> take i names);
                                     estimated := estimated lv |})
              0 (length names)
              (fun parm lv =>
                 nm ← py_index names (Z.of_nat parm);
                 Ok (add_z lv (label ++ nm)%string (Normal 0 10 T_none))) lv)
    as (lv' & Hrun & ->); [lia | | |].
  - simpl. rewrite app_nil_r. by destruct lv.
  - intros i lv1 [_ Hi] ->.
    destruct (lookup_lt_is_Some_2 names i Hi) as [nm Hnm].
    rewrite (py_index_nat _ _ _ Hnm), bind_Ok. eexists. split; [reflexivity|].
    unfold add_z. cbn [z_list estimated].
    rewrite (take_S_r _ _ _ Hnm), fmap_app, app_assoc. reflexivity.
  - unfold for_range in Hrun. rewrite Nat.sub_0_r in Hrun.
    rewrite Hrun, firstn_all. reflexivity.
Qed.

(** [z_list[i].start = s] for every [i] from the end of [done] on. *)
Lemma start_loop_closed (s : R) (todo done : list LatentVariable) (est : bool) :
  for_range (length done) (length done + length todo)
    (fun i lv => assign_start lv (Z.of_nat i) s)
    {| z_list := done ++ todo; estimated := est |}
  = Ok {| z_list := done ++ (set_start s <$> todo); estimated := est |}.
Proof.
  revert done. induction todo as [|z todo IH]; intros done.
  - unfold for_range. rewrite Nat.add_0_r, Nat.sub_diag. reflexivity.
  - cbn [length]. rewrite for_range_S. cbv beta.
    assert (assign_start {| z_list := done ++ z :: todo; estimated := est |}
              (Z.of_nat (length done)) s
            = Ok {| z_list := (done ++ [set_start s z]) ++ todo; estimated := est |})
      as ->.
    { unfold assign_start. cbn [z_list estimated].
      rewrite (py_index_nat _ _ z) by (by apply list_lookup_middle).
      rewrite bind_Ok.
      rewrite py_setitem_nat by (rewrite length_app; simpl; lia).
      rewrite bind_Ok.
      rewrite insert_app_r_alt by lia. rewrite Nat.sub_diag. cbn [list_insert].
      by rewrite <- app_assoc. }
    rewrite bind_Ok.
    specialize (IH (done ++ [set_start s z])).
    rewrite length_app in IH. cbn [length] in IH.
    replace (length done + 1) with (S (length done)) in IH by lia.
    replace (S (length done) + length todo)
      with (length done + S (length todo)) in IH by lia.
    rewrite IH. by rewrite <- app_assoc.
Qed.

Lemma lag_variables_length (label : string) (first : R) (n : nat) :
  length (lag_variable label first <$> seq 0 n) = n.
Proof. by rewrite length_fmap, length_seq. Qed.

(** The latent variables before their starting values are reset: the
    lag terms, then the tail that the reset runs over. *)
Lemma create_latent_variables_loops (m : EGARCHMReg) :
  z_list (latent_variables m) = [] ->
  let lags := (lag_variable "p" 3.00 <$> seq 0 (p m))
              ++ (lag_variable "q" (-1.50) <$> seq 0 (q m)) in
  let tail :=
    [ {| name := "v"; prior := Uniform T_exp; start := 0; value := 0 |};
      {| name := "GARCH-M"; prior := Normal 0 3 T_none; start := 0; value := 0 |} ]
    ++ ((fun nm => {| name := ("Vol Beta " ++ nm)%string;
                      prior := Normal 0 10 T_none; start := 0; value := 0 |})
          <$> X_names m)
    ++ ((fun nm => {| name := ("Returns Beta " ++ nm)%string;
                      prior := Normal 0 10 T_none; start := 0; value := 0 |})
          <$> X_names m) in
  length lags = p m + q m
  /\ length tail = 2 + length (X_names m) * 2
  /\ _create_latent_variables m
     = (lv ← for_range (p m + q m) (z_no m)
               (fun i lv => assign_start lv (Z.of_nat i) 0.0%R)
               {| z_list := lags ++ tail;
                  estimated := estimated (latent_variables m) |};
        lv ← assign_start lv (Z.of_nat (p m + q m)) 2.0%R;
        Ok (with_latent_variables m lv)).
Proof.
  intros Hnil lags tail.
  split; [unfold lags; rewrite length_app, !lag_variables_length; done|].
  split; [unfold tail; cbn [length app]; rewrite length_app, !length_fmap; lia|].
  unfold _create_latent_variables.
  pose proof (lag_loop_closed "p" 3.00%R (p m) (latent_variables m)) as H1.
  cbn [String.append] in H1 |- *. rewrite H1, bind_Ok. clear H1.
  match goal with
  | |- context [for_range 0 (q m) _ ?lv] =>
      pose proof (lag_loop_closed "q" (-1.50)%R (q m) lv) as H2
  end.
  cbn [String.append] in H2 |- *. rewrite H2, bind_Ok. clear H2.
  cbv zeta. cbn [z_list estimated]. rewrite Hnil. cbn [app].
  match goal with
  | |- context [for_each _ (seq 0 (length (X_names m))) ?lv] =>
      pose proof (term_loop_closed "Vol Beta " (X_names m) lv) as H3
  end.
  cbn [String.append] in H3 |- *. rewrite H3, bind_Ok. clear H3.
  match goal with
  | |- context [for_each _ (seq 0 (length (X_names m))) ?lv] =>
      pose proof (term_loop_closed "Returns Beta " (X_names m) lv) as H4
  end.
  cbn [String.append] in H4 |- *. rewrite H4, bind_Ok. clear H4.
  unfold add_z. cbn [z_list estimated]. subst lags tail.
  cbn [String.append]. rewrite <- !app_assoc. reflexivity.
Qed.

(** With one column per term the reset covers the whole tail and the
    constructor computes [constructed_z_list]. *)
Lemma create_latent_variables_closed (m : EGARCHMReg) :
  z_list (latent_variables m) = [] ->
  z_no m = p m + q m + 2 + length (X_names m) * 2 ->
  _create_latent_variables m
  = Ok (with_latent_variables m
          {| z_list := constructed_z_list (p m) (q m) (X_names m);
             estimated := estimated (latent_variables m) |}).
Proof.
  intros Hnil Hzno.
  destruct (create_latent_variables_loops m Hnil) as (Hlags & Htail & ->).
  match goal with
  | |- context [for_range _ _ _ {| z_list := ?lags ++ ?todo; estimated := ?est |}] =>
      pose proof (start_loop_closed 0.0%R todo lags est) as H5;
      set (L := lags) in *
  end.
  rewrite Hlags, Htail in H5.
  replace (p m + q m + (2 + length (X_names m) * 2)) with (z_no m) in H5 by lia.
  rewrite H5, bind_Ok. clear H5.
  cbn [fmap list_fmap app].
  unfold assign_start. cbn [z_list estimated]. rewrite <- Hlags.
  rewrite (py_index_nat _ _ _ (list_lookup_middle _ _ _ _ eq_refl)), bind_Ok.
  rewrite py_setitem_nat by (rewrite length_app; simpl; lia).
  rewrite !bind_Ok.
  rewrite insert_app_r_alt by lia. rewrite Nat.sub_diag. cbn [list_insert].
  do 3 f_equal. unfold constructed_z_list, L.
  rewrite <- !app_assoc. do 2 f_equal. cbn [app].
  rewrite fmap_app, <- !list_fmap_compose. reflexivity.
Qed.

(** With more columns than terms the reset runs past the end of the list. *)
Lemma create_latent_variables_overrun (m : EGARCHMReg) :
  z_list (latent_variables m) = [] ->
  p m + q m + 2 + length (X_names m) * 2 < z_no m ->
  _create_latent_variables m = Raise IndexError.
Proof.
  intros Hnil Hzno.
  destruct (create_latent_variables_loops m Hnil) as (Hlags & Htail & ->).
  match goal with
  | |- context [for_range _ _ _ {| z_list := ?lags ++ ?todo; estimated := ?est |}] =>
      pose proof (start_loop_closed 0.0%R todo lags est) as H5;
      set (L := lags) in *; set (T := todo) in *
  end.
  rewrite (for_range_split _ (length L + length T)) by lia.
  rewrite Hlags in H5 |- *. rewrite H5, bind_Ok. clear H5.
  rewrite (for_range_first_raises _ _ _ _ IndexError); [done | lia |].
  unfold assign_start, py_index, wrap_index. cbn [z_list].
  destruct (Z.ltb_spec (Z.of_nat (p m + q m + length T)) 0); [lia|].
  destruct (Z.ltb_spec (Z.of_nat (p m + q m + length T)) 0); [lia|].
  rewrite Nat2Z.id.
  rewrite lookup_ge_None_2; [done|].
  rewrite length_app, length_fmap. lia.
Qed.

Lemma constructed_z_list_length (p0 q0 : nat) (names : list string) :
  length (constructed_z_list p0 q0 names) = p0 + q0 + 2 + 2 * length names.
Proof.
  unfold constructed_z_list. cbn [length app].
  rewrite !length_app, !lag_variables_length. cbn [length].
  rewrite !length_app, !length_fmap. lia.
Qed.

Lemma init_closed (y : list R) (X0 : list (list R)) (names : list string)
    (p0 q0 : nat) :
  shape1 X0 = length names ->
  exists m,
    __init__ y X0 names p0 q0 = Ok m
    /\ z_list (latent_variables m) = constructed_z_list p0 q0 names
    /\ length (constructed_z_list p0 q0 names) = z_no m
    /\ z_no m = p0 + q0 + 2 + 2 * length names
    /\ estimated (latent_variables m) = false /\ leverage m = false
    /\ p m = p0 /\ q m = q0 /\ max_lag m = Nat.max p0 q0
    /\ data m = y /\ X m = X0 /\ X_names m = names.
Proof.
  intros Hshape. unfold __init__.
  rewrite create_latent_variables_closed; [|done | cbn [z_no p q X_names]; lia].
  eexists. split; [reflexivity|].
  cbn [with_latent_variables latent_variables z_list estimated z_no p q max_lag
       leverage data X X_names].
  rewrite constructed_z_list_length. repeat split; lia.
Qed.

(** X3: when the design matrix has one column per name in [X_names], the
    constructor returns the model whose latent variables are, in order,
    [p] GARCH terms and [q] score terms (logit, started at 3 resp. -1.5
    for the first and -4 for the others), the degrees of freedom [v] (exp,
    started at 2), [GARCH-M], one [Vol Beta] and then one [Returns Beta]
    per name (identity, started at 0); [z_no] counts them and leverage is
    off. *)
Theorem init_closed_form (y : list R) (X0 : list (list R)) (names : list string)
    (p0 q0 : nat) :
  shape1 X0 = length names ->
  exists m,
    __init__ y X0 names p0 q0 = Ok m
    /\ z_list (latent_variables m) = constructed_z_list p0 q0 names
    /\ length (constructed_z_list p0 q0 names) = z_no m
    /\ z_no m = p0 + q0 + 2 + 2 * length names
    /\ estimated (latent_variables m) = false /\ leverage m = false
    /\ p m = p0 /\ q m = q0 /\ max_lag m = Nat.max p0 q0
    /\ data m = y /\ X m = X0 /\ X_names m = names.
Proof. apply init_closed. Qed.

Lemma init_closed_form_witness :
  exists m,
    __init__ Sample.y Sample.X1 ["Intercept"%string] 1 1 = Ok m
    /\ z_list (latent_variables m) = constructed_z_list 1 1 ["Intercept"%string]
    /\ length (constructed_z_list 1 1 ["Intercept"%string]) = z_no m
    /\ z_no m = 1 + 1 + 2 + 2 * length ["Intercept"%string]
    /\ estimated (latent_variables m) = false /\ leverage m = false
    /\ p m = 1 /\ q m = 1 /\ max_lag m = Nat.max 1 1
    /\ data m = Sample.y /\ X m = Sample.X1 /\ X_names m = ["Intercept"%string].
Proof.
  apply (init_closed_form Sample.y Sample.X1 ["Intercept"%string] 1 1).
  reflexivity.
Defined.


(** X4: when the design matrix has more columns than [X_names] has
    names, the constructor raises [IndexError]: [z_no] counts two
    variables per column, the list holds two per name, and the reset of
    the starting values runs past its end. *)
Theorem init_more_columns_than_terms (y : list R) (X0 : list (list R))
    (names : list string) (p0 q0 : nat) :
  length names < shape1 X0 ->
  __init__ y X0 names p0 q0 = Raise IndexError.
Proof.
  intros Hshape. unfold __init__.
  apply create_latent_variables_overrun; [done|].
  cbn [z_no p q X_names]. lia.
Qed.

Lemma init_more_columns_than_terms_witness :
  __init__ Sample.y [[1; 2]; [1; 3]; [1; 4]; [1; 5]]%R ["Intercept"%string] 1 1
  = Raise IndexError.
Proof.
  apply (init_more_columns_than_terms Sample.y [[1; 2]; [1; 3]; [1; 4]; [1; 5]]%R
           ["Intercept"%string] 1 1).
  simpl. lia.
Defined.


(** ** [add_leverage] in closed form *)

Lemma add_leverage_closed (m : EGARCHMReg) :
  leverage m = false -> 3 <= length (z_list (latent_variables m)) ->
  add_leverage m
  = Ok {| p := p m; q := q m; max_lag := max_lag m; z_no := z_no m + 1;
          leverage := true; model_name := model_name m; data := data m;
          X := X m; X_names := X_names m;
          latent_variables :=
            {| z_list := take (length (z_list (latent_variables m)) - 3)
                              (z_list (latent_variables m))
                         ++ leverage_block;
               estimated := estimated (latent_variables m) |} |}.
Proof.
  intros Hlev Hlen. unfold add_leverage. rewrite Hlev.
  set (zl := z_list (latent_variables m)) in *.
  destruct (py_pop_ok zl ltac:(lia)) as (-> & L1). rewrite bind_Ok.
  destruct (py_pop_ok (take (length zl - 1) zl) ltac:(lia)) as (-> & L2).
  rewrite bind_Ok. rewrite L1 in *.
  destruct (py_pop_ok (take (length zl - 1 - 1) (take (length zl - 1) zl))
              ltac:(lia)) as (-> & L3).
  rewrite bind_Ok. rewrite L2 in *.
  assert (take (length zl - 1 - 1 - 1)
            (take (length zl - 1 - 1) (take (length zl - 1) zl))
          = take (length zl - 3) zl) as ->
    by (rewrite !take_take; f_equal; lia).
  cbv zeta. unfold add_z. cbn [z_list estimated].
  set (kept := take (length zl - 3) zl).
  unfold assign_start. cbn [z_list estimated].
  rewrite <- !app_assoc. cbn [app].
  assert (length (kept ++
            [ {| name := "Leverage Term"; prior := Uniform T_none; start := 0;
                 value := 0 |};
              {| name := "v"; prior := Uniform T_exp; start := 0; value := 0 |};
              {| name := "Returns Constant"; prior := Normal 0 3 T_none;
                 start := 0; value := 0 |};
              {| name := "GARCH-M"; prior := Normal 0 3 T_none; start := 0;
                 value := 0 |} ]) = length kept + 4) as Hl
    by (rewrite length_app; reflexivity).
  unfold py_index, py_setitem, wrap_index. rewrite Hl.
  destruct (Z.ltb_spec (-3) 0); [|lia].
  destruct (Z.ltb_spec (-3 + Z.of_nat (length kept + 4)) 0); [lia|].
  replace (Z.to_nat (-3 + Z.of_nat (length kept + 4))) with (length kept + 1)
    by lia.
  rewrite lookup_app_r by lia.
  replace (length kept + 1 - length kept) with 1 by lia.
  cbn [lookup list_lookup]. rewrite bind_Ok.
  destruct (Z.ltb_spec (-3 + Z.of_nat (length kept + 4))
              (Z.of_nat (length kept + 4))); [|lia].
  rewrite !bind_Ok.
  rewrite insert_app_r_alt by lia.
  replace (length kept + 1 - length kept) with 1 by lia.
  reflexivity.
Qed.

(** X5: [add_leverage] applied twice is [add_leverage] applied once: on
    the model a first call returns, a second call returns that model
    unchanged. *)
Theorem add_leverage_idempotent (m m' : EGARCHMReg) :
  add_leverage m = Ok m' -> add_leverage m' = Ok m'.
Proof.
  intros H. unfold add_leverage in H.
  destruct (leverage m) eqn:Hlev.
  - injection H as <-. unfold add_leverage. by rewrite Hlev.
  - apply bind_Ok_inv in H as (zl1 & _ & H).
    apply bind_Ok_inv in H as (zl2 & _ & H).
    apply bind_Ok_inv in H as (zl3 & _ & H).
    apply bind_Ok_inv in H as (lv & _ & H).
    injection H as <-. reflexivity.
Qed.

Lemma add_leverage_idempotent_witness :
  add_leverage Sample.model11_lev = Ok Sample.model11_lev.
Proof.
  apply (add_leverage_idempotent Sample.model11 Sample.model11_lev).
  reflexivity.
Defined.


(** X6: on a model as the constructor builds it, with at least one
    regression name, [add_leverage] succeeds, raises the count to
    [p + q + 3 + 2k] in step with [z_no], and leaves the list of the
    constructor without its last three entries followed by Leverage Term,
    v, Returns Constant, GARCH-M.  So position [p + q] still holds the
    constructor's [v], the first entry dropped-and-replaced is at
    [p + q + 2k - 1], where Leverage Term now sits, and no Returns Beta of
    the last name survives. *)
Theorem init_add_leverage_closed_form (y : list R) (X0 : list (list R))
    (names : list string) (p0 q0 : nat) :
  shape1 X0 = length names -> 0 < length names ->
  exists m m',
    __init__ y X0 names p0 q0 = Ok m /\ add_leverage m = Ok m'
    /\ z_list (latent_variables m')
       = take (p0 + q0 + 2 * length names - 1) (constructed_z_list p0 q0 names)
         ++ leverage_block
    /\ length (z_list (latent_variables m')) = z_no m'
    /\ z_no m' = p0 + q0 + 3 + 2 * length names
    /\ leverage m' = true
    /\ z_list (latent_variables m') !! (p0 + q0)
       = Some {| name := "v"; prior := Uniform T_exp; start := 2.0; value := 0 |}
    /\ name <$> z_list (latent_variables m') !! (p0 + q0 + 2 * length names - 1)
       = Some "Leverage Term"%string.
Proof.
  intros Hshape Hk.
  destruct (init_closed y X0 names p0 q0 Hshape)
    as (m & Hinit & Hzl & Hlen & Hzno & _ & Hlev & _).
  pose proof (constructed_z_list_length p0 q0 names) as HL.
  exists m. eexists. split; [done|].
  split; [apply add_leverage_closed; [done | rewrite Hzl; lia]|].
  cbn [latent_variables z_list z_no leverage]. rewrite Hzl, HL.
  replace (p0 + q0 + 2 + 2 * length names - 3)
    with (p0 + q0 + 2 * length names - 1) by lia.
  assert (length (take (p0 + q0 + 2 * length names - 1)
                    (constructed_z_list p0 q0 names))
          = p0 + q0 + 2 * length names - 1) as Htake
    by (rewrite length_take; lia).
  split; [done|]. split; [rewrite length_app, Htake; simpl; lia|].
  split; [lia|]. split; [done|]. split.
  - rewrite lookup_app_l by lia. rewrite lookup_take_lt by lia.
    unfold constructed_z_list. rewrite app_assoc.
    rewrite lookup_app_r; rewrite length_app, !lag_variables_length; [|lia].
    by rewrite Nat.sub_diag.
  - rewrite lookup_app_r by lia. rewrite Htake, Nat.sub_diag. reflexivity.
Qed.

Lemma init_add_leverage_closed_form_witness :
  exists m m',
    __init__ Sample.y Sample.X1 ["Intercept"%string] 1 1 = Ok m
    /\ add_leverage m = Ok m'
    /\ z_list (latent_variables m')
       = take (1 + 1 + 2 * length ["Intercept"%string] - 1)
           (constructed_z_list 1 1 ["Intercept"%string])
         ++ leverage_block
    /\ length (z_list (latent_variables m')) = z_no m'
    /\ z_no m' = 1 + 1 + 3 + 2 * length ["Intercept"%string]
    /\ leverage m' = true
    /\ z_list (latent_variables m') !! (1 + 1)
       = Some {| name := "v"; prior := Uniform T_exp; start := 2.0; value := 0 |}
    /\ name <$> z_list (latent_variables m')
                 !! (1 + 1 + 2 * length ["Intercept"%string] - 1)
       = Some "Leverage Term"%string.
Proof.
  apply (init_add_leverage_closed_form Sample.y Sample.X1 ["Intercept"%string] 1 1).
  - reflexivity.
  - simpl. lia.
Defined.


(** ** The filter: what it reads and when it fails *)

Lemma for_each_ext {S : Type} (body body' : nat -> S -> result S) (idx : list nat) (s : S) :
  (forall i s, i ∈ idx -> body i s = body' i s) ->
  for_each body idx s = for_each body' idx s.
Proof.
  revert s. induction idx as [|i idx IH]; intros s H; simpl; [done|].
  rewrite (H i s) by apply list_elem_of_here.
  destruct (body' i s) as [s'|e]; simpl; [|done].
  apply IH. intros j s1 Hj. apply H. by apply list_elem_of_further.
Qed.

Lemma py_index_nat_ext {A : Type} (l l' : list A) (i : nat) :
  l !! i = l' !! i -> py_index l (Z.of_nat i) = py_index l' (Z.of_nat i).
Proof.
  intros H. unfold py_index, wrap_index.
  destruct (Z.ltb_spec (Z.of_nat i) 0); [lia|].
  destruct (Z.ltb_spec (Z.of_nat i) 0); [lia|].
  by rewrite Nat2Z.id, H.
Qed.

Lemma filter_step_with_X (m : EGARCHMReg) (X' : list (list R)) (parm Y : list R)
    (t : nat) (st : filter_arrays) :
  X' !! t = X m !! t ->
  filter_step (with_X m X') parm Y t st = filter_step m parm Y t st.
Proof.
  intros H. unfold filter_step, n_terms.
  cbn [with_X p q max_lag leverage X X_names].
  by rewrite (py_index_nat_ext X' (X m) t H).
Qed.

(** X7: the filter reads the rows [0 .. N - max_lag - 1] of the design
    matrix and no other: a model whose design matrix has the same first
    [N - max_lag] rows gives the same result, value or exception, for every
    parameter vector.  The rows paired with the last [max_lag]
    observations are never read. *)
Theorem filter_reads_leading_rows (m : EGARCHMReg) (X' : list (list R))
    (beta : list R) :
  take (length (data m) - max_lag m) X' = take (length (data m) - max_lag m) (X m) ->
  _model (with_X m X') beta = _model m beta.
Proof.
  intros Htake. unfold _model. cbn [with_X data max_lag latent_variables].
  rewrite py_slice_from.
  destruct (transform_all (latent_variables m) beta) as [parm|e]; [|done].
  rewrite !bind_Ok. f_equal.
  unfold for_range. apply for_each_ext. intros t st Ht.
  apply elem_of_seq in Ht. rewrite length_drop in Ht.
  apply filter_step_with_X.
  rewrite <- (lookup_take_lt X' (length (data m) - max_lag m)) by lia.
  rewrite <- (lookup_take_lt (X m) (length (data m) - max_lag m)) by lia.
  by rewrite Htake.
Qed.

Lemma filter_reads_leading_rows_witness :
  _model (with_X Sample.model11 [[1]; [1]; [1]; [7; 7; 7]]%R) Sample.beta6
  = _model Sample.model11 Sample.beta6.
Proof.
  apply (filter_reads_leading_rows Sample.model11 [[1]; [1]; [1]; [7; 7; 7]]%R
           Sample.beta6).
  reflexivity.
Defined.

Lemma transform_all_prefix (lv : LatentVariables) (beta : list R) (n : nat) :
  n <= length beta -> n <= length (z_list lv) ->
  exists parm,
    for_range 0 n (fun k acc =>
        z ← py_index (z_list lv) (Z.of_nat k);
        b ← py_index beta (Z.of_nat k);
        Ok (acc ++ [transform (prior z) b])) [] = Ok parm.
Proof.
  intros Hb Hz.
  destruct (for_range_invariant (fun _ (_ : list R) => True) 0 n
              (fun k acc =>
                 z ← py_index (z_list lv) (Z.of_nat k);
                 b ← py_index beta (Z.of_nat k);
                 Ok (acc ++ [transform (prior z) b])) [])
    as (parm & Hrun & _); [lia | done | | eauto].
  intros k acc Hk _.
  destruct (lookup_lt_is_Some_2 (z_list lv) k ltac:(lia)) as [z Hz'].
  destruct (lookup_lt_is_Some_2 beta k ltac:(lia)) as [b Hb'].
  rewrite (py_index_nat _ _ _ Hz'), bind_Ok, (py_index_nat _ _ _ Hb'), bind_Ok.
  eauto.
Qed.

Lemma py_index_past_end {A : Type} (l : list A) (i : nat) :
  length l <= i -> py_index l (Z.of_nat i) = Raise IndexError.
Proof.
  intros Hi. unfold py_index, wrap_index.
  destruct (Z.ltb_spec (Z.of_nat i) 0); [lia|].
  destruct (Z.ltb_spec (Z.of_nat i) 0); [lia|].
  rewrite Nat2Z.id. by rewrite lookup_ge_None_2 by lia.
Qed.

(** X8: a parameter vector with more entries than the model has latent
    variables makes the filter raise [IndexError], whatever the data: the
    transform of the first entry without a latent variable fails. *)
Theorem filter_beta_too_long (m : EGARCHMReg) (beta : list R) :
  length (z_list (latent_variables m)) < length beta ->
  _model m beta = Raise IndexError.
Proof.
  intros Hlen. unfold _model, transform_all.
  rewrite (for_range_split 0 (length (z_list (latent_variables m)))) by lia.
  destruct (transform_all_prefix (latent_variables m) beta
              (length (z_list (latent_variables m))) ltac:(lia) ltac:(lia))
    as (parm & ->).
  rewrite bind_Ok.
  rewrite (for_range_first_raises _ _ _ _ IndexError); [done | lia |].
  by rewrite (py_index_past_end (z_list (latent_variables m))
                (length (z_list (latent_variables m)))) by lia.
Qed.

Lemma filter_beta_too_long_witness :
  _model Sample.model11 Sample.beta7 = Raise IndexError.
Proof.
  apply (filter_beta_too_long Sample.model11 Sample.beta7).
  vm_compute. lia.
Defined.

(** X9: a series no longer than [max_lag] leaves nothing to filter: for
    a parameter vector with at most one entry per latent variable the
    filter returns four empty arrays, without reading a parameter or a
    covariate row. *)
Theorem filter_short_series (m : EGARCHMReg) (beta : list R) :
  length (data m) <= max_lag m ->
  length beta <= length (z_list (latent_variables m)) ->
  _model m beta = Ok ([], [], [], []).
Proof.
  intros Hdata Hbeta. unfold _model.
  rewrite py_slice_from, transform_all_ok by done. rewrite bind_Ok.
  rewrite drop_ge by lia. reflexivity.
Qed.

Lemma filter_short_series_witness :
  _model Cases.short_model [0; 0; 0]%R = Ok ([], [], [], []).
Proof.
  apply (filter_short_series Cases.short_model [0; 0; 0]%R).
  - vm_compute. lia.
  - vm_compute. lia.
Defined.

(** ** The parameters of a constructed model *)


Lemma logit_range (x : R) : (0 < 1 / (1 + exp (- x)) < 1)%R.
Proof.
  pose proof (exp_pos (- x)) as He.
  assert (0 < / (1 + exp (- x)))%R as Hinv by (apply Rinv_0_lt_compat; lra).
  assert ((1 + exp (- x)) * / (1 + exp (- x)) = 1)%R as Hmul
    by (apply Rinv_r; lra).
  unfold Rdiv. rewrite Rmult_1_l. split; [done|]. nra.
Qed.

Lemma constructed_lookup_lag (p0 q0 : nat) (names : list string) (i : nat) :
  i < p0 + q0 ->
  exists z, constructed_z_list p0 q0 names !! i = Some z
            /\ prior z = Normal 0 0.5 T_logit.
Proof.
  intros Hi. unfold constructed_z_list. rewrite app_assoc.
  rewrite lookup_app_l by (rewrite length_app, !lag_variables_length; lia).
  destruct (decide (i < p0)) as [Hp|Hp].
  - rewrite lookup_app_l by (rewrite lag_variables_length; lia).
    rewrite list_lookup_fmap, lookup_seq_lt by lia. simpl. eauto.
  - rewrite lookup_app_r by (rewrite lag_variables_length; lia).
    rewrite lag_variables_length.
    rewrite list_lookup_fmap, lookup_seq_lt by lia. simpl. eauto.
Qed.

Lemma constructed_lookup_df (p0 q0 : nat) (names : list string) :
  constructed_z_list p0 q0 names !! (p0 + q0)
  = Some {| name := "v"; prior := Uniform T_exp; start := 2.0; value := 0 |}.
Proof.
  unfold constructed_z_list. rewrite app_assoc.
  rewrite lookup_app_r; rewrite length_app, !lag_variables_length; [|lia].
  by rewrite Nat.sub_diag.
Qed.


(** A constructed model and the same model with leverage, with their
    latent variables in closed form and both ready for the filter. *)
Lemma constructed_models (y : list R) (X0 : list (list R)) (names : list string)
    (p0 q0 : nat) :
  shape1 X0 = length names -> 0 < length names ->
  length y - Nat.max p0 q0 <= length X0 ->
  Forall (fun row => length row = length names) X0 ->
  exists m m',
    __init__ y X0 names p0 q0 = Ok m /\ add_leverage m = Ok m'
    /\ p m = p0 /\ q m = q0 /\ p m' = p0 /\ q m' = q0
    /\ leverage m = false /\ leverage m' = true
    /\ Layout.k m = length names /\ Layout.k m' = length names
    /\ z_no m = p0 + q0 + 2 + 2 * length names
    /\ z_no m' = p0 + q0 + 3 + 2 * length names
    /\ data m = y /\ data m' = y /\ X m = X0 /\ X m' = X0
    /\ max_lag m = Nat.max p0 q0 /\ max_lag m' = Nat.max p0 q0
    /\ z_list (latent_variables m) = constructed_z_list p0 q0 names
    /\ z_list (latent_variables m')
       = take (p0 + q0 + 2 * length names - 1) (constructed_z_list p0 q0 names)
         ++ leverage_block
    /\ (forall beta, length beta = z_no m -> filter_ready m beta)
    /\ (forall beta, length beta = z_no m' -> filter_ready m' beta).
Proof.
  intros Hshape Hk HX Hrows.
  destruct (init_closed y X0 names p0 q0 Hshape)
    as (m & Hinit & Hzl & Hlen & Hzno & Hest & Hlev & Hp & Hq & Hlag & Hdata
        & HXm & Hnames).
  pose proof (constructed_z_list_length p0 q0 names) as HL.
  pose proof (add_leverage_closed m Hlev ltac:(rewrite Hzl; lia)) as Hadd.
  exists m. eexists. split; [done|]. split; [exact Hadd|].
  cbn [p q leverage z_no data X max_lag latent_variables z_list].
  unfold Layout.k. cbn [X_names]. rewrite Hzl, HL, Hnames.
  replace (p0 + q0 + 2 + 2 * length names - 3)
    with (p0 + q0 + 2 * length names - 1) by lia.
  split_and!; try done; try lia.
  - intros beta Hbeta. apply layout_filter_ready; try done.
    + unfold layout_ok, Layout.shift, Layout.k.
      rewrite ?Hzl, ?HL, ?Hlev, ?Hp, ?Hq, ?Hnames. lia.
    + unfold Layout.k. rewrite ?Hnames. done.
    + rewrite ?Hdata, ?Hlag, ?HXm. done.
    + unfold Layout.k. rewrite ?HXm, ?Hnames. done.
  - intros beta Hbeta. cbn [z_no] in Hbeta.
    apply layout_filter_ready;
      unfold layout_ok, Layout.shift, Layout.k;
      cbn [latent_variables z_list z_no leverage p q X_names max_lag data X];
      rewrite ?length_app, ?length_take, ?HL, ?Hp, ?Hq, ?Hnames, ?Hdata,
        ?Hlag, ?HXm;
      cbn [length leverage_block]; try done; try lia.
Qed.
(** ** Scores and degrees of freedom of a constructed model *)




Lemma neg_loglik_rows (logpdf : R -> R -> R -> R -> R) (m : EGARCHMReg)
    (beta : list R) (z : LatentVariable) :
  filter_ready m beta ->
  z_list (latent_variables m) !! (p m + q m + Layout.shift m) = Some z ->
  exists lm Y sc th,
    _model m beta = Ok (lm, Y, sc, th)
    /\ neg_loglik logpdf m beta
       = Ok (- np_sum ((fun t => logpdf (Y !!! t)
                                   (transform (prior z)
                                      (beta !!! (p m + q m + Layout.shift m)%nat))
                                   (th !!! t) (exp (lm !!! t / 2)))
                         <$> seq 0 (length Y)))%R.
Proof.
  intros Hready Hz.
  destruct (filter_rows m beta Hready) as (st & Hrun & Hl & Hth & Hsc & _).
  destruct Hready as (Hzl & Hzno & Hlayout & _ & Hk & _).
  assert (length beta - (2 * Layout.k m + 2) = p m + q m + Layout.shift m)
    as Hslot by lia.
  exists (lmda st), (kept m), (scores st), (theta st). split; [done|].
  unfold neg_loglik. rewrite Hrun, bind_Ok. unfold n_terms. fold (Layout.k m).
  replace (- (Z.of_nat (Layout.k m) * 2) - 2)%Z
    with (- Z.of_nat (2 * Layout.k m + 2))%Z by lia.
  rewrite (py_index_before_end (z_list (latent_variables m))
             (2 * Layout.k m + 2) z)
    by (rewrite <- ?Hzl, ?Hslot; done || lia).
  rewrite bind_Ok.
  rewrite (py_index_before_end beta (2 * Layout.k m + 2)
             (beta !!! (p m + q m + Layout.shift m)))
    by (rewrite ?Hslot; (apply lookup_total_Some; lia) || lia).
  rewrite bind_Ok.
  rewrite (zip_rows_by_index
             (fun y t l => logpdf y (transform (prior z)
                                       (beta !!! (p m + q m + Layout.shift m)))
                             t (exp (l / 2.0)))
             (kept m) (theta st) (lmda st) Hth Hl).
  do 3 f_equal. apply Forall_fmap_ext_1, Forall_forall. intros t _.
  by rewrite half_float.
Qed.

(** The latent variable that the likelihood of a model with leverage
    takes its degrees of freedom from is not transformed. *)
Lemma leveraged_lookup_slot (p0 q0 : nat) (names : list string) :
  0 < length names ->
  exists z,
    (take (p0 + q0 + 2 * length names - 1) (constructed_z_list p0 q0 names)
     ++ leverage_block) !! (p0 + q0 + 1) = Some z
    /\ prior_kind (prior z) = T_none.
Proof.
  intros Hk. pose proof (constructed_z_list_length p0 q0 names) as HL.
  destruct (decide (length names = 1)) as [H1|H1].
  - rewrite lookup_app_r by (rewrite length_take; lia).
    rewrite length_take, HL.
    replace (p0 + q0 + 1 - _) with 0 by lia. simpl. eauto.
  - rewrite lookup_app_l by (rewrite length_take; lia).
    rewrite lookup_take_lt by lia.
    unfold constructed_z_list. rewrite app_assoc.
    rewrite lookup_app_r; rewrite length_app, !lag_variables_length; [|lia].
    replace (p0 + q0 + 1 - (p0 + q0)) with 1 by lia. simpl. eauto.
Qed.

(** X11: the degrees of freedom of the likelihood on a model as the
    constructor builds it.  Without leverage they are [exp(beta[p+q])],
    the value the scores are computed with.  After [add_leverage] they
    are the entry [beta[p+q+1]] itself, not transformed, so nothing keeps
    them positive, while the scores still use [exp(beta[p+q])]. *)
Theorem constructed_likelihood_df (logpdf : R -> R -> R -> R -> R) (y : list R)
    (X0 : list (list R)) (names : list string) (p0 q0 : nat)
    (m0 m1 : EGARCHMReg) (beta0 beta1 : list R) :
  shape1 X0 = length names -> 0 < length names ->
  length y - Nat.max p0 q0 <= length X0 ->
  Forall (fun row => length row = length names) X0 ->
  __init__ y X0 names p0 q0 = Ok m0 -> add_leverage m0 = Ok m1 ->
  length beta0 = z_no m0 -> length beta1 = z_no m1 ->
  (exists lm Y sc th,
     _model m0 beta0 = Ok (lm, Y, sc, th)
     /\ neg_loglik logpdf m0 beta0
        = Ok (- np_sum ((fun t => logpdf (Y !!! t) (exp (beta0 !!! (p0 + q0)%nat))
                                    (th !!! t) (exp (lm !!! t / 2)))
                          <$> seq 0 (length Y)))%R)
  /\ (exists lm Y sc th,
        _model m1 beta1 = Ok (lm, Y, sc, th)
        /\ neg_loglik logpdf m1 beta1
           = Ok (- np_sum ((fun t => logpdf (Y !!! t) (beta1 !!! (p0 + q0 + 1)%nat)
                                       (th !!! t) (exp (lm !!! t / 2)))
                             <$> seq 0 (length Y)))%R).
Proof.
  intros Hshape Hk HX Hrows Hinit Hlev Hbeta0 Hbeta1.
  destruct (constructed_models y X0 names p0 q0 Hshape Hk HX Hrows)
    as (m1' & m2 & Hinit' & Hadd & Hp1 & Hq1 & Hp2 & Hq2 & Hl1 & Hl2 & _ & _
        & _ & _ & _ & _ & _ & _ & _ & _ & Hzl1 & Hzl2 & Hr1 & Hr2).
  rewrite Hinit in Hinit'. injection Hinit' as <-.
  rewrite Hlev in Hadd. injection Hadd as <-.
  split.
  - destruct (neg_loglik_rows logpdf m0 beta0
                {| name := "v"; prior := Uniform T_exp; start := 2.0; value := 0 |})
      as (lm & Y & sc & th & Hrun & Hnll).
    + by apply Hr1.
    + unfold Layout.shift. rewrite Hl1, Hzl1, Hp1, Hq1, Nat.add_0_r.
      apply constructed_lookup_df.
    + exists lm, Y, sc, th. split; [done|]. rewrite Hnll.
      unfold Layout.shift. by rewrite Hl1, Hp1, Hq1, Nat.add_0_r.
  - destruct (leveraged_lookup_slot p0 q0 names Hk) as (z & Hz & Hnone).
    destruct (neg_loglik_rows logpdf m1 beta1 z)
      as (lm & Y & sc & th & Hrun & Hnll).
    + by apply Hr2.
    + unfold Layout.shift. by rewrite Hl2, Hzl2, Hp2, Hq2.
    + exists lm, Y, sc, th. split; [done|]. rewrite Hnll.
      unfold Layout.shift, transform. by rewrite Hl2, Hp2, Hq2, Hnone.
Qed.

Lemma constructed_likelihood_df_witness :
  (exists lm Y sc th,
     _model Sample.model11 Sample.beta6 = Ok (lm, Y, sc, th)
     /\ neg_loglik (fun x df loc scale => df) Sample.model11 Sample.beta6
        = Ok (- np_sum ((fun t => (fun x df loc scale => df) (Y !!! t)
                                    (exp (Sample.beta6 !!! (1 + 1)%nat))
                                    (th !!! t) (exp (lm !!! t / 2)))
                          <$> seq 0 (length Y)))%R)
  /\ (exists lm Y sc th,
        _model Sample.model11_lev Sample.beta7 = Ok (lm, Y, sc, th)
        /\ neg_loglik (fun x df loc scale => df) Sample.model11_lev Sample.beta7
           = Ok (- np_sum ((fun t => (fun x df loc scale => df) (Y !!! t)
                                       (Sample.beta7 !!! (1 + 1 + 1)%nat)
                                       (th !!! t) (exp (lm !!! t / 2)))
                             <$> seq 0 (length Y)))%R).
Proof.
  apply (constructed_likelihood_df (fun x df loc scale => df) Sample.y Sample.X1
           ["Intercept"%string] 1 1 Sample.model11 Sample.model11_lev
           Sample.beta6 Sample.beta7).
  - reflexivity.
  - simpl. lia.
  - simpl. lia.
  - repeat constructor.
  - reflexivity.
  - reflexivity.
  - reflexivity.
  - reflexivity.
Defined.
(** ** Forecasts *)

Lemma forM_each_app {S : Type} (body : nat -> S -> M S) (l1 l2 : list nat) (s : S)
    (w : world) :
  forM_each body (l1 ++ l2) s w
  = (forM_each body l1 s ≫= forM_each body l2) w.
Proof.
  revert s w. induction l1 as [|i l1 IH]; intros s w; [reflexivity|].
  change (forM_each body ((i :: l1) ++ l2) s w)
    with (match body i s w with
          | (Ok a, w') => forM_each body (l1 ++ l2) a w'
          | (Raise e, w') => (Raise e, w')
          end).
  change ((forM_each body (i :: l1) s ≫= forM_each body l2) w)
    with (match (match body i s w with
                 | (Ok a, w') => forM_each body l1 a w'
                 | (Raise e, w') => (Raise e, w')
                 end) with
          | (Ok a, w') => forM_each body l2 a w'
          | (Raise e, w') => (Raise e, w')
          end).
  destruct (body i s w) as [[s'|e] w1]; [|reflexivity].
  rewrite IH. reflexivity.
Qed.

Lemma forM_range_split {S : Type} (lo mid hi : nat) (body : nat -> S -> M S) (s : S)
    (w : world) :
  lo <= mid <= hi ->
  forM_range lo hi body s w
  = (forM_range lo mid body s ≫= forM_range mid hi body) w.
Proof.
  intros H. unfold forM_range.
  replace (hi - lo) with ((mid - lo) + (hi - mid)) by lia.
  rewrite seq_app, forM_each_app.
  by replace (lo + (mid - lo)) with mid by lia.
Qed.

Lemma forM_range_first_raises {S : Type} (lo hi : nat) (body : nat -> S -> M S)
    (s : S) (w w' : world) (e : exn) :
  lo < hi -> body lo s w = (Raise e, w') ->
  forM_range lo hi body s w = (Raise e, w').
Proof.
  intros H Hbody. unfold forM_range.
  replace (hi - lo) with (Datatypes.S (hi - lo - 1)) by lia.
  cbn [seq forM_each]. unfold mbind, M_bind. by rewrite Hbody.
Qed.

Lemma M_bind_lift_Raise {A B : Type} (r : result A) (e : exn) (f : A -> M B)
    (w : world) :
  r = Raise e -> (lift r ≫= f) w = (Raise e, w).
Proof. by intros ->. Qed.

Lemma garch_lag_loop (m : EGARCHMReg) (tp : list R) (le : ref) (w : world)
    (L : list R) :
  arrays w !! le = Some L -> p m <= length L -> p m <= length tp ->
  (if decide (p m ≠ 0) then
     forM_range 0 (p m) (fun j acc =>
         a ← lift (py_index tp (Z.of_nat j));
         b ← getitem le (- Z.of_nat j - 1)%Z;
         mret (acc + a * b)%R) 0%R
   else mret 0%R) w
  = (Ok (0 + lag_sum (Layout.garch_coeffs m tp) L (length L))%R, w).
Proof.
  intros Hle HpL Hp. unfold Layout.garch_coeffs. case_decide as Hp0.
  - apply (lag_loop_sum tp (fun j => j) 0 (p m) le w L 0%R); auto; lia.
  - assert (p m = 0) as -> by lia. unfold mret, M_ret, lag_sum. simpl.
    do 2 f_equal. lra.
Qed.

Lemma score_lag_loop (m : EGARCHMReg) (tp : list R) (se : ref) (w : world)
    (Sc : list R) (a1 : R) :
  arrays w !! se = Some Sc -> q m <= length Sc -> p m + q m <= length tp ->
  (if decide (q m ≠ 0) then
     forM_range 0 (q m) (fun k acc =>
         a ← lift (py_index tp (Z.of_nat (k + p m)));
         b ← getitem se (- Z.of_nat k - 1)%Z;
         mret (acc + a * b)%R) a1
   else mret a1) w
  = (Ok (a1 + lag_sum (Layout.score_coeffs m tp) Sc (length Sc))%R, w).
Proof.
  intros Hse HqS Hpq. unfold Layout.score_coeffs. case_decide as Hq0.
  - apply (lag_loop_sum tp (fun k => k + p m) (p m) (q m) se w Sc a1); auto.
    intros j. lia.
  - assert (q m = 0) as -> by lia. unfold mret, M_ret, lag_sum. simpl.
    do 2 f_equal. lra.
Qed.

Lemma forecast_path_length (m : EGARCHMReg) (tp : list R) (X_oos : list (list R))
    (L Sc : list R) (s : nat) :
  length (forecast_path m tp X_oos L Sc s) = length L + s.
Proof.
  induction s as [|s IH]; simpl; [lia|]. rewrite length_app, IH. simpl. lia.
Qed.

Lemma forecast_path_rows (m : EGARCHMReg) (tp : list R) (X1 X2 : list (list R))
    (L Sc : list R) (s : nat) :
  (forall i, i < s -> X1 !! i = X2 !! i) ->
  forecast_path m tp X1 L Sc s = forecast_path m tp X2 L Sc s.
Proof.
  induction s as [|s IH]; intros H; [done|].
  cbn [forecast_path]. rewrite IH by (intros i Hi; apply H; lia).
  rewrite (list_lookup_total_alt X1), (list_lookup_total_alt X2).
  by rewrite (H s) by lia.
Qed.

(** What one more forecast step needs: enough history for the lags and a
    parameter vector that covers the positions read. *)
Lemma mean_prediction_loop (m : EGARCHMReg) (tp : list R) (X_oos : list (list R))
    (L Sc : list R) (n : nat) (le se ye : ref) (w : world) :
  arrays w !! le = Some L -> arrays w !! se = Some Sc ->
  p m <= length L -> q m <= length Sc -> p m + q m <= length tp ->
  0 < Layout.k m -> 2 * Layout.k m + 1 <= length tp ->
  n <= length X_oos ->
  Forall (fun row => length row = Layout.k m) (take n X_oos) ->
  exists le' se' ye' w',
    forM_range 0 n (mean_prediction_step m tp X_oos) (le, se, ye) w
    = (Ok (le', se', ye'), w')
    /\ arrays w' !! le' = Some (forecast_path m tp X_oos L Sc n)
    /\ arrays w' !! se' = Some (Sc ++ replicate n 0%R)
    /\ grows w w'.
Proof.
  intros Hle Hse HpL HqS Hpq Hk Hk2 HnX Hrows.
  destruct (forM_range_invariant
              (fun s st w' =>
                 arrays w' !! st.1.1 = Some (forecast_path m tp X_oos L Sc s)
                 /\ arrays w' !! st.1.2 = Some (Sc ++ replicate s 0%R)
                 /\ grows w w')
              0 n (mean_prediction_step m tp X_oos) (le, se, ye) w)
    as ([[le' se'] ye'] & w' & Hrun & HP & HS & Hg).
  - lia.
  - cbn [fst snd forecast_path replicate]. rewrite app_nil_r. by split_and!.
  - intros s [[le1 se1] ye1] w1 Hs (HP & HS & Hg). cbn [fst snd] in HP, HS.
    destruct (lookup_lt_is_Some_2 X_oos s ltac:(lia)) as [xt HX].
    destruct (mean_prediction_step_ok m tp X_oos s le1 se1 ye1 w1
                (forecast_path m tp X_oos L Sc s)
                (Sc ++ replicate s 0%R) xt HP HS)
      as (le2 & se2 & ye2 & w2 & Hstep & HP' & HS');
      rewrite ?forecast_path_length, ?length_app, ?length_replicate;
      try lia; try done.
    { apply (Forall_lookup_1 _ _ s xt Hrows). rewrite lookup_take_lt by lia. done. }
    exists (le2, se2, ye2), w2. split; [done|]. cbn [fst snd]. split_and!.
    + rewrite HP'. cbn [forecast_path].
      rewrite forecast_path_length, length_app, length_replicate.
      by rewrite (list_lookup_total_correct _ _ _ HX).
    + rewrite HS'. by rewrite replicate_S_end, app_assoc.
    + etrans; [exact Hg|].
      assert (allocates_only (mean_prediction_step m tp X_oos s (le1, se1, ye1)))
        as Ha by (unfold mean_prediction_step; allocates_only).
      specialize (Ha w1). by rewrite Hstep in Ha.
  - eauto 10.
Qed.

(** A step past the last covariate row fails on [X_oos[t]], after the
    lags have been read. *)
Lemma mean_prediction_step_no_row (m : EGARCHMReg) (tp : list R)
    (X_oos : list (list R)) (t : nat) (le se ye : ref) (w : world) (L Sc : list R) :
  arrays w !! le = Some L -> arrays w !! se = Some Sc ->
  p m <= length L -> q m <= length Sc -> p m + q m <= length tp ->
  length X_oos <= t ->
  mean_prediction_step m tp X_oos t (le, se, ye) w = (Raise IndexError, w).
Proof.
  intros Hle Hse HpL HqS Hpq Ht. unfold mean_prediction_step.
  rewrite (M_bind_Ok _ _ _ _ _ (garch_lag_loop m tp le w L Hle HpL ltac:(lia))).
  rewrite (M_bind_Ok _ _ _ _ _ (score_lag_loop m tp se w Sc _ Hse HqS Hpq)).
  by rewrite (M_bind_lift_Raise _ _ _ _ (py_index_past_end X_oos t Ht)).
Qed.

Lemma transformed_get_z_values (lv : LatentVariables) :
  transformed lv (get_z_values lv) = transform_z lv.
Proof.
  unfold transformed, get_z_values, transform_z.
  induction (z_list lv) as [|z zl IH]; [done|].
  cbn [fmap list_fmap zip_with]. f_equal. exact IH.
Qed.

(** What [predict] needs from a fitted model: estimates for a model that
    is ready for the filter, and at least [max_lag] filtered rows for the
    lags of the first forecast step. *)
Lemma predict_inputs (m : EGARCHMReg) (w : world) :
  filter_ready m (get_z_values (latent_variables m)) ->
  2 * max_lag m <= length (data m) ->
  exists st,
    let tp := transform_z (latent_variables m) in
    let w3 := pushed (pushed (pushed w (lmda st)) (kept m)) (scores st) in
    _model m (get_z_values (latent_variables m))
    = Ok (lmda st, kept m, scores st, theta st)
    /\ length (lmda st) = length (data m) - max_lag m
    /\ length (scores st) = length (data m) - max_lag m
    /\ arrays w3 !! length (arrays w) = Some (lmda st)
    /\ arrays w3 !! S (S (length (arrays w))) = Some (scores st)
    /\ p m <= length (lmda st) /\ q m <= length (scores st)
    /\ p m + q m <= length tp
    /\ 0 < Layout.k m /\ 2 * Layout.k m + 1 <= length tp.
Proof.
  intros Hready Hlag.
  destruct (filter_rows m _ Hready) as (st & Hrun & Hl & Hth & Hsc & _).
  pose proof (filter_ready_parm_length m _ Hready) as Hparm.
  rewrite transformed_get_z_values in Hparm.
  destruct Hready as (_ & _ & _ & Hmax & Hk & _).
  pose proof (kept_length m) as Hn.
  exists st. cbn zeta. split_and!; try done; try lia.
  - do 2 apply pushed_lookup_old. apply pushed_lookup_new.
  - replace (S (S (length (arrays w))))
      with (length (arrays (pushed (pushed w (lmda st)) (kept m))))
      by (by rewrite !pushed_length).
    apply pushed_lookup_new.
Qed.

Lemma predict_unfold (m : EGARCHMReg) (h : nat) (X_oos : list (list R)) (w : world)
    (lm Y sc th : list R) :
  estimated (latent_variables m) = true ->
  _model m (get_z_values (latent_variables m)) = Ok (lm, Y, sc, th) ->
  predict m h X_oos w
  = (mean_values ← _mean_prediction m (length (arrays w)) (S (length (arrays w)))
                     (S (S (length (arrays w)))) h
                     (transform_z (latent_variables m)) (take h X_oos);
     mean_values ← deref mean_values;
     mret (to_volatility (py_slice mean_values (Some (- Z.of_nat h)%Z) None)))
      (pushed (pushed (pushed w lm) Y) sc).
Proof.
  intros Hest Hrun. unfold predict. rewrite Hest. cbn [negb].
  rewrite (M_bind_lift _ _ _ _ Hrun). cbv beta iota.
  rewrite (M_bind_Ok _ _ _ _ _ (alloc_pushed _ _)).
  rewrite (M_bind_Ok _ _ _ _ _ (alloc_pushed _ _)).
  rewrite (M_bind_Ok _ _ _ _ _ (alloc_pushed _ _)).
  by rewrite !pushed_length, py_slice_upto.
Qed.

Lemma mean_prediction_unfold (m : EGARCHMReg) (lmda Y scores : ref) (h : nat)
    (tp : list R) (X_oos : list (list R)) (w : world) :
  _mean_prediction m lmda Y scores h tp X_oos w
  = (st ← forM_range 0 h (mean_prediction_step m tp X_oos)
            (length (arrays w), S (length (arrays w)), S (S (length (arrays w))));
     mret st.1.1)
      (pushed (pushed (pushed w (contents w lmda))
                 (contents (pushed w (contents w lmda)) scores))
         (contents (pushed (pushed w (contents w lmda))
                      (contents (pushed w (contents w lmda)) scores)) Y)).
Proof.
  unfold _mean_prediction.
  rewrite (M_bind_Ok _ _ _ _ _ (np_copy_pushed _ _)).
  rewrite (M_bind_Ok _ _ _ _ _ (np_copy_pushed _ _)).
  rewrite (M_bind_Ok _ _ _ _ _ (np_copy_pushed _ _)).
  rewrite !pushed_length.
  unfold mbind, M_bind.
  destruct (forM_range _ _ _ _ _) as [[[[le se] ye]|e] w']; reflexivity.
Qed.

Lemma mean_prediction_runs (m : EGARCHMReg) (lmda Y scores : ref) (h : nat)
    (tp : list R) (X_oos : list (list R)) (w : world) (L Sc : list R) :
  arrays w !! lmda = Some L -> arrays w !! scores = Some Sc ->
  p m <= length L -> q m <= length Sc -> p m + q m <= length tp ->
  0 < Layout.k m -> 2 * Layout.k m + 1 <= length tp ->
  h <= length X_oos ->
  Forall (fun row => length row = Layout.k m) (take h X_oos) ->
  exists r w',
    _mean_prediction m lmda Y scores h tp X_oos w = (Ok r, w')
    /\ arrays w' !! r = Some (forecast_path m tp X_oos L Sc h).
Proof.
  intros HL HSc HpL HqS Hpq Hk Hk2 HhX Hrows.
  rewrite mean_prediction_unfold, (contents_Some _ _ _ HL).
  rewrite (contents_Some _ _ _ (pushed_lookup_old _ _ _ _ HSc)).
  set (w1 := pushed w L). set (w2 := pushed w1 Sc).
  set (w3 := pushed w2 (contents w2 Y)).
  destruct (mean_prediction_loop m tp X_oos L Sc h (length (arrays w))
              (S (length (arrays w))) (S (S (length (arrays w)))) w3)
    as (le & se & ye & w' & Hrun & HP & _); try done.
  - unfold w3, w2. do 2 apply pushed_lookup_old. apply pushed_lookup_new.
  - unfold w3. apply pushed_lookup_old.
    replace (S (length (arrays w))) with (length (arrays w1))
      by apply pushed_length.
    apply pushed_lookup_new.
  - rewrite (M_bind_Ok _ _ _ _ _ Hrun). cbn [fst snd]. eauto.
Qed.

Lemma mean_prediction_short (m : EGARCHMReg) (lmda Y scores : ref) (h : nat)
    (tp : list R) (X_oos : list (list R)) (w : world) (L Sc : list R) :
  arrays w !! lmda = Some L -> arrays w !! scores = Some Sc ->
  p m <= length L -> q m <= length Sc -> p m + q m <= length tp ->
  0 < Layout.k m -> 2 * Layout.k m + 1 <= length tp ->
  length X_oos < h ->
  Forall (fun row => length row = Layout.k m) X_oos ->
  exists w', _mean_prediction m lmda Y scores h tp X_oos w = (Raise IndexError, w').
Proof.
  intros HL HSc HpL HqS Hpq Hk Hk2 HhX Hrows.
  rewrite mean_prediction_unfold, (contents_Some _ _ _ HL).
  rewrite (contents_Some _ _ _ (pushed_lookup_old _ _ _ _ HSc)).
  set (w1 := pushed w L). set (w2 := pushed w1 Sc).
  set (w3 := pushed w2 (contents w2 Y)).
  destruct (mean_prediction_loop m tp X_oos L Sc (length X_oos)
              (length (arrays w)) (S (length (arrays w)))
              (S (S (length (arrays w)))) w3)
    as (le & se & ye & w' & Hrun & HP & HS & _); try done.
  - unfold w3, w2. do 2 apply pushed_lookup_old. apply pushed_lookup_new.
  - unfold w3. apply pushed_lookup_old.
    replace (S (length (arrays w))) with (length (arrays w1))
      by apply pushed_length.
    apply pushed_lookup_new.
  - by rewrite firstn_all.
  - exists w'.
    apply M_bind_Raise.
    rewrite (forM_range_split 0 (length X_oos) h) by lia.
    rewrite (M_bind_Ok _ _ _ _ _ Hrun).
    apply forM_range_first_raises; [lia|].
    apply (mean_prediction_step_no_row m tp X_oos _ le se ye w' _ _ HP HS);
      rewrite ?forecast_path_length, ?length_app; lia.
Qed.

Lemma predict_runs (m : EGARCHMReg) (h : nat) (X_oos : list (list R)) (w : world)
    (lm Y sc th : list R) :
  estimated (latent_variables m) = true ->
  filter_ready m (get_z_values (latent_variables m)) ->
  2 * max_lag m <= length (data m) ->
  h <= length X_oos ->
  Forall (fun row => length row = Layout.k m) (take h X_oos) ->
  _model m (get_z_values (latent_variables m)) = Ok (lm, Y, sc, th) ->
  length lm = length (data m) - max_lag m
  /\ exists w',
       predict m h X_oos w
       = (Ok (to_volatility
                (py_slice (forecast_path m (transform_z (latent_variables m))
                             X_oos lm sc h)
                   (Some (- Z.of_nat h)%Z) None)), w').
Proof.
  intros Hest Hready Hlag HhX Hrows Hrun.
  destruct (predict_inputs m w Hready Hlag)
    as (st & Hrun' & Hlm & Hsc & HL & HS & HpL & HqS & Hpq & Hk & Hk2).
  rewrite Hrun in Hrun'. injection Hrun' as -> -> -> ->.
  split; [done|].
  destruct (mean_prediction_runs m (length (arrays w)) (S (length (arrays w)))
              (S (S (length (arrays w)))) h (transform_z (latent_variables m))
              (take h X_oos) _ _ _ HL HS HpL HqS Hpq Hk Hk2)
    as (r & w' & Hmp & HP).
  - rewrite length_take. lia.
  - by rewrite take_take, Nat.min_id.
  - exists w'. rewrite (predict_unfold m h X_oos w _ _ _ _ Hest Hrun).
    rewrite (M_bind_Ok _ _ _ _ _ Hmp).
    unfold deref, mbind, M_bind, mret, M_ret. rewrite HP. cbn [default].
    do 4 f_equal. apply forecast_path_rows.
    intros i Hi. by apply lookup_take_lt.
Qed.



(** X13: forecasts are nested.  Under the conditions of a forecast of
    [h + 1] steps, the [h > 0] values that [predict] returns for [h] steps
    are the first [h] of the values it returns for [h + 1] steps. *)
Theorem predict_nested (m : EGARCHMReg) (h : nat) (X_oos : list (list R))
    (w : world) :
  estimated (latent_variables m) = true ->
  filter_ready m (get_z_values (latent_variables m)) ->
  2 * max_lag m <= length (data m) ->
  0 < h -> S h <= length X_oos ->
  Forall (fun row => length row = Layout.k m) (take (S h) X_oos) ->
  exists v v' w1 w2,
    predict m h X_oos w = (Ok v, w1)
    /\ predict m (S h) X_oos w = (Ok v', w2)
    /\ v = take h v'.
Proof.
  intros Hest Hready Hlag Hh HhX Hrows.
  destruct (filter_rows m _ Hready) as (st & Hrun & _).
  destruct (predict_runs m h X_oos w _ _ _ _ Hest Hready Hlag ltac:(lia)
              ltac:(rewrite <- (Nat.min_l h (S h)), <- take_take by lia;
                    by apply Forall_take) Hrun)
    as (Hlm & w1 & Hp1).
  destruct (predict_runs m (S h) X_oos w _ _ _ _ Hest Hready Hlag HhX Hrows Hrun)
    as (_ & w2 & Hp2).
  eexists _, _, w1, w2. split; [exact Hp1|]. split; [exact Hp2|].
  rewrite !py_slice_last by lia. unfold to_volatility.
  rewrite <- fmap_take. f_equal.
  rewrite !forecast_path_length.
  replace (length (lmda st) + h - h) with (length (lmda st)) by lia.
  replace (length (lmda st) + S h - S h) with (length (lmda st)) by lia.
  cbn [forecast_path].
  rewrite drop_app_le by (rewrite forecast_path_length; lia).
  rewrite take_app_length'; [done|].
  rewrite length_drop, forecast_path_length. lia.
Qed.

Lemma predict_nested_witness :
  exists v v' w1 w2,
    predict Cases.fitted 1 Sample.X_oos Sample.store = (Ok v, w1)
    /\ predict Cases.fitted 2 Sample.X_oos Sample.store = (Ok v', w2)
    /\ v = take 1 v'.
Proof.
  apply (predict_nested Cases.fitted 1 Sample.X_oos Sample.store).
  - reflexivity.
  - vm_compute. repeat split; try lia. repeat constructor.
  - vm_compute. lia.
  - lia.
  - vm_compute. lia.
  - repeat constructor.
Defined.

(** X14: under the same conditions on the model, [predict] given fewer
    than [h] covariate rows raises [IndexError]: the forecast loop runs
    one step per row and fails on the first step without one. *)
Theorem predict_too_few_rows (m : EGARCHMReg) (h : nat) (X_oos : list (list R))
    (w : world) :
  estimated (latent_variables m) = true ->
  filter_ready m (get_z_values (latent_variables m)) ->
  2 * max_lag m <= length (data m) ->
  length X_oos < h ->
  Forall (fun row => length row = Layout.k m) X_oos ->
  exists w', predict m h X_oos w = (Raise IndexError, w').
Proof.
  intros Hest Hready Hlag HhX Hrows.
  destruct (predict_inputs m w Hready Hlag)
    as (st & Hrun & Hlm & Hsc & HL & HS & HpL & HqS & Hpq & Hk & Hk2).
  destruct (mean_prediction_short m (length (arrays w)) (S (length (arrays w)))
              (S (S (length (arrays w)))) h (transform_z (latent_variables m))
              X_oos _ _ _ HL HS HpL HqS Hpq Hk Hk2 HhX Hrows)
    as (w' & Hmp).
  exists w'. rewrite (predict_unfold m h X_oos w _ _ _ _ Hest Hrun).
  rewrite take_ge by lia. by apply M_bind_Raise.
Qed.

Lemma predict_too_few_rows_witness :
  exists w', predict Cases.fitted 3 Sample.X_oos Sample.store = (Raise IndexError, w').
Proof.
  apply (predict_too_few_rows Cases.fitted 3 Sample.X_oos Sample.store).
  - reflexivity.
  - vm_compute. repeat split; try lia. repeat constructor.
  - vm_compute. lia.
  - vm_compute. lia.
  - repeat constructor.
Defined.
(** ** What the plots are given *)

Lemma np_map2_same (f : R -> R -> R) (a b : list R) :
  length a = length b -> np_map2 f a b = Ok (zip_with f a b).
Proof. intros H. unfold np_map2. by rewrite decide_True. Qed.



Lemma for_each_collect {A : Type} (body : nat -> list A -> result (list A))
    (g : nat -> A) (idx : list nat) (acc : list A) :
  (forall i acc, i ∈ idx -> body i acc = Ok (acc ++ [g i])) ->
  for_each body idx acc = Ok (acc ++ (g <$> idx)).
Proof.
  revert acc. induction idx as [|i idx IH]; intros acc H.
  - simpl. by rewrite app_nil_r.
  - cbn [for_each]. rewrite (H i) by apply list_elem_of_here.
    rewrite bind_Ok, IH by (intros j acc' Hj; apply H; by apply list_elem_of_further).
    by rewrite <- app_assoc.
Qed.

(** The bands of [_summarize_simulations] in closed form. *)
Lemma summarize_simulations_closed (percentile : list R -> nat -> R)
    (mean_values : list R) (sim_vector : list (list R)) (h past_values : nat) :
  0 < h -> length sim_vector = h -> h <= length mean_values ->
  _summarize_simulations percentile mean_values sim_vector h past_values
  = Ok ((fun pre => 0%R :: zip_with Rminus
                               ((fun i => percentile i pre) <$> sim_vector)
                               (drop (length mean_values - h) mean_values))
          <$> ((fun i => 5 + 5 * i) <$> seq 0 19),
        drop (length mean_values - (h + 1)) mean_values,
        drop (length mean_values - (h + past_values)) mean_values).
Proof.
  intros Hh Hsim Hmean. unfold _summarize_simulations.
  rewrite (py_slice_last mean_values h Hh).
  rewrite (for_each_collect _
             (fun pre => 0%R :: zip_with Rminus
                                   ((fun i => percentile i pre) <$> sim_vector)
                                   (drop (length mean_values - h) mean_values))).
  - rewrite bind_Ok. cbn [app].
    replace (- Z.of_nat h - 1)%Z with (- Z.of_nat (h + 1))%Z by lia.
    replace (- Z.of_nat h - Z.of_nat past_values)%Z
      with (- Z.of_nat (h + past_values))%Z by lia.
    by rewrite !py_slice_last by lia.
  - intros pre acc _. rewrite np_map2_same; [done|].
    rewrite length_fmap, length_drop. lia.
Qed.

Lemma summarize_simulations_runs (percentile : list R -> nat -> R)
    (mean_values : list R) (sim_vector : list (list R)) (h past_values : nat) :
  0 < h -> length sim_vector = h -> h < length mean_values ->
  exists error_bars forecasted_values plot_values,
    _summarize_simulations percentile mean_values sim_vector h past_values
    = Ok (error_bars, forecasted_values, plot_values)
    /\ length error_bars = 19
    /\ Forall (fun b => length b = h + 1 /\ b !! 0 = Some 0%R) error_bars
    /\ length forecasted_values = h + 1
    /\ length plot_values = Nat.min (h + past_values) (length mean_values).
Proof.
  intros Hh Hsim Hmean.
  rewrite summarize_simulations_closed by (done || lia).
  eexists _, _, _. split; [reflexivity|]. split_and!.
  - by rewrite !length_fmap, length_seq.
  - apply Forall_fmap, Forall_forall. intros pre _. unfold compose. cbv beta.
    split; [|done]. cbn [length].
    rewrite length_zip_with, length_fmap, length_drop. lia.
  - rewrite length_drop. lia.
  - rewrite length_drop. lia.
Qed.

(** X16: given one row of simulated values per step and a mean path with
    at least one value before its last [h > 0], [_summarize_simulations]
    returns 19 bands, one for each of the percentiles 5, 10, ..., 95.
    Every band has [h + 1] entries and starts with 0, the forecast line
    has [h + 1] entries, and the plotted line has [h + past_values]
    entries or the whole mean path when that is shorter. *)
Theorem summarize_simulations_shape (percentile : list R -> nat -> R)
    (mean_values : list R) (sim_vector : list (list R)) (h past_values : nat) :
  0 < h -> length sim_vector = h -> h < length mean_values ->
  exists error_bars forecasted_values plot_values,
    _summarize_simulations percentile mean_values sim_vector h past_values
    = Ok (error_bars, forecasted_values, plot_values)
    /\ length error_bars = 19
    /\ Forall (fun b => length b = h + 1 /\ b !! 0 = Some 0%R) error_bars
    /\ length forecasted_values = h + 1
    /\ length plot_values = Nat.min (h + past_values) (length mean_values).
Proof. apply summarize_simulations_runs. Qed.


Lemma summarize_simulations_shape_witness :
  exists error_bars forecasted_values plot_values,
    _summarize_simulations (fun a pre => 0%R) [1; 2; 3; 4; 5]%R
      [[1; 1; 1]; [2; 2; 2]]%R 2 20
    = Ok (error_bars, forecasted_values, plot_values)
    /\ length error_bars = 19
    /\ Forall (fun b => length b = 2 + 1 /\ b !! 0 = Some 0%R) error_bars
    /\ length forecasted_values = 2 + 1
    /\ length plot_values = Nat.min (2 + 20) (length [1; 2; 3; 4; 5]%R).
Proof.
  apply (summarize_simulations_shape (fun a pre => 0%R) [1; 2; 3; 4; 5]%R
           [[1; 1; 1]; [2; 2; 2]]%R 2 20).
  - lia.
  - reflexivity.
  - simpl. lia.
Defined.
(** ** Simulated forecasts *)

Lemma sim_prediction_unfold (m : EGARCHMReg) (lmda Y scores : ref) (h : nat)
    (t_params : list R) (simulations : nat) (X_oos : list (list R)) :
  _sim_prediction m lmda Y scores h t_params simulations X_oos
  = (sim_vector ← np_zeros2 simulations h;
     _ ← forM_range 0 simulations
           (sim_prediction_path m lmda Y scores h t_params X_oos sim_vector) None;
     np_transpose sim_vector h).
Proof. reflexivity. Qed.

Lemma M_ret_run {A : Type} (a : A) (w : world) : (mret a : M A) w = (Ok a, w).
Proof. reflexivity. Qed.

Lemma shape0_run (r : ref) (w : world) :
  shape0 r w = (Ok (length (contents w r)), w).
Proof. reflexivity. Qed.

Lemma randint_run (n : nat) (w : world) :
  n ≠ 0 -> randint n w = (Ok (tape w (cursor w) `mod` n), drawn w).
Proof. intros Hn. unfold randint. by rewrite decide_False. Qed.

Lemma getitem_run (r : ref) (i : Z) (w : world) (a : list R) (x : R) :
  arrays w !! r = Some a -> py_index a i = Ok x -> getitem r i w = (Ok x, w).
Proof.
  intros Hr Hx. unfold getitem, deref, mbind, M_bind, lift. by rewrite Hr; simpl; rewrite Hx.
Qed.

Lemma draws_refl (w : world) : draws 0 w w.
Proof. unfold draws, grows. split_and!; [done | done | lia]. Qed.

Lemma draws_trans (n1 n2 : nat) (w1 w2 w3 : world) :
  draws n1 w1 w2 -> draws n2 w2 w3 -> draws (n1 + n2) w1 w3.
Proof.
  intros (Hg1 & Hm1 & Hc1) (Hg2 & Hm2 & Hc2). unfold draws, grows in *. split_and!.
  - by etrans.
  - congruence.
  - lia.
Qed.

Lemma draws_pushed (w : world) (a : list R) : draws 0 w (pushed w a).
Proof.
  unfold draws, grows. split_and!; [|done|simpl; lia].
  simpl. by apply prefix_app_r.
Qed.

Lemma draws_drawn (w : world) : draws 1 w (drawn w).
Proof. unfold draws, grows. split_and!; [done | done | simpl; lia]. Qed.

Lemma draws_lookup (n : nat) (w w' : world) (r : ref) (a : list R) :
  draws n w w' -> arrays w !! r = Some a -> arrays w' !! r = Some a.
Proof. intros (Hg & _) Hr. by eapply prefix_lookup_Some. Qed.

(** One step of a simulated path without leverage: the appended value is
    the recursion on the path and the scores so far, and two outcomes of
    the random source are consumed. *)
Lemma sim_prediction_step_ok (m : EGARCHMReg) (Y scores : ref) (tp : list R)
    (X_oos : list (list R)) (t : nat) (le se ye : ref) (nt : option R) (w : world)
    (P Se Sc Ya xt : list R) :
  leverage m = false ->
  arrays w !! le = Some P -> arrays w !! se = Some Se ->
  arrays w !! scores = Some Sc -> arrays w !! Y = Some Ya ->
  p m <= length P -> q m <= length Se -> 0 < length Sc -> 0 < length Ya ->
  p m + q m <= length tp ->
  0 < Layout.k m -> 2 * Layout.k m + 1 <= length tp ->
  X_oos !! t = Some xt -> length xt = Layout.k m ->
  exists le' se' ye' nt' w' s,
    sim_prediction_step m Y scores tp X_oos t (le, se, ye, nt) w
    = (Ok (le', se', ye', nt'), w')
    /\ arrays w' !! le'
       = Some (P ++ [lag_sum (Layout.garch_coeffs m tp) P (length P)
                     + lag_sum (Layout.score_coeffs m tp) Se (length Se)
                     + dotp xt (Layout.vol_reg_coeffs m tp)]%R)
    /\ arrays w' !! se' = Some (Se ++ [s])
    /\ draws 2 w w'.
Proof.
  intros Hlev Hle Hse Hsc HY HpL HqS HSc HYa Hpq Hk Hk2 HX Hxt.
  unfold sim_prediction_step, n_terms. fold (Layout.k m).
  rewrite (M_bind_Ok _ _ _ _ _ (garch_lag_loop m tp le w P Hle HpL ltac:(lia))).
  rewrite (M_bind_Ok _ _ _ _ _ (score_lag_loop m tp se w Se _ Hse HqS Hpq)).
  rewrite Hlev.
  set (a2 := (0 + lag_sum (Layout.garch_coeffs m tp) P (length P)
              + lag_sum (Layout.score_coeffs m tp) Se (length Se))%R).
  assert (length (Layout.vol_reg_coeffs m tp) = Layout.k m) as Hvol
    by (unfold Layout.vol_reg_coeffs; rewrite length_take, length_drop; lia).
  assert (length (Layout.mean_reg_coeffs m tp) = Layout.k m) as Hmean
    by (unfold Layout.mean_reg_coeffs; rewrite length_drop; lia).
  rewrite (M_bind_Ok _ _ _ _ _ (M_ret_run a2 w)).
  rewrite (M_bind_lift _ _ _ _ (py_index_nat _ _ _ HX)).
  rewrite py_slice_window by lia. fold (Layout.vol_reg_coeffs m tp).
  rewrite (M_bind_lift _ _ _ _ (np_dot_dotp _ _ (eq_trans Hxt (eq_sym Hvol)))).
  rewrite (M_bind_lift _ _ _ _ (py_index_nat _ _ _ HX)).
  rewrite py_slice_last by lia. fold (Layout.mean_reg_coeffs m tp).
  rewrite (M_bind_lift _ _ _ _ (np_dot_dotp _ _ (eq_trans Hxt (eq_sym Hmean)))).
  replace (- (Z.of_nat (Layout.k m) * 2) - 1)%Z
    with (- Z.of_nat (2 * Layout.k m + 1))%Z by lia.
  assert (length tp - (2 * Layout.k m + 1) < length tp) as Hg by lia.
  rewrite (M_bind_lift _ _ _ _
             (py_index_before_end tp (2 * Layout.k m + 1) _
                (lookup_total_Some tp _ Hg) ltac:(lia))).
  rewrite (M_bind_Ok _ _ _ _ _ (np_append_pushed _ _ _)).
  rewrite (contents_Some _ _ _ Hle).
  set (v := (a2 + dotp xt (Layout.vol_reg_coeffs m tp))%R).
  set (w1 := pushed w (P ++ [v])).
  assert (draws 0 w w1) as D1 by apply draws_pushed.
  rewrite (M_bind_Ok _ _ _ _ _ (shape0_run _ _)).
  rewrite (contents_Some w1 _ _ (draws_lookup _ _ _ _ _ D1 Hsc)).
  rewrite (M_bind_Ok _ _ _ _ _ (randint_run (length Sc) w1 ltac:(lia))).
  set (i1 := tape w1 (cursor w1) `mod` length Sc).
  assert (i1 < length Sc) as Hi1 by (apply Nat.mod_upper_bound; lia).
  assert (draws 1 w (drawn w1)) as D2
    by apply (draws_trans 0 1 _ _ _ D1 (draws_drawn w1)).
  rewrite (M_bind_Ok _ _ _ _ _
             (getitem_run _ _ _ _ _ (draws_lookup _ _ _ _ _ D2 Hsc)
                (py_index_total Sc i1 Hi1))).
  rewrite (M_bind_Ok _ _ _ _ _ (np_append_pushed _ _ _)).
  rewrite (contents_Some _ _ _ (draws_lookup _ _ _ _ _ D2 Hse)).
  set (w3 := pushed (drawn w1) (Se ++ [Sc !!! i1])).
  assert (draws 1 w w3) as D3
    by apply (draws_trans 1 0 _ _ _ D2 (draws_pushed _ _)).
  rewrite (M_bind_Ok _ _ _ _ _ (shape0_run _ _)).
  rewrite (contents_Some w3 _ _ (draws_lookup _ _ _ _ _ D3 HY)).
  rewrite (M_bind_Ok _ _ _ _ _ (randint_run (length Ya) w3 ltac:(lia))).
  set (i2 := tape w3 (cursor w3) `mod` length Ya).
  assert (i2 < length Ya) as Hi2 by (apply Nat.mod_upper_bound; lia).
  assert (draws 2 w (drawn w3)) as D4
    by apply (draws_trans 1 1 _ _ _ D3 (draws_drawn w3)).
  rewrite (M_bind_Ok _ _ _ _ _
             (getitem_run _ _ _ _ _ (draws_lookup _ _ _ _ _ D4 HY)
                (py_index_total Ya i2 Hi2))).
  rewrite (M_bind_Ok _ _ _ _ _ (np_append_pushed _ _ _)).
  eexists _, _, _, _, _, (Sc !!! i1). split; [reflexivity|]. split_and!.
  - apply pushed_lookup_old.
    change (arrays (drawn w3)) with (arrays w3). unfold w3.
    apply pushed_lookup_old.
    change (arrays (drawn w1)) with (arrays w1). unfold w1.
    rewrite pushed_lookup_new. do 3 f_equal. unfold v, a2. lra.
  - apply pushed_lookup_old.
    change (arrays (drawn w3)) with (arrays w3). unfold w3.
    change (length (arrays (drawn w1))) with (length (arrays (drawn w1))).
    apply pushed_lookup_new.
  - apply (draws_trans 2 0 _ _ _ D4 (draws_pushed _ _)).
Qed.

Lemma deref_run (r : ref) (w : world) : deref r w = (Ok (contents w r), w).
Proof. reflexivity. Qed.

Lemma set_row_run (mat : ref) (n : nat) (row : list R) (w : world)
    (rows : list (list R)) :
  matrices w !! mat = Some rows -> n < length rows ->
  Forall (fun r => length r = length row) rows ->
  exists w',
    set_row mat n row w = (Ok (), w')
    /\ arrays w' = arrays w /\ cursor w' = cursor w
    /\ matrices w' !! mat = Some (<[n := row]> rows).
Proof.
  intros Hmat Hn Hrows. unfold set_row. rewrite Hmat. cbn [default]. cbv zeta.
  unfold Datatypes.id.
  destruct (lookup_lt_is_Some_2 rows n Hn) as [old Hold]. rewrite Hold.
  rewrite decide_True by (symmetry; apply (Forall_lookup_1 _ _ _ _ Hrows Hold)).
  eexists. split; [reflexivity|]. cbn [arrays cursor matrices]. split_and!; try done.
  apply list_lookup_insert_eq. by eapply lookup_lt_Some.
Qed.

(** One simulated path without leverage: row [n] of the matrix receives
    [h] values, the first of them the first step of the mean forecast,
    and [2h] outcomes of the random source are consumed. *)
Lemma sim_prediction_path_ok (m : EGARCHMReg) (lmda Y scores : ref) (h : nat)
    (tp : list R) (X_oos : list (list R)) (sv : ref) (n : nat) (nt : option R)
    (w : world) (L Sc Ya : list R) (rows : list (list R)) :
  leverage m = false ->
  arrays w !! lmda = Some L -> arrays w !! scores = Some Sc ->
  arrays w !! Y = Some Ya ->
  p m <= length L -> q m <= length Sc -> 0 < length Sc -> 0 < length Ya ->
  p m + q m <= length tp ->
  0 < Layout.k m -> 2 * Layout.k m + 1 <= length tp ->
  0 < h -> h <= length X_oos ->
  Forall (fun row => length row = Layout.k m) (take h X_oos) ->
  matrices w !! sv = Some rows -> n < length rows ->
  Forall (fun r => length r = h) rows ->
  exists nt' w' row,
    sim_prediction_path m lmda Y scores h tp X_oos sv n nt w = (Ok nt', w')
    /\ grows w w' /\ cursor w' = cursor w + 2 * h
    /\ matrices w' !! sv = Some (<[n := row]> rows)
    /\ length row = h
    /\ row !! 0 = Some (first_step m tp X_oos L Sc).
Proof.
  intros Hlev HL HSc HY HpL HqS HSc0 HYa0 Hpq Hk Hk2 Hh HhX Hrows Hmat Hn Hwidth.
  unfold sim_prediction_path.
  rewrite (M_bind_Ok _ _ _ _ _ (np_copy_pushed _ _)).
  rewrite (M_bind_Ok _ _ _ _ _ (np_copy_pushed _ _)).
  rewrite (M_bind_Ok _ _ _ _ _ (np_copy_pushed _ _)).
  rewrite (contents_Some _ _ _ HL).
  set (w1 := pushed w L).
  rewrite (contents_Some w1 _ _ (pushed_lookup_old _ _ _ _ HSc)).
  set (w2 := pushed w1 Sc). set (w3 := pushed w2 (contents w2 Y)).
  assert (draws 0 w w3) as D0.
  { apply (draws_trans 0 0 w w2 w3); [|apply draws_pushed].
    apply (draws_trans 0 0 w w1 w2); apply draws_pushed. }
  destruct (forM_range_invariant
              (fun t st w' =>
                 exists P Se,
                   arrays w' !! st.1.1.1 = Some P
                   /\ arrays w' !! st.1.1.2 = Some Se
                   /\ length P = length L + t /\ length Se = length Sc + t
                   /\ (t = 0 -> P = L /\ Se = Sc)
                   /\ (0 < t -> P !! length L = Some (first_step m tp X_oos L Sc))
                   /\ draws (2 * t) w w')
              0 h (sim_prediction_step m Y scores tp X_oos)
              (length (arrays w), length (arrays w1), length (arrays w2), nt) w3)
    as ([[[le se] ye] nt'] & w' & Hrun & P & Se & HP & _ & HlenP & _ & _ & Hfirst & D).
  - lia.
  - exists L, Sc. cbn [fst snd]. split_and!; try done; try lia.
    + unfold w3, w2. do 2 apply pushed_lookup_old. apply pushed_lookup_new.
    + unfold w3. apply pushed_lookup_old. unfold w2. apply pushed_lookup_new.
  - intros t [[[le se] ye] nt1] wt Ht (P & Se & HP & HS & HlenP & HlenS & H0 & Hfirst & D).
    cbn [fst snd] in HP, HS.
    destruct (lookup_lt_is_Some_2 X_oos t ltac:(lia)) as [xt HX].
    destruct (sim_prediction_step_ok m Y scores tp X_oos t le se ye nt1 wt
                P Se Sc Ya xt Hlev HP HS
                (draws_lookup _ _ _ _ _ D HSc) (draws_lookup _ _ _ _ _ D HY))
      as (le' & se' & ye' & nt2 & wt' & s & Hstep & HP' & HS' & D'); try lia; try done.
    { apply (Forall_lookup_1 _ _ t xt Hrows). by rewrite lookup_take_lt by lia. }
    exists (le', se', ye', nt2), wt'. split; [done|].
    eexists _, _. cbn [fst snd]. split; [exact HP'|]. split; [exact HS'|].
    split_and!.
    + rewrite length_app. simpl. lia.
    + rewrite length_app. simpl. lia.
    + lia.
    + intros _. destruct (decide (t = 0)) as [->|Hne].
      * destruct (H0 eq_refl) as [-> ->].
        rewrite lookup_app_r by lia. rewrite Nat.sub_diag. cbn [lookup list_lookup].
        unfold first_step. by rewrite (list_lookup_total_correct _ _ _ HX).
      * rewrite lookup_app_l by lia. apply Hfirst. lia.
    + replace (2 * S t) with (2 * t + 2) by lia. by eapply draws_trans.
  - rewrite (M_bind_Ok _ _ _ _ _ Hrun). cbn [fst snd] in HP.
    cbv beta iota.
    destruct D as (Dg & Dm & Dc).
    destruct (set_row_run sv n (py_slice P (Some (- Z.of_nat h)%Z) None) w' rows)
      as (w'' & Hset & Harr & Hcur & Hmat').
    + by rewrite Dm.
    + done.
    + rewrite py_slice_last, length_drop by done.
      eapply Forall_impl; [exact Hwidth|]. intros r Hr. simpl in *. lia.
    + exists nt', w'', (py_slice P (Some (- Z.of_nat h)%Z) None).
      split.
      * rewrite (M_bind_Ok _ _ _ _ _ (deref_run le w')).
        rewrite (contents_Some _ _ _ HP).
        by rewrite (M_bind_Ok _ _ _ _ _ Hset).
      * split_and!.
        -- unfold grows in *. by rewrite Harr.
        -- lia.
        -- done.
        -- rewrite py_slice_last, length_drop by done. lia.
        -- rewrite py_slice_last, lookup_drop by done.
           replace (length P - h + 0) with (length L) by lia. apply Hfirst. lia.
Qed.

Lemma np_zeros2_run (rows cols : nat) (w : world) :
  exists w',
    np_zeros2 rows cols w = (Ok (length (matrices w)), w')
    /\ arrays w' = arrays w /\ cursor w' = cursor w
    /\ matrices w' !! length (matrices w) = Some (replicate rows (np_zeros cols)).
Proof.
  eexists. split; [reflexivity|]. cbn [arrays cursor matrices]. split_and!; try done.
  rewrite lookup_app_r by lia. by rewrite Nat.sub_diag.
Qed.

Lemma np_transpose_run (mat : ref) (cols : nat) (w : world) (rows : list (list R)) :
  matrices w !! mat = Some rows ->
  np_transpose mat cols w
  = (Ok ((fun j => (fun row => default 0%R (row !! j)) <$> rows) <$> seq 0 cols), w).
Proof.
  intros H. unfold np_transpose. cbv beta zeta.
  replace (default [] (matrices w !! mat)) with rows by (by rewrite H).
  reflexivity.
Qed.

Lemma sim_prediction_runs (m : EGARCHMReg) (lmda Y scores : ref)
    (h simulations : nat) (tp : list R) (X_oos : list (list R)) (w : world)
    (L Sc Ya : list R) :
  leverage m = false ->
  arrays w !! lmda = Some L -> arrays w !! scores = Some Sc ->
  arrays w !! Y = Some Ya ->
  p m <= length L -> q m <= length Sc -> 0 < length Sc -> 0 < length Ya ->
  p m + q m <= length tp ->
  0 < Layout.k m -> 2 * Layout.k m + 1 <= length tp ->
  0 < h -> h <= length X_oos ->
  Forall (fun row => length row = Layout.k m) (take h X_oos) ->
  exists mat w',
    _sim_prediction m lmda Y scores h tp simulations X_oos w = (Ok mat, w')
    /\ length mat = h
    /\ Forall (fun row => length row = simulations) mat
    /\ mat !! 0 = Some (replicate simulations (first_step m tp X_oos L Sc))
    /\ cursor w' = cursor w + 2 * h * simulations.
Proof.
  intros Hlev HL HSc HY HpL HqS HSc0 HYa0 Hpq Hk Hk2 Hh HhX Hrows.
  rewrite sim_prediction_unfold.
  destruct (np_zeros2_run simulations h w) as (w1 & Hz & Harr & Hcur & Hmat).
  rewrite (M_bind_Ok _ _ _ _ _ Hz).
  set (sv := length (matrices w)) in *.
  set (v1 := first_step m tp X_oos L Sc).
  destruct (forM_range_invariant
              (fun n (_ : option R) w' =>
                 exists rows,
                   matrices w' !! sv = Some rows
                   /\ length rows = simulations
                   /\ Forall (fun r => length r = h) rows
                   /\ (forall i, i < n -> exists r, rows !! i = Some r
                                                    /\ r !! 0 = Some v1)
                   /\ grows w w'
                   /\ cursor w' = cursor w + 2 * h * n)
              0 simulations
              (sim_prediction_path m lmda Y scores h tp X_oos sv) None w1)
    as (nt & w' & Hrun & rows & Hmat' & Hlen & Hwidth & Hfirst & _ & Hcur').
  - lia.
  - exists (replicate simulations (np_zeros h)). split_and!; try done.
    + by rewrite length_replicate.
    + apply Forall_replicate. unfold np_zeros. by rewrite length_replicate.
    + intros i Hi. lia.
    + unfold grows. by rewrite Harr.
    + lia.
  - intros n nt wn Hn (rows & Hmat' & Hlen & Hwidth & Hfirst & Hg & Hcur').
    destruct (sim_prediction_path_ok m lmda Y scores h tp X_oos sv n nt wn
                L Sc Ya rows Hlev)
      as (nt' & wn' & row & Hpath & Hg' & Hc & Hm & Hrl & Hr0); try done; try lia.
    1-3: by eapply prefix_lookup_Some.
    exists nt', wn'. split; [done|]. exists (<[n := row]> rows). split_and!.
    + done.
    + by rewrite length_insert.
    + by apply Forall_insert.
    + intros i Hi. destruct (decide (i = n)) as [->|Hne].
      * exists row. split; [|done]. apply list_lookup_insert_eq. lia.
      * destruct (Hfirst i ltac:(lia)) as (r & Hr & Hr0').
        exists r. split; [|done]. by rewrite list_lookup_insert_ne.
    + unfold grows in *. by etrans.
    + lia.
  - rewrite (M_bind_Ok _ _ _ _ _ Hrun).
    eexists _, w'. split.
    + apply (np_transpose_run sv h w' rows Hmat').
    + split_and!.
      * by rewrite length_fmap, length_seq.
      * apply Forall_fmap, Forall_forall. intros j _. simpl.
        by rewrite length_fmap.
      * rewrite list_lookup_fmap, lookup_seq_lt by done. cbn [fmap option_fmap option_map].
        f_equal. apply list_eq. intros i. rewrite list_lookup_fmap.
        destruct (decide (i < simulations)) as [Hi|Hi].
        -- destruct (Hfirst i Hi) as (r & -> & Hr0). simpl. rewrite Hr0. simpl.
           by rewrite lookup_replicate_2.
        -- rewrite (lookup_ge_None_2 rows) by lia.
           symmetry. apply lookup_replicate_None. lia.
      * lia.
Qed.

(** X17: without leverage, on in-sample arrays long enough for the lags
    and not empty, [_sim_prediction] with [h > 0] steps returns a matrix
    of [h] rows and [simulations] columns and consumes [2 * h *
    simulations] outcomes of the random source.  Its first row is
    constant: every simulated path starts with the first step of the
    recursion on the in-sample arrays, before any draw enters. *)
Theorem sim_prediction_matrix (m : EGARCHMReg) (lmda Y scores : ref)
    (h simulations : nat) (tp : list R) (X_oos : list (list R)) (w : world)
    (L Sc Ya : list R) :
  leverage m = false ->
  arrays w !! lmda = Some L -> arrays w !! scores = Some Sc ->
  arrays w !! Y = Some Ya ->
  p m <= length L -> q m <= length Sc -> 0 < length Sc -> 0 < length Ya ->
  p m + q m <= length tp ->
  0 < Layout.k m -> 2 * Layout.k m + 1 <= length tp ->
  0 < h -> h <= length X_oos ->
  Forall (fun row => length row = Layout.k m) (take h X_oos) ->
  exists mat w',
    _sim_prediction m lmda Y scores h tp simulations X_oos w = (Ok mat, w')
    /\ length mat = h
    /\ Forall (fun row => length row = simulations) mat
    /\ mat !! 0 = Some (replicate simulations (first_step m tp X_oos L Sc))
    /\ cursor w' = cursor w + 2 * h * simulations.
Proof.
  intros. by eapply sim_prediction_runs.
Qed.

Lemma sim_prediction_matrix_witness :
  exists mat w',
    _sim_prediction Sample.model11 0 1 2 2 Sample.beta6 3 Sample.X_oos Sample.store
    = (Ok mat, w')
    /\ length mat = 2
    /\ Forall (fun row => length row = 3) mat
    /\ mat !! 0 = Some (replicate 3 (first_step Sample.model11 Sample.beta6
                                       Sample.X_oos [1; 2; 3]%R [7; 8; 9]%R))
    /\ cursor w' = cursor Sample.store + 2 * 2 * 3.
Proof.
  apply (sim_prediction_matrix Sample.model11 0 1 2 2 3 Sample.beta6 Sample.X_oos
           Sample.store [1; 2; 3]%R [7; 8; 9]%R [4; 5; 6]%R).
  - reflexivity.
  - reflexivity.
  - reflexivity.
  - reflexivity.
  - vm_compute. lia.
  - vm_compute. lia.
  - simpl. lia.
  - simpl. lia.
  - vm_compute. lia.
  - vm_compute. lia.
  - vm_compute. lia.
  - lia.
  - simpl. lia.
  - repeat constructor.
Defined.

Lemma set_row_mismatch (mat : ref) (n : nat) (row : list R) (w : world)
    (rows : list (list R)) (old : list R) :
  matrices w !! mat = Some rows -> rows !! n = Some old ->
  length row ≠ length old -> 2 <= length row ->
  set_row mat n row w = (Raise ValueError, w).
Proof.
  intros Hmat Hold Hne Hlen. unfold set_row. rewrite Hmat. cbn [default]. cbv zeta.
  unfold Datatypes.id. rewrite Hold. rewrite decide_False by done.
  destruct row as [|x [|x' row]]; simpl in Hlen; try lia; reflexivity.
Qed.

Lemma py_slice_all {A : Type} (l : list A) : py_slice l (Some 0%Z) None = l.
Proof.
  unfold py_slice, clamp_index, wrap_index. cbn [from_option].
  rewrite firstn_all. destruct (Z.ltb_spec 0 0); [lia|].
  replace (Z.to_nat (Z.max 0 (Z.min 0 (Z.of_nat (length l))))) with 0 by lia.
  reflexivity.
Qed.

(** X18: with [h = 0] and at least one simulation, [_sim_prediction] on
    an [lmda] array of two or more entries raises [ValueError]: the slice
    [lmda_exp[-h:]] is then the whole array, which does not fit a row of
    width 0. *)
Theorem sim_prediction_no_steps (m : EGARCHMReg) (lmda Y scores : ref)
    (simulations : nat) (tp : list R) (X_oos : list (list R)) (w : world)
    (L : list R) :
  arrays w !! lmda = Some L -> 2 <= length L -> 0 < simulations ->
  exists w',
    _sim_prediction m lmda Y scores 0 tp simulations X_oos w
    = (Raise ValueError, w').
Proof.
  intros HL Hlen Hs. rewrite sim_prediction_unfold.
  destruct (np_zeros2_run simulations 0 w) as (w1 & Hz & Harr & Hcur & Hmat).
  rewrite (M_bind_Ok _ _ _ _ _ Hz).
  set (sv := length (matrices w)) in *.
  eexists. apply M_bind_Raise. apply forM_range_first_raises; [done|].
  unfold sim_prediction_path.
  rewrite (M_bind_Ok _ _ _ _ _ (np_copy_pushed _ _)).
  rewrite (M_bind_Ok _ _ _ _ _ (np_copy_pushed _ _)).
  rewrite (M_bind_Ok _ _ _ _ _ (np_copy_pushed _ _)).
  rewrite (contents_Some w1 lmda L) by (by rewrite Harr).
  set (w2 := pushed w1 L). set (w3 := pushed w2 (contents w2 scores)).
  set (w4 := pushed w3 (contents w3 Y)).
  change (forM_range 0 0 ?body ?s) with (mret s : M _).
  rewrite (M_bind_Ok _ _ _ _ _ (M_ret_run _ _)). cbv beta iota.
  rewrite (M_bind_Ok _ _ _ _ _ (deref_run _ _)).
  rewrite (contents_Some w4 (length (arrays w1)) L)
    by (unfold w4, w3; do 2 apply pushed_lookup_old; apply pushed_lookup_new).
  apply M_bind_Raise.
  apply (set_row_mismatch sv 0 _ w4 (replicate simulations (np_zeros 0)) []).
  - exact Hmat.
  - by apply lookup_replicate_2.
  - change (- Z.of_nat 0)%Z with 0%Z. rewrite py_slice_all. simpl. lia.
  - change (- Z.of_nat 0)%Z with 0%Z. by rewrite py_slice_all.
Qed.

Lemma sim_prediction_no_steps_witness :
  exists w',
    _sim_prediction Sample.model11 0 1 2 0 Sample.beta6 3 Sample.X_oos Sample.store
    = (Raise ValueError, w').
Proof.
  apply (sim_prediction_no_steps Sample.model11 0 1 2 3 Sample.beta6 Sample.X_oos
           Sample.store [1; 2; 3]%R).
  - reflexivity.
  - simpl. lia.
  - lia.
Defined.
(** ** The forecast plot, end to end *)




(** ** What the filter and the mean forecast do not look at *)

(** Row [i] of the log-volatility only depends on the rows before it and
    on the observations before it, as long as a row with leverage has a
    previous row. *)
Lemma lmda_row_causal (m : EGARCHMReg) (parm Y Y' : list R)
    (st st' : filter_arrays) (i : nat) :
  max_lag m = Nat.max (p m) (q m) ->
  (leverage m = true -> 0 < max_lag m) ->
  agree_below i st' st ->
  (forall j, j < i -> Y' !!! j = Y !!! j) ->
  lmda_row m parm Y' st' i = lmda_row m parm Y st i.
Proof.
  intros Hlag Hlev Hag HY. unfold lmda_row. case_decide as Hlt; [done|].
  assert (length (Layout.garch_coeffs m parm) <= i) as Hg
    by (unfold Layout.garch_coeffs; rewrite length_take; lia).
  assert (length (Layout.score_coeffs m parm) <= i) as Hs
    by (unfold Layout.score_coeffs; rewrite length_take; lia).
  f_equal. f_equal; [f_equal|].
  - apply lag_sum_ext. intros j Hj. apply Hag. lia.
  - apply lag_sum_ext. intros j Hj. apply Hag. lia.
  - destruct (leverage m) eqn:El; [|done]. specialize (Hlev eq_refl).
    unfold leverage_term. rewrite !decide_False by lia.
    destruct (Hag (i - 1) ltac:(lia)) as (_ & -> & ->).
    by rewrite (HY (i - 1)) by lia.
Qed.

(** X20: the filter does not look ahead.  Two series that agree on their
    first [max_lag + t + 1] observations give the same rows [0 .. t] of
    [lmda], [scores] and [theta], for the same model and parameters,
    provided a model with leverage has [max_lag > 0].  (With leverage and
    [p = q = 0], row 0 reads [Y[-1]], the last observation.) *)
Theorem filter_causal (m : EGARCHMReg) (y' : list R) (beta : list R) (t : nat) :
  filter_ready m beta ->
  length y' - max_lag m <= length (X m) ->
  take (max_lag m + t + 1) y' = take (max_lag m + t + 1) (data m) ->
  max_lag m + t < length (data m) ->
  (leverage m = true -> 0 < max_lag m) ->
  exists lm Y sc th lm' Y' sc' th',
    _model m beta = Ok (lm, Y, sc, th)
    /\ _model (with_data m y') beta = Ok (lm', Y', sc', th')
    /\ take (t + 1) lm' = take (t + 1) lm
    /\ take (t + 1) sc' = take (t + 1) sc
    /\ take (t + 1) th' = take (t + 1) th.
Proof.
  intros Hready HX' Htake Ht Hlev.
  assert (max_lag m + t < length y') as Ht'.
  { apply (f_equal length) in Htake. rewrite !length_take in Htake. lia. }
  assert (filter_ready (with_data m y') beta) as Hready'.
  { destruct Hready as (H1 & H2 & H3 & H4 & H5 & H6 & H7).
    unfold filter_ready, Layout.k, Layout.shift in *.
    cbn [with_data latent_variables z_no p q leverage max_lag data X X_names].
    by split_and!. }
  destruct (filter_rows m beta Hready) as (st & Hrun & Hl & Hth & Hsc & Hrows).
  destruct (filter_rows _ beta Hready')
    as (st' & Hrun' & Hl' & Hth' & Hsc' & Hrows').
  pose proof (kept_length m) as Hn.
  pose proof (kept_length (with_data m y')) as Hn'.
  cbn [with_data data max_lag] in Hn'.
  destruct Hready as (_ & _ & _ & Hlag & _).
  assert (forall j, j <= t -> kept (with_data m y') !!! j = kept m !!! j) as HY.
  { intros j Hj. unfold kept. cbn [with_data data max_lag].
    rewrite !lookup_total_drop.
    rewrite <- (lookup_total_take_lt y' (max_lag m + t + 1)) by lia.
    rewrite <- (lookup_total_take_lt (data m) (max_lag m + t + 1)) by lia.
    by rewrite Htake. }
  assert (forall i, i <= t ->
            lmda st' !!! i = lmda st !!! i /\ theta st' !!! i = theta st !!! i
            /\ scores st' !!! i = scores st !!! i) as Hagree.
  { intros i. induction i as [i IH] using lt_wf_ind. intros Hi.
    destruct (Hrows i ltac:(lia)) as (Rl & Rth & Rs).
    destruct (Hrows' i ltac:(lia)) as (Rl' & Rth' & Rs').
    cbn [with_data latent_variables] in Rl', Rth', Rs'.
    assert (lmda st' !!! i = lmda st !!! i) as El.
    { rewrite Rl', Rl.
      change (lmda_row (with_data m y') ?a ?b ?c ?d) with (lmda_row m a b c d).
      apply lmda_row_causal; try done.
      - intros j Hj. apply IH; lia.
      - intros j Hj. apply HY. lia. }
    assert (theta st' !!! i = theta st !!! i) as Eth.
    { rewrite Rth', Rth. unfold theta_row.
      cbn [with_data max_lag X p q leverage]. unfold Layout.mean_reg_coeffs,
        Layout.garch_in_mean, Layout.k, Layout.shift.
      cbn [with_data max_lag X p q leverage X_names]. by rewrite El. }
    split_and!; try done.
    rewrite Rs', Rs. unfold score_row. cbn [with_data p q].
    by rewrite El, Eth, HY. }
  exists (lmda st), (kept m), (scores st), (theta st),
    (lmda st'), (kept (with_data m y')), (scores st'), (theta st').
  split; [done|]. split; [done|].
  assert (forall l l' : list R,
            t < length l -> t < length l' ->
            (forall i, i <= t -> l' !!! i = l !!! i) ->
            take (t + 1) l' = take (t + 1) l) as Hlist.
  { intros l l' Hlen Hlen' Heq. apply list_eq. intros i.
    destruct (decide (i < t + 1)) as [Hi|Hi].
    - rewrite !lookup_take_lt by done.
      rewrite (lookup_total_Some l i), (lookup_total_Some l' i) by lia.
      by rewrite Heq by lia.
    - by rewrite !lookup_take_ge by lia. }
  split_and!; apply Hlist; try lia; intros i Hi; by apply Hagree.
Qed.

Lemma filter_causal_witness :
  exists lm Y sc th lm' Y' sc' th',
    _model Sample.model11_lev Sample.beta7 = Ok (lm, Y, sc, th)
    /\ _model (with_data Sample.model11_lev [1; 2; 9; 9]%R) Sample.beta7
       = Ok (lm', Y', sc', th')
    /\ take (0 + 1) lm' = take (0 + 1) lm
    /\ take (0 + 1) sc' = take (0 + 1) sc
    /\ take (0 + 1) th' = take (0 + 1) th.
Proof.
  apply (filter_causal Sample.model11_lev [1; 2; 9; 9]%R Sample.beta7 0).
  - vm_compute. repeat split; try lia. repeat constructor.
  - vm_compute. lia.
  - reflexivity.
  - vm_compute. lia.
  - intros _. vm_compute. lia.
Defined.

Lemma forecast_path_model (m m' : EGARCHMReg) (tp : list R) (X_oos : list (list R))
    (L Sc : list R) (s : nat) :
  p m' = p m -> q m' = q m -> X_names m' = X_names m ->
  forecast_path m' tp X_oos L Sc s = forecast_path m tp X_oos L Sc s.
Proof.
  intros Hp Hq Hn. induction s as [|s IH]; [done|].
  cbn [forecast_path]. rewrite IH.
  unfold Layout.garch_coeffs, Layout.score_coeffs, Layout.vol_reg_coeffs, Layout.k.
  by rewrite Hp, Hq, Hn.
Qed.

(** X21: the mean forecast never reads the past observations or the
    leverage flag.  Whatever array is passed as [Y], and for any model
    with the same [p], [q] and regression names, [_mean_prediction] on
    the same [lmda], [scores], parameters and covariates builds the same
    path. *)
Theorem mean_prediction_ignores_Y_and_leverage (m m' : EGARCHMReg)
    (lmda Y Y' scores : ref) (h : nat) (tp : list R) (X_oos : list (list R))
    (w : world) (L Sc : list R) :
  p m' = p m -> q m' = q m -> X_names m' = X_names m ->
  arrays w !! lmda = Some L -> arrays w !! scores = Some Sc ->
  p m <= length L -> q m <= length Sc -> p m + q m <= length tp ->
  0 < Layout.k m -> 2 * Layout.k m + 1 <= length tp ->
  h <= length X_oos ->
  Forall (fun row => length row = Layout.k m) (take h X_oos) ->
  exists r r' w1 w2 path,
    _mean_prediction m lmda Y scores h tp X_oos w = (Ok r, w1)
    /\ _mean_prediction m' lmda Y' scores h tp X_oos w = (Ok r', w2)
    /\ arrays w1 !! r = Some path /\ arrays w2 !! r' = Some path
    /\ length path = length L + h.
Proof.
  intros Hp Hq Hn HL HSc HpL HqS Hpq Hk Hk2 HhX Hrows.
  destruct (mean_prediction_runs m lmda Y scores h tp X_oos w L Sc)
    as (r & w1 & Hrun & HP); try done.
  destruct (mean_prediction_runs m' lmda Y' scores h tp X_oos w L Sc)
    as (r' & w2 & Hrun' & HP'); unfold Layout.k in *;
    rewrite ?Hp, ?Hq, ?Hn; try done.
  rewrite (forecast_path_model m m') in HP' by done.
  exists r, r', w1, w2, (forecast_path m tp X_oos L Sc h).
  split_and!; try done. apply forecast_path_length.
Qed.

Lemma mean_prediction_ignores_Y_and_leverage_witness :
  exists r r' w1 w2 path,
    _mean_prediction Sample.model11 0 1 2 2 Sample.beta6 Sample.X_oos Sample.store
    = (Ok r, w1)
    /\ _mean_prediction Sample.model11_lev 0 0 2 2 Sample.beta6 Sample.X_oos
         Sample.store = (Ok r', w2)
    /\ arrays w1 !! r = Some path /\ arrays w2 !! r' = Some path
    /\ length path = length [1; 2; 3]%R + 2.
Proof.
  apply (mean_prediction_ignores_Y_and_leverage Sample.model11 Sample.model11_lev
           0 1 0 2 2 Sample.beta6 Sample.X_oos Sample.store
           [1; 2; 3]%R [7; 8; 9]%R).
  - reflexivity.
  - reflexivity.
  - reflexivity.
  - reflexivity.
  - reflexivity.
  - vm_compute. lia.
  - vm_compute. lia.
  - vm_compute. lia.
  - vm_compute. lia.
  - vm_compute. lia.
  - vm_compute. lia.
  - repeat constructor.
Defined.
